(** * capsule_api: the entity model and the shape normalisation, verified

    A shallow embedding of [capsule_api/capsule_api.py]: the JSON values the
    CRM returns, the [dict]-backed entities ([Opportunity], [Party],
    [Person], [Organisation]) with their derived accessors, the custom-field
    mixin, the response decoding of the client, and the calls of the
    client.  The HTTP transport is an oracle: the far end answers each
    request from the requests made before it, and a call of the client
    threads the list of requests; the decoding functions take the decoded
    response.

    The Python run time the code leans on is written out where the code
    depends on it: truthiness, [==], [in], [dict] with insertion order,
    attribute lookup with the [__getattr__] hook, [sorted], [int()],
    [datetime.strptime] for the one format the code uses, and [Decimal]
    arithmetic in the default context (28 significant digits, half-even). *)

From Stdlib Require Import ZArith List String Ascii Bool Lia.
From Stdlib Require Import Sorting.Sorted Sorting.Permutation.
Import ListNotations.

Set Warnings "-register-all".

Open Scope string_scope.
Open Scope Z_scope.

(** ** Exceptions and results *)

(** The exception classes the code raises or lets through.  [Exception_] is
    the bare [Exception] of [Person.name] and [load_tasks_from_api];
    [DecimalOverflow] is [decimal.Overflow], and [OverflowError] the
    built-in one, which the decimal constructor raises for an exponent
    that does not fit a machine word.  In the
    words of the specification AttributeError is the attribute-not-found
    condition, ValueError the format error, and the bare Exception the
    validation error. *)
Inductive exn : Type :=
| KeyError (key : string)
| AttributeError (name : string)
| ValueError
| TypeError
| Exception_
| InvalidOperation
| DivisionByZero
| DecimalOverflow
| OverflowError.

Inductive result (A : Type) : Type :=
| Ok (a : A)
| Raise (e : exn).

Arguments Ok {A} a.
Arguments Raise {A} e.

Definition bind {A B : Type} (m : result A) (k : A -> result B) : result B :=
  match m with
  | Ok a => k a
  | Raise e => Raise e
  end.

Notation "x <- m ;; k" := (bind m (fun x => k))
  (at level 61, m at next level, right associativity).

(** [try: body except KeyError: handler] *)
Definition except_KeyError {A : Type} (body : result A) (handler : result A)
  : result A :=
  match body with
  | Raise (KeyError _) => handler
  | r => r
  end.

Definition is_AttributeError {A : Type} (m : result A) : bool :=
  match m with Raise (AttributeError _) => true | _ => false end.

(** ** Python values *)

(** Hashable scalars, the keys of a [dict].  A JSON object only has string
    keys; [dict(...)] of a pair sequence can produce the others. *)
Inductive key : Type :=
| KNone
| KBool (b : bool)
| KInt (n : Z)
| KStr (s : string).

(** The values [json.loads] builds (numbers are the integers; the float
    numerals of JSON are outside the model).  A [dict] keeps insertion
    order, so it is an association list; its keys are pairwise different. *)
Inductive pyval : Type :=
| VNone
| VBool (b : bool)
| VInt (n : Z)
| VStr (s : string)
| VList (l : list pyval)
| VDict (d : list (key * pyval)).

Definition pydict (V : Type) : Type := list (key * V).

(** The backing record of an entity: the entity is the [dict] itself. *)
Definition record : Type := pydict pyval.

Definition Z_of_bool (b : bool) : Z := if b then 1 else 0.

Definition key_num (k : key) : option Z :=
  match k with
  | KBool b => Some (Z_of_bool b)
  | KInt n => Some n
  | _ => None
  end.

(** Key equality is Python's: [True == 1] and both hash alike. *)
Definition key_eqb (a b : key) : bool :=
  match a, b with
  | KNone, KNone => true
  | KStr s, KStr t => String.eqb s t
  | _, _ =>
      match key_num a, key_num b with
      | Some x, Some y => Z.eqb x y
      | _, _ => false
      end
  end.

Definition value_of_key (k : key) : pyval :=
  match k with
  | KNone => VNone
  | KBool b => VBool b
  | KInt n => VInt n
  | KStr s => VStr s
  end.

(** [hash(v)]: lists and dicts are unhashable. *)
Definition key_of_value (v : pyval) : result key :=
  match v with
  | VNone => Ok KNone
  | VBool b => Ok (KBool b)
  | VInt n => Ok (KInt n)
  | VStr s => Ok (KStr s)
  | VList _ | VDict _ => Raise TypeError
  end.

Section Dict.
Context {V : Type}.

Fixpoint dict_get (k : key) (d : pydict V) : option V :=
  match d with
  | [] => None
  | (k', v) :: d' => if key_eqb k' k then Some v else dict_get k d'
  end.

Definition dict_has (k : key) (d : pydict V) : bool :=
  match dict_get k d with Some _ => true | None => false end.

(** [d[k] = v]: an existing key keeps its place (and its key object),
    a new key goes to the end. *)
Fixpoint dict_set (k : key) (v : V) (d : pydict V) : pydict V :=
  match d with
  | [] => [(k, v)]
  | (k', v') :: d' =>
      if key_eqb k' k then (k', v) :: d' else (k', v') :: dict_set k v d'
  end.

Definition dict_keys (d : pydict V) : list key := map fst d.
End Dict.

(** [bool(v)] *)
Definition truthy (v : pyval) : bool :=
  match v with
  | VNone => false
  | VBool b => b
  | VInt n => negb (n =? 0)
  | VStr s => negb (String.eqb s "")
  | VList l => match l with [] => false | _ => true end
  | VDict d => match d with [] => false | _ => true end
  end.

Definition value_num (v : pyval) : option Z :=
  match v with
  | VBool b => Some (Z_of_bool b)
  | VInt n => Some n
  | _ => None
  end.

(** [a == b] on these values. *)
Fixpoint py_eq (a b : pyval) {struct a} : bool :=
  match a with
  | VNone => match b with VNone => true | _ => false end
  | VStr s => match b with VStr t => String.eqb s t | _ => false end
  | VBool _ | VInt _ =>
      match value_num a, value_num b with
      | Some x, Some y => Z.eqb x y
      | _, _ => false
      end
  | VList l =>
      match b with
      | VList m =>
          (fix all2 (l m : list pyval) {struct l} : bool :=
             match l, m with
             | [], [] => true
             | x :: l', y :: m' => py_eq x y && all2 l' m'
             | _, _ => false
             end) l m
      | _ => false
      end
  | VDict d =>
      match b with
      | VDict e =>
          Nat.eqb (List.length d) (List.length e) &&
          (fix sub (d : list (key * pyval)) : bool :=
             match d with
             | [] => true
             | (k, v) :: d' =>
                 match dict_get k e with
                 | Some w => py_eq v w
                 | None => false
                 end && sub d'
             end) d
      | _ => false
      end
  end.

Fixpoint is_substring (k s : string) : bool :=
  String.prefix k s ||
  match s with
  | EmptyString => false
  | String _ s' => is_substring k s'
  end.

(** ['k' in x] for a string literal [k]. *)
Definition py_contains (k : string) (x : pyval) : result bool :=
  match x with
  | VDict d => Ok (dict_has (KStr k) d)
  | VList l => Ok (existsb (fun e => py_eq e (VStr k)) l)
  | VStr s => Ok (is_substring k s)
  | VNone | VBool _ | VInt _ => Raise TypeError
  end.

(** [d['k']] on a dict. *)
Definition getitem (d : record) (k : string) : result pyval :=
  match dict_get (KStr k) d with
  | Some v => Ok v
  | None => Raise (KeyError k)
  end.

(** [d.get('k')] on a dict. *)
Definition get (d : record) (k : string) : pyval :=
  match dict_get (KStr k) d with
  | Some v => v
  | None => VNone
  end.

(** [x['k']] on any value: only a dict takes a string subscript. *)
Definition py_getitem (x : pyval) (k : string) : result pyval :=
  match x with
  | VDict d => getitem d k
  | _ => Raise TypeError
  end.

(** [x.get('k')] on any value: only a dict has the method. *)
Definition py_get (x : pyval) (k : string) : result pyval :=
  match x with
  | VDict d => Ok (get d k)
  | _ => Raise (AttributeError "get")
  end.

(** [x.get('k', {})] *)
Definition py_get_or_empty (x : pyval) (k : string) : result pyval :=
  match x with
  | VDict d =>
      Ok (match dict_get (KStr k) d with
          | Some v => v
          | None => VDict []
          end)
  | _ => Raise (AttributeError "get")
  end.

Fixpoint chars (s : string) : list pyval :=
  match s with
  | EmptyString => []
  | String c s' => VStr (String c EmptyString) :: chars s'
  end.

(** [iter(x)], run to the end. *)
Definition py_iter (x : pyval) : result (list pyval) :=
  match x with
  | VList l => Ok l
  | VDict d => Ok (map value_of_key (dict_keys d))
  | VStr s => Ok (chars s)
  | VNone | VBool _ | VInt _ => Raise TypeError
  end.

Fixpoint mapM {A B : Type} (f : A -> result B) (l : list A) : result (list B) :=
  match l with
  | [] => Ok []
  | x :: l' => y <- f x ;; ys <- mapM f l' ;; Ok (y :: ys)
  end.

(** [dict(x)], the constructor every entity class inherits: a mapping is
    copied, any other iterable is read as a sequence of key/value pairs. *)
Definition pair_of (e : pyval) : result (key * pyval) :=
  items <- py_iter e ;;
  match items with
  | [a; b] => k <- key_of_value a ;; Ok (k, b)
  | _ => Raise ValueError
  end.

Fixpoint dict_update_pairs (d : record) (l : list pyval) : result record :=
  match l with
  | [] => Ok d
  | e :: l' => p <- pair_of e ;; dict_update_pairs (dict_set (fst p) (snd p) d) l'
  end.

Definition dict_new (x : pyval) : result record :=
  match x with
  | VDict d => Ok d
  | _ => items <- py_iter x ;; dict_update_pairs [] items
  end.

(** ** Text: digits, [str.strip], [int()] *)

(** Text is ASCII: a string is its bytes, and of the digits and spaces of
    Unicode only the ASCII ones are known here. *)

Definition digit (c : ascii) : option Z :=
  let n := Z.of_N (N_of_ascii c) in
  if (48 <=? n) && (n <=? 57) then Some (n - 48) else None.

(** ASCII white space: what [int()] skips, and what [str.isspace] and
    [Decimal()] skip (the separators 28..31 as well). *)
Definition is_c_space (c : ascii) : bool :=
  let n := Z.of_N (N_of_ascii c) in
  ((9 <=? n) && (n <=? 13)) || (n =? 32).

Definition is_space (c : ascii) : bool :=
  let n := Z.of_N (N_of_ascii c) in
  ((9 <=? n) && (n <=? 13)) || ((28 <=? n) && (n <=? 32)).

Fixpoint drop_while (p : ascii -> bool) (s : list ascii) : list ascii :=
  match s with
  | c :: s' => if p c then drop_while p s' else s
  | [] => []
  end.

Definition strip (p : ascii -> bool) (s : list ascii) : list ascii :=
  rev (drop_while p (rev (drop_while p s))).

Definition lower (c : ascii) : ascii :=
  let n := N_of_ascii c in
  if ((65 <=? n) && (n <=? 90))%N then ascii_of_N (n + 32) else c.

Definition char_is (c : ascii) (lit : string) : bool :=
  String.eqb (String c EmptyString) lit.

(** The digits of an integer literal; one underscore may stand between two
    digits. *)
Fixpoint int_digits (acc : Z) (after_digit : bool) (s : list ascii) : option Z :=
  match s with
  | [] => if after_digit then Some acc else None
  | c :: s' =>
      match digit c with
      | Some d => int_digits (10 * acc + d) true s'
      | None =>
          if char_is c "_" && after_digit then int_digits acc false s' else None
      end
  end.

(** [sys.int_max_str_digits]: an integer numeral of more digits is
    refused (the sign, the white space and the underscores are not
    counted). *)
Definition int_max_str_digits : Z := 4300.

Definition count_digits (s : list ascii) : Z :=
  Z.of_nat
    (List.length
       (filter (fun c => match digit c with Some _ => true | None => false end) s)).

Definition int_of_string (s : string) : result Z :=
  let body := strip is_c_space (list_ascii_of_string s) in
  let parsed :=
    match body with
    | c :: rest =>
        if char_is c "-" then option_map Z.opp (int_digits 0 false rest)
        else if char_is c "+" then int_digits 0 false rest
        else int_digits 0 false body
    | [] => None
    end in
  match parsed with
  | Some n =>
      if count_digits body <=? int_max_str_digits then Ok n
      else Raise ValueError
  | None => Raise ValueError
  end.

(** [int(x)] *)
Definition py_int (x : pyval) : result Z :=
  match x with
  | VInt n => Ok n
  | VBool b => Ok (Z_of_bool b)
  | VStr s => int_of_string s
  | VNone | VList _ | VDict _ => Raise TypeError
  end.

(** ** Text: [str()], [repr()], ['%d' % n], [str.split], [str.lower] *)

Definition digit_char (d : Z) : ascii := ascii_of_N (Z.to_N (48 + d)).

(** The decimal digits of a natural number, the last digit first into
    [acc]; a number has at most as many decimal digits as binary ones. *)
Fixpoint decimal_digits (fuel : nat) (n : Z) (acc : list ascii) : list ascii :=
  match fuel with
  | O => acc
  | S fuel' =>
      if n <? 10 then digit_char n :: acc
      else decimal_digits fuel' (n / 10) (digit_char (n mod 10) :: acc)
  end.

Definition digits_of_Z (n : Z) : list ascii :=
  decimal_digits (S (Z.to_nat (Z.log2 n))) n [].

(** [str(n)] and ['%d' % n] of an integer *)
Definition string_of_Z (n : Z) : string :=
  string_of_list_ascii
    (if n <? 0 then "-"%char :: digits_of_Z (- n) else digits_of_Z n).

Definition hex_digit (d : Z) : ascii :=
  if d <? 10 then digit_char d else ascii_of_N (Z.to_N (87 + d)).

Definition quote : ascii := ascii_of_N 39.
Definition double_quote : ascii := ascii_of_N 34.
Definition backslash : ascii := ascii_of_N 92.

(** One character inside the quotes of [repr(s)]. *)
Definition repr_char (q : ascii) (c : ascii) : list ascii :=
  let n := Z.of_N (N_of_ascii c) in
  if Ascii.eqb c q || Ascii.eqb c backslash then [backslash; c]
  else if n =? 9 then [backslash; "t"%char]
  else if n =? 10 then [backslash; "n"%char]
  else if n =? 13 then [backslash; "r"%char]
  else if (n <? 32) || ((127 <=? n) && (n <=? 160)) || (n =? 173)
  then [backslash; "x"%char; hex_digit (n / 16); hex_digit (n mod 16)]
  else [c].

(** [repr(s)]: single quotes, unless the text has a single quote and no
    double one. *)
Definition repr_string (s : string) : string :=
  let cs := list_ascii_of_string s in
  let q :=
    if existsb (Ascii.eqb quote) cs && negb (existsb (Ascii.eqb double_quote) cs)
    then double_quote else quote in
  string_of_list_ascii (q :: flat_map (repr_char q) cs ++ [q])%list.

Definition repr_key (k : key) : string :=
  match k with
  | KNone => "None"
  | KBool true => "True"
  | KBool false => "False"
  | KInt n => string_of_Z n
  | KStr s => repr_string s
  end.

(** [repr(v)] *)
Fixpoint py_repr (v : pyval) : string :=
  match v with
  | VNone => "None"
  | VBool true => "True"
  | VBool false => "False"
  | VInt n => string_of_Z n
  | VStr s => repr_string s
  | VList l =>
      "[" ++
      (fix items (l : list pyval) : string :=
         match l with
         | [] => ""
         | x :: l' =>
             match l' with
             | [] => py_repr x
             | _ :: _ => py_repr x ++ ", " ++ items l'
             end
         end) l
      ++ "]"
  | VDict d =>
      "{" ++
      (fix items (d : list (key * pyval)) : string :=
         match d with
         | [] => ""
         | (k, x) :: d' =>
             match d' with
             | [] => repr_key k ++ ": " ++ py_repr x
             | _ :: _ => repr_key k ++ ": " ++ py_repr x ++ ", " ++ items d'
             end
         end) d
      ++ "}"
  end.

(** [str(v)], which is also ['%s' % v] for the values here (none is a
    tuple). *)
Definition py_str (v : pyval) : string :=
  match v with
  | VStr s => s
  | _ => py_repr v
  end.

(** ['literal' + x]: only a string can be added to a string. *)
Definition py_concat (s : string) (x : pyval) : result string :=
  match x with
  | VStr t => Ok (s ++ t)
  | _ => Raise TypeError
  end.

(** [s.split(c)] for a separator of one character: never an empty list. *)
Fixpoint split (sep : ascii) (s : string) : list string :=
  match s with
  | EmptyString => [""]
  | String c s' =>
      if Ascii.eqb c sep then "" :: split sep s'
      else
        match split sep s' with
        | piece :: pieces => String c piece :: pieces
        | [] => [String c ""]
        end
  end.

(** [s.split('/')[-1]] *)
Definition last_segment (s : string) : string := last (split "/" s) "".

(** [s.lower()] *)
Definition lower_string (s : string) : string :=
  string_of_list_ascii (map lower (list_ascii_of_string s)).

(** ** Dates: [datetime.strptime(s, '%Y-%m-%dT%H:%M:%SZ')] *)

Record datetime : Type := mk_datetime {
  year : Z; month : Z; day : Z; hour : Z; minute : Z; second : Z
}.

Record date : Type := mk_date { d_year : Z; d_month : Z; d_day : Z }.

(** [datetime.date()] *)
Definition date_of (t : datetime) : date :=
  mk_date (year t) (month t) (day t).

Definition is_leap (y : Z) : bool :=
  ((y mod 4 =? 0) && negb (y mod 100 =? 0)) || (y mod 400 =? 0).

Definition days_in_month (y m : Z) : Z :=
  if m =? 2 then (if is_leap y then 29 else 28)
  else if (m =? 4) || (m =? 6) || (m =? 9) || (m =? 11) then 30
  else 31.

(** [%Y] is exactly four digits. *)
Definition read_year (s : list ascii) : option (Z * list ascii) :=
  match s with
  | a :: b :: c :: d :: r =>
      match digit a, digit b, digit c, digit d with
      | Some a, Some b, Some c, Some d =>
          Some (1000 * a + 100 * b + 10 * c + d, r)
      | _, _, _, _ => None
      end
  | _ => None
  end.

(** A one- or two-digit directive.  The pattern of every directive here
    lists its two-digit forms first and is followed by a literal that is
    not a digit, so two digits in the text must match as a two-digit form. *)
Definition read_field (two_ok one_ok : Z -> bool) (s : list ascii)
  : option (Z * list ascii) :=
  match s with
  | c1 :: s1 =>
      match digit c1 with
      | Some a =>
          match s1 with
          | c2 :: s2 =>
              match digit c2 with
              | Some b =>
                  if two_ok (10 * a + b) then Some (10 * a + b, s2) else None
              | None => if one_ok a then Some (a, s1) else None
              end
          | [] => if one_ok a then Some (a, s1) else None
          end
      | None => None
      end
  | [] => None
  end.

Definition between (lo hi v : Z) : bool := (lo <=? v) && (v <=? hi).

(** [%m]: 1[0-2]|0[1-9]|[1-9] *)
Definition read_month := read_field (between 1 12) (between 1 9).

(** [%d]: 3[0-1]|[1-2]\d|0[1-9]|[1-9]| [1-9] *)
Definition read_day (s : list ascii) : option (Z * list ascii) :=
  match s with
  | c1 :: c2 :: s2 =>
      if char_is c1 " " then
        match digit c2 with
        | Some b => if between 1 9 b then Some (b, s2) else None
        | None => None
        end
      else read_field (between 1 31) (between 1 9) s
  | _ => read_field (between 1 31) (between 1 9) s
  end.

(** [%H]: 2[0-3]|[0-1]\d|\d *)
Definition read_hour := read_field (between 0 23) (between 0 9).

(** [%M]: [0-5]\d|\d *)
Definition read_minute := read_field (between 0 59) (between 0 9).

(** [%S]: 6[0-1]|[0-5]\d|\d *)
Definition read_second := read_field (between 0 61) (between 0 9).

(** A literal of the format; the pattern is compiled with IGNORECASE. *)
Definition expect (lit : string) (s : list ascii) : option (list ascii) :=
  match s with
  | c :: s' => if char_is (lower c) lit then Some s' else None
  | [] => None
  end.

Definition obind {A B : Type} (o : option A) (k : A -> option B) : option B :=
  match o with Some a => k a | None => None end.

Notation "' p <~ o ;; k" := (obind o (fun p => k))
  (at level 61, p pattern, o at next level, right associativity).

Definition match_format (s : list ascii) : option datetime :=
  '(y, s) <~ read_year s ;;
  's <~ expect "-" s ;;
  '(mo, s) <~ read_month s ;;
  's <~ expect "-" s ;;
  '(d, s) <~ read_day s ;;
  's <~ expect "t" s ;;
  '(h, s) <~ read_hour s ;;
  's <~ expect ":" s ;;
  '(mi, s) <~ read_minute s ;;
  's <~ expect ":" s ;;
  '(sec, s) <~ read_second s ;;
  's <~ expect "z" s ;;
  match s with
  | [] => Some (mk_datetime y mo d h mi sec)
  | _ :: _ => None
  end.

(** What the [datetime] constructor refuses after the text has matched. *)
Definition valid_datetime (t : datetime) : bool :=
  (1 <=? year t) && (day t <=? days_in_month (year t) (month t))
  && (second t <=? 59).

Definition strptime (s : string) : result datetime :=
  match match_format (list_ascii_of_string s) with
  | Some t => if valid_datetime t then Ok t else Raise ValueError
  | None => Raise ValueError
  end.

(** [capsule_datetime_to_utc_aware]: the result is always anchored to UTC,
    so the time zone is not stored. *)
Definition capsule_datetime_to_utc_aware (datetime_string : pyval)
  : result datetime :=
  match datetime_string with
  | VStr s => strptime s
  | _ => Raise TypeError
  end.

(** [date.__lt__] and friends compare (year, month, day). *)
Definition date_compare (a b : date) : comparison :=
  match d_year a ?= d_year b with
  | Eq => match d_month a ?= d_month b with
          | Eq => d_day a ?= d_day b
          | c => c
          end
  | c => c
  end.

Definition date_le (a b : date) : Prop := date_compare a b <> Gt.

(** [d.strftime('%Y-%m-%dT00:00:00Z')] of a [datetime.date]: the C library
    prints the year without padding, the month and the day with two
    digits. *)
Definition two_digit_text (v : Z) : string :=
  string_of_list_ascii [digit_char (v / 10); digit_char (v mod 10)].

Definition strftime_midnight (d : date) : string :=
  string_of_Z (d_year d) ++ "-" ++ two_digit_text (d_month d) ++ "-"
  ++ two_digit_text (d_day d) ++ "T00:00:00Z".

(** ** [sorted(l, key=f)] *)

(** When every comparison succeeds the result is the one stable ordering
    of the list, whatever the algorithm; a comparison that raises ends the
    sort with its exception. *)

(** [a < b]: numbers with numbers, strings with strings (by code point),
    lists item by item; anything else is a TypeError. *)
Fixpoint py_lt (a b : pyval) {struct a} : result bool :=
  match a with
  | VBool _ | VInt _ =>
      match value_num a, value_num b with
      | Some x, Some y => Ok (x <? y)
      | _, _ => Raise TypeError
      end
  | VStr s => match b with VStr t => Ok (String.ltb s t) | _ => Raise TypeError end
  | VList l =>
      match b with
      | VList m =>
          (fix lex (l m : list pyval) {struct l} : result bool :=
             match l, m with
             | [], [] => Ok false
             | [], _ :: _ => Ok true
             | _ :: _, [] => Ok false
             | x :: l', y :: m' => if py_eq x y then lex l' m' else py_lt x y
             end) l m
      | _ => Raise TypeError
      end
  | VNone | VDict _ => Raise TypeError
  end.

Section Sorted.
Context {A : Type}.

(** The sort is stable: an item goes in front of the first item that is
    not smaller than it. *)
Fixpoint insert_by (kx : pyval * A) (l : list (pyval * A))
  : result (list (pyval * A)) :=
  match l with
  | [] => Ok [kx]
  | ky :: l' =>
      smaller <- py_lt (fst ky) (fst kx) ;;
      if smaller then r <- insert_by kx l' ;; Ok (ky :: r)
      else Ok (kx :: l)
  end.

Fixpoint sort_by (l : list (pyval * A)) : result (list (pyval * A)) :=
  match l with
  | [] => Ok []
  | kx :: l' => r <- sort_by l' ;; insert_by kx r
  end.

(** The keys are computed for the whole list before any comparison. *)
Definition sorted (key_of : A -> result pyval) (l : list A) : result (list A) :=
  keyed <- mapM (fun x => k <- key_of x ;; Ok (k, x)) l ;;
  r <- sort_by keyed ;;
  Ok (map snd r).
End Sorted.

(** ** [decimal.Decimal] in the default context *)

Module Decimal.

(** [sign] is true for a negative number; [coeff] is the integer the
    digit string [_int] spells. *)
Inductive t : Type :=
| Finite (sign : bool) (coeff : Z) (exp : Z)
| Infinity (sign : bool)
| NaN (sign : bool) (signaling : bool) (payload : Z).

(** [getcontext()]: the traps raise InvalidOperation, DivisionByZero and
    Overflow; rounding is ROUND_HALF_EVEN; clamp is 0. *)
Definition prec : Z := 28.
Definition Emax : Z := 999999.
Definition Emin : Z := -999999.
Definition Etiny : Z := Emin - prec + 1.
Definition Etop : Z := Emax - prec + 1.

(** [len(str(n))] for [0 <= n]; a number has no more decimal digits than
    binary ones, which is the fuel. *)
Fixpoint ndigits_fuel (fuel : nat) (n : Z) : Z :=
  match fuel with
  | O => 1
  | S fuel' => if n <? 10 then 1 else 1 + ndigits_fuel fuel' (n / 10)
  end.

Definition ndigits (n : Z) : Z := ndigits_fuel (Z.to_nat (Z.log2 n)) n.

Definition of_int (n : Z) : t := Finite (n <? 0) (Z.abs n) 0.

(** [_fix]: round to the precision of the context and check the exponent
    range. *)
Definition fix_ (d : t) : result t :=
  match d with
  | NaN s sig p => Ok (NaN s sig (p mod 10 ^ prec))
  | Infinity _ => Ok d
  | Finite s c e =>
      if c =? 0 then Ok (Finite s 0 (Z.min (Z.max e Etiny) Emax))
      else
        let exp_min := ndigits c + e - prec in
        if exp_min >? Etop then Raise DecimalOverflow
        else
          let exp_min := Z.max exp_min Etiny in
          if e <? exp_min then
            let digits := ndigits c + e - exp_min in
            (* fewer than no digits are kept: round 1E(exp_min-1) *)
            let '(c, digits) := if digits <? 0 then (1, 0) else (c, digits) in
            let k := ndigits c - digits in
            let q := c / 10 ^ k in
            let r := c mod 10 ^ k in
            let up := (2 * r >? 10 ^ k) || ((2 * r =? 10 ^ k) && Z.odd q) in
            let q := if up then q + 1 else q in
            let '(q, exp_min) :=
              if ndigits q >? prec then (q / 10, exp_min + 1) else (q, exp_min) in
            if exp_min >? Etop then Raise DecimalOverflow
            else Ok (Finite s q exp_min)
          else Ok d
  end.

(** [_check_nans] *)
Definition check_nans (a b : t) : option (result t) :=
  match a, b with
  | NaN _ true _, _ => Some (Raise InvalidOperation)
  | _, NaN _ true _ => Some (Raise InvalidOperation)
  | NaN _ false _, _ => Some (fix_ a)
  | _, NaN _ false _ => Some (fix_ b)
  | _, _ => None
  end.

(** [__mul__] *)
Definition mul (a b : t) : result t :=
  match check_nans a b with
  | Some r => r
  | None =>
      match a, b with
      | Finite sa ca ea, Finite sb cb eb =>
          fix_ (Finite (xorb sa sb) (ca * cb) (ea + eb))
      | Infinity sa, Finite sb cb _ =>
          if cb =? 0 then Raise InvalidOperation else Ok (Infinity (xorb sa sb))
      | Finite sa ca _, Infinity sb =>
          if ca =? 0 then Raise InvalidOperation else Ok (Infinity (xorb sa sb))
      | Infinity sa, Infinity sb => Ok (Infinity (xorb sa sb))
      | _, _ => Raise InvalidOperation
      end
  end.

(** The loop of [__truediv__] on an exact quotient: trailing zeros go
    while the exponent is below the ideal one.  Every turn raises the
    exponent by one, so [ideal - exp] turns are enough. *)
Fixpoint strip_zeros (fuel : nat) (coeff exp ideal : Z) : Z * Z :=
  match fuel with
  | O => (coeff, exp)
  | S fuel' =>
      if (exp <? ideal) && (coeff mod 10 =? 0)
      then strip_zeros fuel' (coeff / 10) (exp + 1) ideal
      else (coeff, exp)
  end.

(** [__truediv__] *)
Definition truediv (a b : t) : result t :=
  match check_nans a b with
  | Some r => r
  | None =>
      match a, b with
      | Finite sa ca ea, Finite sb cb eb =>
          let sign := xorb sa sb in
          if cb =? 0 then
            Raise (if ca =? 0 then InvalidOperation else DivisionByZero)
          else if ca =? 0 then fix_ (Finite sign 0 (ea - eb))
          else
            let shift := ndigits cb - ndigits ca + prec + 1 in
            let exp := ea - eb - shift in
            let '(coeff, remainder) :=
              if 0 <=? shift
              then (ca * 10 ^ shift / cb, (ca * 10 ^ shift) mod cb)
              else (ca / (cb * 10 ^ (- shift)), ca mod (cb * 10 ^ (- shift))) in
            if remainder =? 0 then
              let '(coeff, exp) :=
                strip_zeros (Z.to_nat (ea - eb - exp)) coeff exp (ea - eb) in
              fix_ (Finite sign coeff exp)
            else
              fix_ (Finite sign (if coeff mod 5 =? 0 then coeff + 1 else coeff) exp)
      | Infinity sa, Finite sb _ _ => Ok (Infinity (xorb sa sb))
      | Finite sa _ _, Infinity sb => Ok (Finite (xorb sa sb) 0 Etiny)
      | _, _ => Raise InvalidOperation
      end
  end.

(** *** The constructor *)

(** The constructor converts exactly, in a context of its own whose
    exponent range is the widest there is: a number whose adjusted
    exponent is above [MAX_EMAX], or whose exponent is below [MIN_ETINY],
    is an InvalidOperation. *)
Definition MAX_EMAX : Z := 999999999999999999.
Definition MIN_ETINY : Z := -1999999999999999997.

Definition exact (d : t) : result t :=
  match d with
  | Finite _ c e =>
      if (MIN_ETINY <=? e) && (e + ndigits c - 1 <=? MAX_EMAX) then Ok d
      else Raise InvalidOperation
  | _ => Ok d
  end.

Fixpoint take_digits (s : list ascii) : list Z * list ascii :=
  match s with
  | c :: s' =>
      match digit c with
      | Some d => let '(ds, r) := take_digits s' in (d :: ds, r)
      | None => ([], s)
      end
  | [] => ([], [])
  end.

Definition digits_value (ds : list Z) : Z :=
  fold_left (fun a d => 10 * a + d) ds 0.

Fixpoint strip_prefix (p : string) (s : list ascii) : option (list ascii) :=
  match p with
  | EmptyString => Some s
  | String c p' =>
      match s with
      | c' :: s' => if Ascii.eqb c c' then strip_prefix p' s' else None
      | [] => None
      end
  end.

(** [E[-+]?\d+] up to the end of the text, or nothing *)
Definition read_exponent (s : list ascii) : option Z :=
  match s with
  | [] => Some 0
  | c :: s1 =>
      if char_is c "e" then
        let '(neg, s2) :=
          match s1 with
          | c' :: s2 =>
              if char_is c' "-" then (true, s2)
              else if char_is c' "+" then (false, s2)
              else (false, s1)
          | [] => (false, s1)
          end in
        match take_digits s2 with
        | ((_ :: _) as ds, []) =>
            Some (if neg then - digits_value ds else digits_value ds)
        | _ => None
        end
      else None
  end.

(** A number: digits, an optional fraction, an optional exponent, with a
    digit somewhere in front of the exponent. *)
Definition read_number (sign : bool) (s : list ascii) : option t :=
  let '(ip, r1) := take_digits s in
  let '(fp, r2) :=
    match r1 with
    | c :: r => if char_is c "." then take_digits r else ([], r1)
    | [] => ([], r1)
    end in
  match (ip ++ fp)%list with
  | [] => None
  | ds =>
      match read_exponent r2 with
      | Some e => Some (Finite sign (digits_value ds) (e - Z.of_nat (List.length fp)))
      | None => None
      end
  end.

Definition read_nan (sign signaling : bool) (s : list ascii) : option t :=
  match take_digits s with
  | (ds, []) => Some (NaN sign signaling (digits_value ds))
  | _ => None
  end.

Definition read_special (sign : bool) (s : list ascii) : option t :=
  let text := string_of_list_ascii s in
  if String.eqb text "inf" || String.eqb text "infinity" then Some (Infinity sign)
  else
    match strip_prefix "nan" s with
    | Some r => read_nan sign false r
    | None =>
        match strip_prefix "snan" s with
        | Some r => read_nan sign true r
        | None => None
        end
    end.

(** [Decimal(str)]: white space around the numeral and underscores in it
    are dropped, letters match in either case; the value is exact. *)
Definition of_string (s : string) : result t :=
  let body :=
    map lower
      (filter (fun c => negb (char_is c "_"))
         (strip is_space (list_ascii_of_string s))) in
  let '(sign, rest) :=
    match body with
    | c :: r =>
        if char_is c "-" then (true, r)
        else if char_is c "+" then (false, r)
        else (false, body)
    | [] => (false, body)
    end in
  match read_number sign rest with
  | Some d => exact d
  | None =>
      match read_special sign rest with
      | Some d => Ok d
      | None => Raise InvalidOperation
      end
  end.

Definition digit_of_value (v : pyval) : option Z :=
  match value_num v with
  | Some n => if between 0 9 n then Some n else None
  | None => None
  end.

Fixpoint digits_of_values (l : list pyval) : option (list Z) :=
  match l with
  | [] => Some []
  | v :: l' =>
      match digit_of_value v, digits_of_values l' with
      | Some d, Some ds => Some (d :: ds)
      | _, _ => None
      end
  end.

(** [Decimal([sign, [digit, ...], exponent])] *)
Definition of_triple (l : list pyval) : result t :=
  match l with
  | [sg; VList ds; ex] =>
      match value_num sg, digits_of_values ds with
      | Some s, Some ds =>
          if between 0 1 s then
            let sign := s =? 1 in
            match ex with
            | VStr "F" => Ok (Infinity sign)
            | VStr "n" => Ok (NaN sign false (digits_value ds))
            | VStr "N" => Ok (NaN sign true (digits_value ds))
            | VStr _ => Raise ValueError
            | _ =>
                match value_num ex with
                | Some e =>
                    (* the exponent is read into a machine word first *)
                    if between (- 2 ^ 63) (2 ^ 63 - 1) e
                    then exact (Finite sign (digits_value ds) e)
                    else Raise OverflowError
                | None => Raise ValueError
                end
            end
          else Raise ValueError
      | _, _ => Raise ValueError
      end
  | _ => Raise ValueError
  end.

(** [Decimal(x)] *)
Definition new (x : pyval) : result t :=
  match x with
  | VStr s => of_string s
  | VInt n => Ok (of_int n)
  | VBool b => Ok (of_int (Z_of_bool b))
  | VList l => of_triple l
  | VNone | VDict _ => Raise TypeError
  end.

(** [d * n] and [d / n] with an [int] on the right: the integer is
    converted exactly first. *)
Definition mul_int (d : t) (n : Z) : result t := mul d (of_int n).
Definition truediv_int (d : t) (n : Z) : result t := truediv d (of_int n).

(** The value of [d] counted in units of [10 ^ q], for [q] at most the
    exponent of [d]. *)
Definition units (q : Z) (d : t) : Z :=
  match d with
  | Finite s c e => (if s then - c else c) * 10 ^ (e - q)
  | _ => 0
  end.

Definition is_zero (d : t) : bool :=
  match d with
  | Finite _ c _ => c =? 0
  | _ => false
  end.

End Decimal.

(** ** Attribute lookup *)

(** What reading an attribute gives on a class that defines [__getattr__]:
    the value its property computes, or, when the property raises
    AttributeError, whatever the [__getattr__] hook finds under that name. *)
Inductive attr (A : Type) : Type :=
| Computed (a : A)
| Fallback (v : pyval).

Arguments Computed {A} a.
Arguments Fallback {A} v.

Definition getattribute {A : Type} (property : result A) (hook : result pyval)
  : result (attr A) :=
  match property with
  | Ok a => Ok (Computed a)
  | Raise (AttributeError _) => v <- hook ;; Ok (Fallback v)
  | Raise e => Raise e
  end.

(** [getattr(self, name, None)] for a property whose value is a plain value *)
Definition getattr_or_None (property hook : result pyval) : result pyval :=
  match getattribute property hook with
  | Ok (Computed v) | Ok (Fallback v) => Ok v
  | Raise (AttributeError _) => Ok VNone
  | Raise e => Raise e
  end.

Definition is_dict (v : pyval) : bool :=
  match v with VDict _ => true | _ => false end.

(** [dict(f(x) for x in l)] and [OrderedDict(...)] of a generator: each pair
    is computed, its key hashed and the entry stored before the next item
    is looked at; [d] is the dict built so far. *)
Fixpoint dict_collect {A V : Type} (f : A -> result (pyval * V)) (l : list A)
  (d : pydict V) : result (pydict V) :=
  match l with
  | [] => Ok d
  | x :: l' =>
      p <- f x ;;
      k <- key_of_value (fst p) ;;
      dict_collect f l' (dict_set k (snd p) d)
  end.

(** [[x for x in l if p(x)]] *)
Fixpoint filterM {A : Type} (p : A -> result bool) (l : list A) : result (list A) :=
  match l with
  | [] => Ok []
  | x :: l' =>
      keep <- p x ;;
      r <- filterM p l' ;;
      Ok (if keep then x :: r else r)
  end.

(** ** class CustomFieldsMixin *)

Module CustomFieldsMixin.

Definition to_tuple (entry : pyval) : result (pyval * pyval) :=
  has_text <- py_contains "text" entry ;;
  if has_text then
    label <- py_getitem entry "label" ;;
    text <- py_getitem entry "text" ;;
    Ok (label, text)
  else
    has_boolean <- py_contains "boolean" entry ;;
    if has_boolean then
      label <- py_getitem entry "label" ;;
      boolean <- py_getitem entry "boolean" ;;
      Ok (label, VBool (py_eq boolean (VStr "true")))
    else
      has_number <- py_contains "number" entry ;;
      if has_number then
        label <- py_getitem entry "label" ;;
        number <- py_getitem entry "number" ;;
        Ok (label, number)
      else Raise ValueError.

(** The body of the property [customfields]. *)
Definition customfields (self : record) : result (pydict pyval) :=
  except_KeyError
    (custom_fields <-
       (let raw := get self "raw_customfields" in
        if truthy raw then Ok raw else getitem self "customfields") ;;
     items <- py_iter custom_fields ;;
     dict_collect to_tuple items [])
    (Raise (AttributeError "customfields")).

Definition datatag_item (x : pyval) : result (pyval * date) :=
  tag <- py_get x "tag" ;;
  name <- (if truthy tag then Ok tag else py_getitem x "label") ;;
  d <- py_getitem x "date" ;;
  t <- capsule_datetime_to_utc_aware d ;;
  Ok (name, date_of t).

(** The body of the property [datatags]; the result is an OrderedDict. *)
Definition datatags (self : record) : result (pydict date) :=
  except_KeyError
    (raw <- getitem self "raw_datatags" ;;
     items <- py_iter raw ;;
     in_order <- sorted (fun x => py_getitem x "date") items ;;
     dict_collect datatag_item in_order [])
    (Raise (AttributeError "datatags")).

Definition has_date (x : pyval) : result bool := py_contains "date" x.
Definition has_no_date (x : pyval) : result bool :=
  b <- py_contains "date" x ;; Ok (negb b).

(** [load_customfields_from_api]: the record after the call, with the
    exception if one ended it. *)
Definition load_customfields_from_api (self : record) (customfields : pyval)
  : result unit * record :=
  match (items <- py_iter customfields ;; filterM has_no_date items) with
  | Raise e => (Raise e, self)
  | Ok plain =>
      let self := dict_set (KStr "raw_customfields") (VList plain) self in
      match (items <- py_iter customfields ;; filterM has_date items) with
      | Raise e => (Raise e, self)
      | Ok dated =>
          (Ok tt, dict_set (KStr "raw_datatags") (VList dated) self)
      end
  end.

(** The property [tags]; it has no [try], so a missing 'tags_id' is a
    KeyError. *)
Definition tags (self : record) : result (list pyval) :=
  tags_id <- getitem self "tags_id" ;;
  items <- py_iter tags_id ;;
  mapM (fun x => py_getitem x "name") items.

Definition load_tags_from_api (self : record) (tags : pyval)
  : result unit * record :=
  match py_iter tags with
  | Raise e => (Raise e, self)
  | Ok items => (Ok tt, dict_set (KStr "tags_id") (VList items) self)
  end.

End CustomFieldsMixin.

(** ** class Opportunity(dict, CustomFieldsMixin) *)

Module Opportunity.

(** [self.customfields]: the hook refuses the name, so an AttributeError
    of the property comes back as the AttributeError of the hook. *)
Definition attr_customfields (self : record) : result (pydict pyval) :=
  match CustomFieldsMixin.customfields self with
  | Raise (AttributeError _) => Raise (AttributeError "")
  | r => r
  end.

(** [__getattr__] *)
Definition getattr_ (self : record) (element : string) : result pyval :=
  if String.eqb element "customfields" then Raise (AttributeError "")
  else
    match dict_get (KStr element) self with
    | Some v => Ok v
    | None =>
        cf <- attr_customfields self ;;
        match dict_get (KStr element) cf with
        | Some v => Ok v
        | None => Raise (AttributeError "")
        end
    end.

(** [self.datatags] *)
Definition attr_datatags (self : record) : result (attr (pydict date)) :=
  getattribute (CustomFieldsMixin.datatags self) (getattr_ self "datatags").

(** The class has no [id] property: [self.id] goes through the hook. *)
Definition id (self : record) : result pyval := getattr_ self "id".

Definition expectedCloseDate (self : record) : result datetime :=
  except_KeyError
    (v <- getitem self "expectedCloseDate" ;; capsule_datetime_to_utc_aware v)
    (Raise (AttributeError "")).

Definition actualCloseDate (self : record) : result datetime :=
  except_KeyError
    (v <- getitem self "actualCloseDate" ;; capsule_datetime_to_utc_aware v)
    (Raise (AttributeError "")).

(** [self.expectedCloseDate] and [self.actualCloseDate] *)
Definition attr_expectedCloseDate (self : record) : result (attr datetime) :=
  getattribute (expectedCloseDate self) (getattr_ self "expectedCloseDate").

Definition attr_actualCloseDate (self : record) : result (attr datetime) :=
  getattribute (actualCloseDate self) (getattr_ self "actualCloseDate").

(** The properties below never raise AttributeError, so reading them
    never reaches the hook. *)
Definition open (self : record) : bool :=
  negb (dict_has (KStr "actualCloseDate") self).

Definition probability (self : record) : result Z :=
  v <- getitem self "probability" ;; py_int v.

Definition value (self : record) : result Decimal.t :=
  except_KeyError
    (v <- getitem self "value" ;; Decimal.new v)
    (Ok (Decimal.of_int 0)).

Definition weighted_value (self : record) : result Decimal.t :=
  v <- value self ;;
  p <- probability self ;;
  m <- Decimal.mul_int v p ;;
  Decimal.truediv_int m 100.

Definition positive_outcome (self : record) : result bool :=
  if open self then Ok false else p <- probability self ;; Ok (p =? 100).

Definition negative_outcome (self : record) : result bool :=
  if open self then Ok false else p <- probability self ;; Ok (p =? 0).

(** [any(x for x in tasks if x.get('opportunityId') != self.id)]: the
    generator hands out the tasks that differ, and [any] asks each of
    them for its truth value. *)
Fixpoint any_foreign (self : record) (tasks : list pyval) : result bool :=
  match tasks with
  | [] => Ok false
  | x :: rest =>
      owner <- py_get x "opportunityId" ;;
      me <- id self ;;
      if negb (py_eq owner me) && truthy x then Ok true
      else any_foreign self rest
  end.

Definition load_tasks_from_api (self : record) (tasks : pyval)
  : result unit * record :=
  match (items <- py_iter tasks ;; any_foreign self items) with
  | Raise e => (Raise e, self)
  | Ok true => (Raise Exception_, self)
  | Ok false => (Ok tt, dict_set (KStr "raw_tasks") tasks self)
  end.

Definition createdOn (self : record) : result datetime :=
  v <- getitem self "createdOn" ;; capsule_datetime_to_utc_aware v.

Definition updatedOn (self : record) : result datetime :=
  v <- getitem self "updatedOn" ;; capsule_datetime_to_utc_aware v.

Definition milestoneId (self : record) : result Z :=
  v <- getitem self "milestoneId" ;; py_int v.

End Opportunity.

(** ** class Party(dict, CustomFieldsMixin) *)

Module Party.

Definition id (self : record) : result pyval := getitem self "id".

Definition attr_customfields (self : record) : result (pydict pyval) :=
  match CustomFieldsMixin.customfields self with
  | Raise (AttributeError _) => Raise (AttributeError "customfields")
  | r => r
  end.

(** [__getattr__] *)
Definition getattr_ (self : record) (element : string) : result pyval :=
  if String.eqb element "customfields" then Raise (AttributeError element)
  else
    match dict_get (KStr element) self with
    | Some v => Ok v
    | None =>
        cf <- attr_customfields self ;;
        match dict_get (KStr element) cf with
        | Some v => Ok v
        | None => Raise (AttributeError element)
        end
    end.

(** [self.datatags] *)
Definition attr_datatags (self : record) : result (attr (pydict date)) :=
  getattribute (CustomFieldsMixin.datatags self) (getattr_ self "datatags").

Definition contacts (self : record) : result pyval :=
  c <- getitem self "contacts" ;;
  Ok (if truthy c then c else VDict []).

(** The body shared by [emails] ('email') and [phone_numbers] ('phone'):
    [Email] and [Phone] are plain [dict] subclasses. *)
Definition contact_list (self : record) (kind name : string)
  : result (list record) :=
  c <- contacts self ;;
  found <- py_get c kind ;;
  if negb (truthy found) then Raise (AttributeError name)
  else
    items <- py_iter (if is_dict found then VList [found] else found) ;;
    mapM dict_new items.

Definition emails (self : record) : result (list record) :=
  contact_list self "email" "emails".

Definition phone_numbers (self : record) : result (list record) :=
  contact_list self "phone" "phone_numbers".

(** [self.emails] and [self.phone_numbers] *)
Definition attr_emails (self : record) : result (attr (list record)) :=
  getattribute (emails self) (getattr_ self "emails").

Definition attr_phone_numbers (self : record) : result (attr (list record)) :=
  getattribute (phone_numbers self) (getattr_ self "phone_numbers").

Definition about (self : record) : result pyval :=
  except_KeyError (getitem self "about") (Raise (AttributeError "about")).

(** [self.about] *)
Definition attr_about (self : record) : result (attr pyval) :=
  getattribute (about self) (getattr_ self "about").

End Party.

(** ** class Person(Party) *)

Module Person.

Definition first_name (self : record) : result pyval :=
  except_KeyError (getitem self "firstName") (Raise (AttributeError "first_name")).

Definition last_name (self : record) : result pyval :=
  except_KeyError (getitem self "lastName") (Raise (AttributeError "last_name")).

(** [' '.join(parts)]: every part has to be a string. *)
Fixpoint join (parts : list pyval) : result string :=
  match parts with
  | [] => Ok ""
  | VStr s :: rest =>
      r <- join rest ;;
      Ok (match rest with [] => s | _ :: _ => s ++ " " ++ r end)
  | _ :: _ => Raise TypeError
  end.

Definition name (self : record) : result string :=
  first <- getattr_or_None (first_name self) (Party.getattr_ self "first_name") ;;
  last <- getattr_or_None (last_name self) (Party.getattr_ self "last_name") ;;
  ret <- join (filter truthy [first; last]) ;;
  if String.eqb ret "" then _ <- Party.id self ;; Raise Exception_
  else Ok ret.

Definition title (self : record) : result pyval :=
  except_KeyError (getitem self "title") (Raise (AttributeError "title")).

Definition job_title (self : record) : result pyval :=
  except_KeyError (getitem self "jobTitle") (Raise (AttributeError "job_title")).

(** [self.title] and [self.job_title] *)
Definition attr_title (self : record) : result (attr pyval) :=
  getattribute (title self) (Party.getattr_ self "title").

Definition attr_job_title (self : record) : result (attr pyval) :=
  getattribute (job_title self) (Party.getattr_ self "job_title").

End Person.

(** ** class Organisation(Party) *)

Module Organisation.
Definition name (self : record) : result pyval := getitem self "name".
End Organisation.

(** ** class Phone(dict), class Email(dict) *)

Module Phone.

Definition id (self : record) : result pyval := getitem self "id".

Definition phone_number (self : record) : result pyval :=
  getitem self "phoneNumber".

(** [str(self)]: [__str__] has to return a string. *)
Definition str_ (self : record) : result string :=
  v <- phone_number self ;;
  match v with
  | VStr s => Ok s
  | _ => Raise TypeError
  end.

End Phone.

Module Email.

Definition id (self : record) : result pyval := getitem self "id".

Definition email_address (self : record) : result pyval :=
  getitem self "emailAddress".

Definition str_ (self : record) : result string :=
  v <- email_address self ;;
  match v with
  | VStr s => Ok s
  | _ => Raise TypeError
  end.

End Email.

(** ** class Task(dict) *)

Module Task.

Definition id (self : record) : result pyval := getitem self "id".
Definition description (self : record) : result pyval := getitem self "description".
Definition details (self : record) : result pyval := getitem self "details".
Definition owner (self : record) : result pyval := getitem self "owner".

(** [__getattr__] *)
Definition getattr_ (self : record) (element : string) : result pyval :=
  except_KeyError (getitem self element) (Raise (AttributeError element)).

(** [self.id], [self.description], [self.details] and [self.owner] *)
Definition attr_id (self : record) : result (attr pyval) :=
  getattribute (id self) (getattr_ self "id").

Definition attr_description (self : record) : result (attr pyval) :=
  getattribute (description self) (getattr_ self "description").

Definition attr_details (self : record) : result (attr pyval) :=
  getattribute (details self) (getattr_ self "details").

Definition attr_owner (self : record) : result (attr pyval) :=
  getattribute (owner self) (getattr_ self "owner").

End Task.

(** ** class CapsuleAPI: decoding the responses *)

Module CapsuleAPI.

(** The two classes [party] chooses between. *)
Inductive party_entity : Type :=
| APerson (self : record)
| AnOrganisation (self : record).

(** [party]: [result] is the decoded body of [GET party/<id>]. *)
Definition party (result_ : pyval) : result party_entity :=
  match (p <- py_getitem result_ "person" ;; dict_new p) with
  | Ok self => Ok (APerson self)
  | Raise (KeyError _) =>
      o <- py_getitem result_ "organisation" ;;
      self <- dict_new o ;;
      Ok (AnOrganisation self)
  | Raise e => Raise e
  end.

(** The three statements every collection endpoint repeats on the value
    it took out of the envelope:
    [if not v: return []], [if isinstance(v, dict): v = [v]]. *)
Definition one_or_many (v : pyval) : pyval :=
  if negb (truthy v) then VList []
  else if is_dict v then VList [v]
  else v.

(** [milestones]: [resp] is the decoded body of [GET opportunity/milestones]. *)
Definition milestones (resp : pyval) : result pyval :=
  envelope <- py_getitem resp "milestones" ;;
  milestones <- py_get envelope "milestone" ;;
  Ok (one_or_many milestones).

(** [opportunities]: every element is wrapped in [Opportunity]. *)
Definition opportunities (resp : pyval) : result (list record) :=
  envelope <- py_getitem resp "opportunities" ;;
  result_ <- py_get envelope "opportunity" ;;
  items <- py_iter (one_or_many result_) ;;
  mapM dict_new items.

(** [opportunity]: [result] is the decoded body of [GET opportunity/<id>]. *)
Definition opportunity (result_ : pyval) : result record :=
  o <- py_getitem result_ "opportunity" ;; dict_new o.

(** [opportunity_customfields] and [party_customfields], after the GET. *)
Definition customfields_of (result_ : pyval) : result pyval :=
  envelope <- py_getitem result_ "customFields" ;;
  found <- py_get envelope "customField" ;;
  if negb (truthy found) then Ok (VList [])
  else
    envelope <- py_getitem result_ "customFields" ;;
    customfields <- py_getitem envelope "customField" ;;
    Ok (if is_dict customfields then VList [customfields] else customfields).

(** [opportunity_tags], after the GET: [result['tags'].get('tag') or []]. *)
Definition opportunity_tags (result_ : pyval) : result pyval :=
  envelope <- py_getitem result_ "tags" ;;
  found <- py_get envelope "tag" ;;
  Ok (if truthy found then found else VList []).

(** [get_opportunity_history] and [get_party_history], after the GET. *)
Definition history_of (result_ : pyval) : result pyval :=
  history <- py_get_or_empty result_ "history" ;;
  history <- py_get history "historyItem" ;;
  Ok (one_or_many history).

(** [users], after the GET. *)
Definition users (resp : pyval) : result pyval :=
  envelope <- py_getitem resp "users" ;;
  users <- py_get envelope "user" ;;
  Ok (one_or_many users).

(** [people], after the GET: every element is wrapped in [Person]. *)
Definition people (resp : pyval) : result (list record) :=
  result_ <- py_getitem resp "parties" ;;
  people <- py_get result_ "person" ;;
  items <- py_iter (one_or_many people) ;;
  mapM dict_new items.

(** [parties] and [parties_from_opportunity], after the GET: both values
    are taken out and normalised before the first entity is built. *)
Definition parties (resp : pyval) : result (list record * list record) :=
  result_ <- py_getitem resp "parties" ;;
  people <- py_get result_ "person" ;;
  organisations <- py_get result_ "organisation" ;;
  people <- py_iter (one_or_many people) ;;
  people <- mapM dict_new people ;;
  organisations <- py_iter (one_or_many organisations) ;;
  organisations <- mapM dict_new organisations ;;
  Ok (people, organisations).

(** [task], and [put_task] after the PUT. *)
Definition task (result_ : pyval) : result record :=
  t <- py_getitem result_ "task" ;; dict_new t.

(** [put_organisation], after the PUT. *)
Definition organisation (result_ : pyval) : result record :=
  o <- py_getitem result_ "organisation" ;; dict_new o.

(** [tasks], after the GET: the list is taken with [['task']], not with
    [.get('task')]. *)
Definition tasks (resp : pyval) : result (list record) :=
  envelope <- py_getitem resp "tasks" ;;
  result_ <- py_getitem envelope "task" ;;
  items <- py_iter (one_or_many result_) ;;
  mapM dict_new items.

End CapsuleAPI.

(** ** Keyword arguments *)

(** Binding [**kwargs] in a call: every keyword is a string, and none is
    the name of a parameter the call has already filled. *)
Definition keyword_ok (taken : list string) (k : key) : bool :=
  match k with
  | KStr s => negb (existsb (String.eqb s) taken)
  | _ => false
  end.

Definition keywords (taken : list string) (kwargs : record) : result record :=
  if forallb (keyword_ok taken) (dict_keys kwargs) then Ok kwargs
  else Raise TypeError.

(** [d.update(e)] *)
Definition dict_update (d e : record) : record :=
  fold_left (fun acc kv => dict_set (fst kv) (snd kv) acc) e d.

(** ** The [requests] library, as the client sees it *)

Module Requests.

Inductive verb : Type := GET | PUT | POST | DELETE.

(** One call of [requests.get], [requests.put], [requests.post] or
    [requests.delete].  [kwargs] is the dict the call passes on: the query
    parameters of a GET ([params=kwargs]), the JSON body of the others
    ([data=json.dumps(kwargs)]; every value of this file can be dumped).
    The two headers are the same on every call and are not recorded. *)
Record request : Type := mk_request {
  r_verb : verb;
  r_url : string;
  r_auth : string * string;
  r_kwargs : record
}.

(** The parts of a response the client reads: the status, the 'location'
    header, and the value the body decodes to when it is JSON. *)
Record response : Type := mk_response {
  status_code : Z;
  location : option string;
  body : option pyval
}.

(** The requests made so far, the oldest first. *)
Definition trace : Type := list request.

(** The far end: what it answers may depend on everything it was asked
    before; [None] is a request the library could not complete. *)
Definition server : Type := trace -> request -> option response.

(** What a call of the client can raise: an exception of the Python run
    time, or one of the two the library raises. *)
Inductive error : Type :=
| Python (e : exn)
| HTTPError (status : Z)
| ConnectionError.

Inductive outcome (A : Type) : Type :=
| Return (a : A)
| Throw (e : error).

Arguments Return {A} a.
Arguments Throw {A} e.

(** A computation that talks to the server. *)
Definition io (A : Type) : Type := server -> trace -> outcome A * trace.

Definition ret {A : Type} (a : A) : io A := fun _ tr => (Return a, tr).

Definition throw {A : Type} (e : exn) : io A := fun _ tr => (Throw (Python e), tr).

Definition io_bind {A B : Type} (m : io A) (k : A -> io B) : io B :=
  fun srv tr =>
    match m srv tr with
    | (Return a, tr') => k a srv tr'
    | (Throw e, tr') => (Throw e, tr')
    end.

Definition lift {A : Type} (m : result A) : io A :=
  match m with
  | Ok a => ret a
  | Raise e => throw e
  end.

(** The call itself. *)
Definition send (req : request) : io response :=
  fun srv tr =>
    match srv tr req with
    | Some resp => (Return resp, (tr ++ [req])%list)
    | None => (Throw ConnectionError, (tr ++ [req])%list)
    end.

(** [resp.raise_for_status()] *)
Definition raise_for_status (resp : response) : io unit :=
  fun _ tr =>
    if (400 <=? status_code resp) && (status_code resp <? 600)
    then (Throw (HTTPError (status_code resp)), tr)
    else (Return tt, tr).

(** [resp.json()]; the decoding error is a ValueError. *)
Definition json (resp : response) : io pyval :=
  match body resp with
  | Some v => ret v
  | None => throw ValueError
  end.

(** [resp.headers['location']] *)
Definition header_location (resp : response) : io string :=
  match location resp with
  | Some s => ret s
  | None => throw (KeyError "location")
  end.

End Requests.

Notation "x <-- m ;; k" := (Requests.io_bind m (fun x => k))
  (at level 61, m at next level, right associativity).

(** ** class CapsuleAPI: the calls *)

Module Client.
Import Requests.

(** The object [__init__] builds. *)
Record api : Type := mk_api { capsule_name : string; capsule_key : string }.

Definition base_url (self : api) : string :=
  "https://" ++ capsule_name self ++ ".capsulecrm.com/api/".

(** What [request] returns: the decoded body of a GET, the response of
    the other verbs. *)
Inductive reply : Type :=
| Json (v : pyval)
| Response (resp : response).

(** [getattr(requests, method)] for the three names [request] lets by. *)
Definition verb_of (method : string) : option verb :=
  if String.eqb method "put" then Some PUT
  else if String.eqb method "post" then Some POST
  else if String.eqb method "delete" then Some DELETE
  else None.

Definition request (self : api) (method path : string) (kwargs : record)
  : io reply :=
  kwargs <-- lift (keywords ["self"; "method"; "path"] kwargs) ;;
  let auth := (capsule_key self, capsule_name self) in
  let method := lower_string method in
  if String.eqb method "get" then
    result_ <-- send (mk_request GET (base_url self ++ path) auth kwargs) ;;
    _ <-- raise_for_status result_ ;;
    v <-- json result_ ;;
    ret (Json v)
  else
    match verb_of method with
    | Some v =>
        result_ <-- send (mk_request v (base_url self ++ path) auth kwargs) ;;
        _ <-- raise_for_status result_ ;;
        ret (Response result_)
    | None => throw ValueError
    end.

(** The callers of [get] subscript what it returns, the callers of the
    other three read its headers or its body: a reply of the other kind
    would be a TypeError or an AttributeError there, and [request] never
    gives one. *)
Definition get (self : api) (path : string) (kwargs : record) : io pyval :=
  kwargs <-- lift (keywords ["self"; "path"] kwargs) ;;
  r <-- request self "get" path kwargs ;;
  match r with
  | Json v => ret v
  | Response _ => throw TypeError
  end.

Definition put (self : api) (path : string) (data : record) : io response :=
  r <-- request self "put" path data ;;
  match r with
  | Response resp => ret resp
  | Json _ => throw (AttributeError "headers")
  end.

Definition post (self : api) (path : string) (data : record) : io response :=
  r <-- request self "post" path data ;;
  match r with
  | Response resp => ret resp
  | Json _ => throw (AttributeError "headers")
  end.

Definition delete (self : api) (path : string) (data : record) : io response :=
  r <-- request self "delete" path data ;;
  match r with
  | Response resp => ret resp
  | Json _ => throw (AttributeError "headers")
  end.

(** ['.../%d/...' % int(x)] *)
Definition int_text (x : pyval) : io string :=
  n <-- lift (py_int x) ;; ret (string_of_Z n).

(** [resp.headers['location'].split('/')[-1]] *)
Definition created_id (resp : response) : io string :=
  l <-- header_location resp ;; ret (last_segment l).

(** A method that changes the entity it is given: the entity after the
    call comes back whether the call raised or not. *)
Definition update : Type := server -> trace -> outcome unit * record * trace.

(** Such a call on a local object, which is lost when the call raises. *)
Definition updated (m : update) : io record :=
  fun srv tr =>
    match m srv tr with
    | (Return _, self, tr') => (Return self, tr')
    | (Throw e, _, tr') => (Throw e, tr')
    end.

(** [entity.load(fetch)]: the argument is fetched, then the entity loads
    it. *)
Definition load_with (load : record -> pyval -> result unit * record)
  (entity : record) (fetch : io pyval) : update :=
  fun srv tr =>
    match fetch srv tr with
    | (Throw e, tr') => (Throw e, entity, tr')
    | (Return v, tr') =>
        match load entity v with
        | (Ok _, entity') => (Return tt, entity', tr')
        | (Raise e, entity') => (Throw (Python e), entity', tr')
        end
    end.

(** [for x in l: f(x)], each [x] an object of the list. *)
Fixpoint for_each (f : record -> io record) (l : list record) : io (list record) :=
  match l with
  | [] => ret []
  | x :: l' => x' <-- f x ;; l'' <-- for_each f l' ;; ret (x' :: l'')
  end.

Definition get_opportunities_by_party (self : api) (party : record)
  : io (list record) :=
  id <-- lift (Party.id party) ;;
  id <-- int_text id ;;
  resp <-- get self ("party/" ++ id ++ "/opportunity") [] ;;
  lift (CapsuleAPI.opportunities resp).

Definition opportunities (self : api) (kwargs : record) : io (list record) :=
  kwargs <-- lift (keywords ["self"] kwargs) ;;
  resp <-- get self "opportunity" kwargs ;;
  lift (CapsuleAPI.opportunities resp).

Definition opportunity_customfields (self : api) (opportunity_id : pyval)
  (kwargs : record) : io pyval :=
  kwargs <-- lift (keywords ["self"; "opportunity_id"] kwargs) ;;
  path <-- lift (py_concat "opportunity/" opportunity_id) ;;
  result_ <-- get self (path ++ "/customfields") kwargs ;;
  lift (CapsuleAPI.customfields_of result_).

Definition opportunity_tags (self : api) (opportunity_id : pyval)
  (kwargs : record) : io pyval :=
  kwargs <-- lift (keywords ["self"; "opportunity_id"] kwargs) ;;
  path <-- lift (py_concat "opportunity/" opportunity_id) ;;
  result_ <-- get self (path ++ "/tag") kwargs ;;
  lift (CapsuleAPI.opportunity_tags result_).

Definition inject_opportunity_customfields (self : api) (opportunity : record)
  : update :=
  load_with CustomFieldsMixin.load_customfields_from_api opportunity
    (id <-- lift (Opportunity.id opportunity) ;;
     opportunity_customfields self id []).

Definition inject_opportunity_tags (self : api) (opportunity : record)
  : update :=
  load_with CustomFieldsMixin.load_tags_from_api opportunity
    (id <-- lift (Opportunity.id opportunity) ;;
     opportunity_tags self id []).

(** The two statements of the loop of [full_opportunities], which are the
    two middle statements of [full_opportunity]. *)
Definition inject_opportunity (self : api) (opportunity : record) : io record :=
  opportunity <-- updated (inject_opportunity_customfields self opportunity) ;;
  updated (inject_opportunity_tags self opportunity).

Definition full_opportunities (self : api) (kwargs : record)
  : io (list record) :=
  kwargs <-- lift (keywords ["self"] kwargs) ;;
  opportunities <-- opportunities self kwargs ;;
  for_each (inject_opportunity self) opportunities.

Definition delete_opportunity (self : api) (opportunity_id : pyval)
  : io response :=
  delete self ("opportunity/" ++ py_str opportunity_id) [].

Definition opportunity (self : api) (opportunity_id : pyval) : io record :=
  result_ <-- get self ("opportunity/" ++ py_str opportunity_id) [] ;;
  lift (CapsuleAPI.opportunity result_).

Definition full_opportunity (self : api) (opportunity_id : pyval) : io record :=
  opportunity <-- opportunity self opportunity_id ;;
  inject_opportunity self opportunity.

(** [put_datatag]: [date] is [None] or a [datetime.date], [today] what
    [datetime.date.today()] gives. *)
Definition put_datatag (today : date) (self : api) (opportunity : record)
  (name : pyval) (date : option date) : io unit :=
  let date := match date with Some d => d | None => today end in
  let new_datatag :=
    VDict [(KStr "tag", name); (KStr "label", VStr "Date");
           (KStr "date", VStr (strftime_midnight date))] in
  let result_ :=
    [(KStr "customFields", VDict [(KStr "customField", VList [new_datatag])])] in
  id <-- lift (Opportunity.id opportunity) ;;
  path <-- lift (py_concat "opportunity/" id) ;;
  _ <-- put self (path ++ "/customfields") result_ ;;
  ret tt.

Definition post_organisation (self : api) (organisation : pyval) : io string :=
  let data := [(KStr "organisation", organisation)] in
  resp <-- post self "organisation" data ;;
  created_id resp.

Definition post_person (self : api) (person : pyval) : io string :=
  has_first <-- lift (py_contains "firstName" person) ;;
  has_last <--
    (if has_first then ret true else lift (py_contains "lastName" person)) ;;
  if negb has_first && negb has_last then throw ValueError
  else
    let data := [(KStr "person", person)] in
    resp <-- post self "person" data ;;
    created_id resp.

Definition put_person (self : api) (person_id person : pyval) : io unit :=
  let data := [(KStr "person", person)] in
  id <-- int_text person_id ;;
  _ <-- put self ("person/" ++ id) data ;;
  ret tt.

Definition post_opportunity (self : api) (name party_id milestone_id : pyval)
  (kwargs : record) : io string :=
  kwargs <-- lift (keywords ["self"; "name"; "party_id"; "milestone_id"] kwargs) ;;
  let kwargs := dict_set (KStr "name") name kwargs in
  let kwargs := dict_set (KStr "milestoneId") milestone_id kwargs in
  let data := [(KStr "opportunity", VDict kwargs)] in
  id <-- int_text party_id ;;
  resp <-- post self ("party/" ++ id ++ "/opportunity") data ;;
  created_id resp.

Definition put_opportunity (self : api) (opportunity_id : pyval)
  (kwargs : record) : io unit :=
  kwargs <-- lift (keywords ["self"; "opportunity_id"] kwargs) ;;
  let data := [(KStr "opportunity", VDict kwargs)] in
  id <-- int_text opportunity_id ;;
  _ <-- put self ("opportunity/" ++ id) data ;;
  ret tt.

Definition put_opportunity_customfields (self : api)
  (opportunity_id data : pyval) : io unit :=
  let data := if is_dict data then VList [data] else data in
  let data := [(KStr "customFields", VDict [(KStr "customField", data)])] in
  id <-- int_text opportunity_id ;;
  _ <-- put self ("opportunity/" ++ id ++ "/customfields") data ;;
  ret tt.

Definition post_opportunity_history (self : api) (opportunity_id : pyval)
  (kwargs : record) : io string :=
  kwargs <-- lift (keywords ["self"; "opportunity_id"] kwargs) ;;
  let data := [(KStr "historyItem", VDict kwargs)] in
  id <-- int_text opportunity_id ;;
  resp <-- post self ("opportunity/" ++ id ++ "/history") data ;;
  created_id resp.

Definition get_opportunity_history (self : api) (opportunity_id : pyval)
  : io pyval :=
  id <-- int_text opportunity_id ;;
  result_ <-- get self ("opportunity/" ++ id ++ "/history") [] ;;
  lift (CapsuleAPI.history_of result_).

Definition get_party_history (self : api) (party_id : pyval) : io pyval :=
  id <-- int_text party_id ;;
  result_ <-- get self ("party/" ++ id ++ "/history") [] ;;
  lift (CapsuleAPI.history_of result_).

Definition milestones (self : api) : io pyval :=
  resp <-- get self "opportunity/milestones" [] ;;
  lift (CapsuleAPI.milestones resp).

Definition users (self : api) : io pyval :=
  resp <-- get self "users" [] ;;
  lift (CapsuleAPI.users resp).

(** The query of [parties]: [start] and [limit] when they are not [None],
    then the other keywords. *)
Definition party_params (start limit : pyval) (kwargs : record) : record :=
  let params := [] in
  let params :=
    match start with VNone => params | _ => dict_set (KStr "start") start params end in
  let params :=
    match limit with VNone => params | _ => dict_set (KStr "limit") limit params end in
  dict_update params kwargs.

Definition parties (self : api) (start limit : pyval) (kwargs : record)
  : io (list record * list record) :=
  kwargs <-- lift (keywords ["self"; "start"; "limit"] kwargs) ;;
  resp <-- get self "party" (party_params start limit kwargs) ;;
  lift (CapsuleAPI.parties resp).

Definition party (self : api) (party_id : pyval)
  : io CapsuleAPI.party_entity :=
  result_ <-- get self ("party/" ++ py_str party_id) [] ;;
  lift (CapsuleAPI.party result_).

Definition party_customfields (self : api) (party_id : pyval)
  (kwargs : record) : io pyval :=
  kwargs <-- lift (keywords ["self"; "party_id"] kwargs) ;;
  path <-- lift (py_concat "party/" party_id) ;;
  result_ <-- get self (path ++ "/customfields") kwargs ;;
  lift (CapsuleAPI.customfields_of result_).

Definition inject_party_customfields (self : api) (party : record) : update :=
  load_with CustomFieldsMixin.load_customfields_from_api party
    (id <-- lift (Party.id party) ;;
     party_customfields self id []).

Definition full_party (self : api) (party_id : pyval)
  : io CapsuleAPI.party_entity :=
  party <-- party self party_id ;;
  match party with
  | CapsuleAPI.APerson p =>
      p <-- updated (inject_party_customfields self p) ;;
      ret (CapsuleAPI.APerson p)
  | CapsuleAPI.AnOrganisation o =>
      o <-- updated (inject_party_customfields self o) ;;
      ret (CapsuleAPI.AnOrganisation o)
  end.

(** The loop over [people + organisations]: the people first. *)
Definition inject_parties (self : api) (found : list record * list record)
  : io (list record * list record) :=
  people <--
    for_each (fun p => updated (inject_party_customfields self p)) (fst found) ;;
  organisations <--
    for_each (fun p => updated (inject_party_customfields self p)) (snd found) ;;
  ret (people, organisations).

Definition full_parties (self : api) (start limit : pyval) (kwargs : record)
  : io (list record * list record) :=
  kwargs <-- lift (keywords ["self"; "start"; "limit"] kwargs) ;;
  found <-- parties self start limit kwargs ;;
  inject_parties self found.

Definition parties_from_opportunity (self : api) (opportunity_id : pyval)
  : io (list record * list record) :=
  resp <-- get self ("opportunity/" ++ py_str opportunity_id ++ "/party") [] ;;
  lift (CapsuleAPI.parties resp).

Definition full_parties_from_opportunity (self : api) (opportunity_id : pyval)
  : io (list record * list record) :=
  found <-- parties_from_opportunity self opportunity_id ;;
  inject_parties self found.

Definition people (self : api) (party_id : pyval) : io (list record) :=
  resp <-- get self ("party/" ++ py_str party_id ++ "/people") [] ;;
  lift (CapsuleAPI.people resp).

Definition full_people (self : api) (party_id : pyval) : io (list record) :=
  people <-- people self party_id ;;
  for_each (fun p => updated (inject_party_customfields self p)) people.

Definition task (self : api) (task_id : pyval) : io record :=
  result_ <-- get self ("task/" ++ py_str task_id) [] ;;
  lift (CapsuleAPI.task result_).

Definition tasks (self : api) (kwargs : record) : io (list record) :=
  kwargs <-- lift (keywords ["self"] kwargs) ;;
  resp <-- get self "tasks" kwargs ;;
  lift (CapsuleAPI.tasks resp).

Definition complete_task (self : api) (task_id : pyval) (kwargs : record)
  : io unit :=
  kwargs <-- lift (keywords ["self"; "task_id"] kwargs) ;;
  id <-- int_text task_id ;;
  _ <-- post self ("task/" ++ id ++ "/complete") [] ;;
  ret tt.

Definition put_task (self : api) (task_id : pyval) (kwargs : record)
  : io record :=
  kwargs <-- lift (keywords ["self"; "task_id"] kwargs) ;;
  let data := [(KStr "task", VDict kwargs)] in
  id <-- int_text task_id ;;
  resp <-- put self ("task/" ++ id) data ;;
  result_ <-- json resp ;;
  lift (CapsuleAPI.task result_).

Definition post_history_to_opportunity (self : api) (opportunity_id : pyval)
  (kwargs : record) : io unit :=
  kwargs <-- lift (keywords ["self"; "opportunity_id"] kwargs) ;;
  let data := [(KStr "historyItem", VDict kwargs)] in
  id <-- int_text opportunity_id ;;
  _ <-- post self ("opportunity/" ++ id ++ "/history") data ;;
  ret tt.

Definition add_additional_party_to_opportunity (self : api)
  (opportunity_id party_id : pyval) : io unit :=
  o <-- int_text opportunity_id ;;
  p <-- int_text party_id ;;
  _ <-- post self ("opportunity/" ++ o ++ "/party/" ++ p) [] ;;
  ret tt.

Definition put_organisation (self : api) (party_id : pyval) (kwargs : record)
  : io record :=
  kwargs <-- lift (keywords ["self"; "party_id"] kwargs) ;;
  let data := [(KStr "organisation", VDict kwargs)] in
  id <-- int_text party_id ;;
  resp <-- put self ("organisation/" ++ id) data ;;
  result_ <-- json resp ;;
  lift (CapsuleAPI.organisation result_).

End Client.

(** * The vocabulary of the properties *)

(** ** Keys *)

(** Two keys are the same key of a dict when they agree after [True] and
    [False] are read as 1 and 0. *)
Definition key_norm (k : key) : key :=
  match k with
  | KBool b => KInt (Z_of_bool b)
  | k => k
  end.

(** ** Records used as examples *)

(** One member of a JSON object. *)
Definition field (k : string) (v : pyval) : key * pyval := (KStr k, v).

(** {"id": 7, "createdOn": "2020-01-01T00:00:00Z",
     "updatedOn": "2020-01-02T00:00:00Z", "milestoneId": "3",
     "probability": "50", "value": "200.00"} *)
Definition opportunity_7 : record :=
  [ field "id" (VInt 7);
    field "createdOn" (VStr "2020-01-01T00:00:00Z");
    field "updatedOn" (VStr "2020-01-02T00:00:00Z");
    field "milestoneId" (VStr "3");
    field "probability" (VStr "50");
    field "value" (VStr "200.00") ].

(** {"id": 42, "contacts": ""} *)
Definition party_42 : record := [ field "id" (VInt 42); field "contacts" (VStr "") ].

(** ** Entities *)

(** An entry of the custom-field list that carries a 'date' key. *)
Definition carries_date (x : pyval) : Prop :=
  exists d, x = VDict d /\ dict_has (KStr "date") d = true.

(** The task belongs to [me]: [x.get('opportunityId') == self.id]. *)
Definition owned_by (me : pyval) (task : record) : bool :=
  py_eq (get task "opportunityId") me.

(** What [getattr(self, attribute, None)] finds for a name of a person:
    the value under the key of the API; without that key, what the
    attribute fallback offers, which is the value under a raw key called
    like the attribute, or else the custom field of that label; and None
    when there is none of these (no such custom field, or no custom fields
    at all).  An error in reading the custom fields is an error here. *)
Definition name_part (self : record) (key attribute : string) : result pyval :=
  match dict_get (KStr key) self with
  | Some v => Ok v
  | None =>
      match dict_get (KStr attribute) self with
      | Some v => Ok v
      | None =>
          match CustomFieldsMixin.customfields self with
          | Ok cf =>
              Ok (match dict_get (KStr attribute) cf with
                  | Some v => v
                  | None => VNone
                  end)
          | Raise (AttributeError _) => Ok VNone
          | Raise e => Raise e
          end
      end
  end.

(** The person is without that name: nothing is found for it, or what is
    found is empty (falsy). *)
Definition without (self : record) (key attribute : string) : Prop :=
  exists v, name_part self key attribute = Ok v /\ truthy v = false.

(** ** Decimal amounts *)

(** The coefficient of a decimal is a natural number. *)
Definition coeff_nonneg (d : Decimal.t) : Prop :=
  match d with
  | Decimal.Finite _ c _ => 0 <= c
  | _ => True
  end.

(** [w] is [v * p / 100] exactly: the two sides of [100 * w = p * v] are
    the same integer once both decimals are counted in units of the
    smaller of their exponents. *)
Definition weighted_exactly (v : Decimal.t) (p : Z) (w : Decimal.t) : Prop :=
  match v, w with
  | Decimal.Finite _ _ ev, Decimal.Finite _ _ ew =>
      let q := Z.min ev ew in
      100 * Decimal.units q w = p * Decimal.units q v
  | _, _ => False
  end.

(** {"id": 7, "probability": "100", "value": "10000000000000000000000000001"}:
    an amount of 29 digits. *)
Definition opportunity_29_digits : record :=
  [ field "id" (VInt 7);
    field "probability" (VStr "100");
    field "value" (VStr "10000000000000000000000000001") ].

(** ** Date tags *)

Definition two_digits (a b : ascii) : option Z :=
  match digit a, digit b with
  | Some x, Some y => Some (10 * x + y)
  | _, _ => None
  end.

(** The fixed format YYYY-MM-DDTHH:MM:SSZ: twenty characters, two digits
    for every field but the year (four), upper-case T and Z, and a date
    and time that exist.  The result is the instant the text spells. *)
Definition fixed_format (s : string) : option datetime :=
  match list_ascii_of_string s with
  | [y1; y2; y3; y4; c1; m1; m2; c2; d1; d2; c3; h1; h2; c4; n1; n2; c5; s1; s2; c6] =>
      if char_is c1 "-" && char_is c2 "-" && char_is c3 "T"
         && char_is c4 ":" && char_is c5 ":" && char_is c6 "Z"
      then
        match two_digits y1 y2, two_digits y3 y4, two_digits m1 m2,
              two_digits d1 d2, two_digits h1 h2, two_digits n1 n2,
              two_digits s1 s2 with
        | Some yh, Some yl, Some mo, Some d, Some h, Some mi, Some sec =>
            let t := mk_datetime (100 * yh + yl) mo d h mi sec in
            if between 1 12 mo && between 1 31 d && between 0 23 h
               && between 0 59 mi && valid_datetime t
            then Some t else None
        | _, _, _, _, _, _, _ => None
        end
      else None
  | _ => None
  end.

(** [datetime.__lt__] and friends compare the fields from the year down
    (the instants of this file share one time zone). *)
Definition datetime_compare (a b : datetime) : comparison :=
  match year a ?= year b with
  | Eq =>
      match month a ?= month b with
      | Eq =>
          match day a ?= day b with
          | Eq =>
              match hour a ?= hour b with
              | Eq =>
                  match minute a ?= minute b with
                  | Eq => second a ?= second b
                  | c => c
                  end
              | c => c
              end
          | c => c
          end
      | c => c
      end
  | c => c
  end.

Definition datetime_le (a b : datetime) : Prop := datetime_compare a b <> Gt.

(** The fourteen digits of an instant in the fixed format, read as one
    number. *)
Definition stamp (t : datetime) : Z :=
  ((((year t * 100 + month t) * 100 + day t) * 100 + hour t) * 100
   + minute t) * 100 + second t.

(** Every field but the year has at most two digits. *)
Definition two_digit_fields (t : datetime) : Prop :=
  0 <= month t <= 99 /\ 0 <= day t <= 99 /\ 0 <= hour t <= 99
  /\ 0 <= minute t <= 99 /\ 0 <= second t <= 99.

(** The number a list of digits spells, and the order of two such lists
    read from the left. *)
Fixpoint place_value (l : list Z) : Z :=
  match l with
  | [] => 0
  | d :: l' => d * 10 ^ Z.of_nat (List.length l') + place_value l'
  end.

Fixpoint lex_compare (l l' : list Z) : comparison :=
  match l, l' with
  | d :: r, d' :: r' =>
      match d ?= d' with
      | Eq => lex_compare r r'
      | c => c
      end
  | _, _ => Eq
  end.

Definition is_digit (d : Z) : Prop := 0 <= d <= 9.

(** Where the fourteen digits stand in the twenty characters. *)
Definition layout (cs : list ascii) : list ascii :=
  match cs with
  | [y1; y2; y3; y4; m1; m2; d1; d2; h1; h2; n1; n2; s1; s2] =>
      [y1; y2; y3; y4; "-"; m1; m2; "-"; d1; d2; "T"; h1; h2; ":"; n1; n2;
       ":"; s1; s2; "Z"]%char
  | _ => []
  end.

(** The key [sorted] computed for the item is a string. *)
Definition string_key {A : Type} (kx : pyval * A) : Prop :=
  exists s, fst kx = VStr s.

(** [a] may stand in front of [b]: the key of [b] is not smaller. *)
Definition str_le {A : Type} (a b : pyval * A) : Prop :=
  exists s t, fst a = VStr s /\ fst b = VStr t /\ String.ltb t s = false.

(** The key and the instant of a date-tag entry: the key is the 'tag' of the
    entry, or its 'label' when the tag is absent or falsy; the instant is
    the one its 'date', a text in the fixed format, spells. *)
Definition datatag_entry (x : pyval) : option (key * datetime) :=
  match x with
  | VDict d =>
      match dict_get (KStr "date") d with
      | Some (VStr s) =>
          match fixed_format s with
          | Some t =>
              let name :=
                if truthy (get d "tag") then Some (get d "tag")
                else dict_get (KStr "label") d in
              match name with
              | Some n =>
                  match key_of_value n with
                  | Ok k => Some (k, t)
                  | Raise _ => None
                  end
              | None => None
              end
          | None => None
          end
      | _ => None
      end
  | _ => None
  end.

(** The same, for the entries that have one. *)
Definition item_of (x : pyval) : key * datetime :=
  match datatag_entry x with
  | Some it => it
  | None => (KNone, mk_datetime 0 0 0 0 0 0)
  end.

(** The pair the mapping holds for an item. *)
Definition tagged_date (it : key * datetime) : key * date :=
  (fst it, date_of (snd it)).

Definition is_datatag (x : pyval) : Prop := exists it, datatag_entry x = Some it.

(** The key [sorted] computes for an entry. *)
Definition date_key (x : pyval) : pyval :=
  match py_getitem x "date" with
  | Ok v => v
  | Raise _ => VNone
  end.

(** The key is a text in the fixed format, and it spells the instant of
    the entry. *)
Definition dated (kx : pyval * pyval) : Prop :=
  exists it s, datatag_entry (snd kx) = Some it
               /\ fst kx = VStr s /\ fixed_format s = Some (snd it).

(** {"label": "Date", "tag": tag, "date": date_text} *)
Definition datatag (tag date_text : string) : pyval :=
  VDict [field "label" (VStr "Date"); field "tag" (VStr tag);
         field "date" (VStr date_text)].

(** {"id": 7, "raw_datatags": [x on 2021-01-01, y on 2020-06-01,
    x on 2020-01-01]}: the tag x carries two dates. *)
Definition opportunity_tag_twice : record :=
  [ field "id" (VInt 7);
    field "raw_datatags"
      (VList [datatag "x" "2021-01-01T00:00:00Z";
              datatag "y" "2020-06-01T00:00:00Z";
              datatag "x" "2020-01-01T00:00:00Z"]) ].

(** ** Enrichment *)

(** The entry is a JSON object with a 'date' member. *)
Definition with_date (x : pyval) : bool :=
  match x with
  | VDict d => dict_has (KStr "date") d
  | _ => false
  end.

(** The pair a plain entry stands for, with its label as the key. *)
Definition custom_field (x : pyval) : option (key * pyval) :=
  match CustomFieldsMixin.to_tuple x with
  | Ok (label, v) =>
      match key_of_value label with
      | Ok k => Some (k, v)
      | Raise _ => None
      end
  | Raise _ => None
  end.

(** [dict(pairs)]: a later pair overwrites an earlier one of the same key. *)
Definition dict_of {V : Type} (pairs : list (key * V)) : pydict V :=
  fold_left (fun d kv => dict_set (fst kv) (snd kv) d) pairs [].

(** ** Dates and requests *)

(** What every [datetime.date] satisfies. *)
Definition valid_date (d : date) : Prop :=
  1 <= d_year d <= 9999 /\ 1 <= d_month d <= 12
  /\ 1 <= d_day d <= days_in_month (d_year d) (d_month d).

(** The status [raise_for_status] lets by. *)
Definition accepted (resp : Requests.response) : Prop :=
  Requests.status_code resp < 400 \/ 600 <= Requests.status_code resp.

(** The request a call of the client makes for [path]. *)
Definition request_for (self : Client.api) (v : Requests.verb) (path : string)
  (kwargs : record) : Requests.request :=
  Requests.mk_request v (Client.base_url self ++ path)
    (Client.capsule_key self, Client.capsule_name self) kwargs.

(** {"tag": name, "label": "Date", "date": text}, the entry [put_datatag]
    sends. *)
Definition new_datatag (name : pyval) (text : string) : pyval :=
  VDict [(KStr "tag", name); (KStr "label", VStr "Date"); (KStr "date", VStr text)].

(** A server that gives the same answer to every request. *)
Definition always (resp : Requests.response) : Requests.server :=
  fun _ _ => Some resp.

(** The client of the examples. *)
Definition acme : Client.api := Client.mk_api "acme" "secret".

(** The verb a method name stands for once it is in lower case. *)
Definition verb_named (method : string) : option Requests.verb :=
  if String.eqb method "get" then Some Requests.GET
  else if String.eqb method "put" then Some Requests.PUT
  else if String.eqb method "post" then Some Requests.POST
  else if String.eqb method "delete" then Some Requests.DELETE
  else None.

(** The entity holds the three lists the API calls load into it. *)
Definition enriched (o : record) : Prop :=
  exists plain dated tags,
    dict_get (KStr "raw_customfields") o = Some (VList plain)
    /\ dict_get (KStr "raw_datatags") o = Some (VList dated)
    /\ dict_get (KStr "tags_id") o = Some (VList tags).

(** The text has no slash in it. *)
Definition no_slash (s : string) : Prop := ~ In "/"%char (list_ascii_of_string s).

(** A server with two opportunities, 7 and 8, which carry the same custom
    fields and the same tag; everything else is not found. *)
Definition crm_pages : list (string * pyval) :=
  let customfields :=
    VDict [field "customFields"
             (VDict [field "customField"
                       (VList [datatag "signed" "2021-03-05T00:00:00Z";
                               VDict [field "label" (VStr "Source");
                                      field "text" (VStr "Web")]])])] in
  let tags :=
    VDict [field "tags" (VDict [field "tag" (VList [VDict [field "name" (VStr "vip")]])])] in
  [ ("https://acme.capsulecrm.com/api/opportunity",
     VDict [field "opportunities"
              (VDict [field "opportunity"
                        (VList [VDict [field "id" (VStr "7")];
                                VDict [field "id" (VStr "8")]])])]);
    ("https://acme.capsulecrm.com/api/opportunity/7",
     VDict [field "opportunity" (VDict [field "id" (VStr "7")])]);
    ("https://acme.capsulecrm.com/api/opportunity/9",
     VDict [field "opportunity" (VDict [field "id" (VInt 9)])]);
    ("https://acme.capsulecrm.com/api/opportunity/7/customfields", customfields);
    ("https://acme.capsulecrm.com/api/opportunity/8/customfields", customfields);
    ("https://acme.capsulecrm.com/api/opportunity/7/tag", tags);
    ("https://acme.capsulecrm.com/api/opportunity/8/tag", tags) ].

Definition crm : Requests.server :=
  fun _ req =>
    match find (fun p => String.eqb (fst p) (Requests.r_url req)) crm_pages with
    | Some p => Some (Requests.mk_response 200 None (Some (snd p)))
    | None => Some (Requests.mk_response 404 None None)
    end.

(** The record of a party, and which of the two classes it has. *)
Definition entity_record (p : CapsuleAPI.party_entity) : record :=
  match p with
  | CapsuleAPI.APerson self | CapsuleAPI.AnOrganisation self => self
  end.

Definition is_person (p : CapsuleAPI.party_entity) : bool :=
  match p with
  | CapsuleAPI.APerson _ => true
  | CapsuleAPI.AnOrganisation _ => false
  end.

(** The party holds the two lists [load_customfields_from_api] sets. *)
Definition with_customfields (p : record) : Prop :=
  exists plain dated,
    dict_get (KStr "raw_customfields") p = Some (VList plain)
    /\ dict_get (KStr "raw_datatags") p = Some (VList dated).

(** A GET without a query. *)
Definition plain_get (r : Requests.request) : Prop :=
  Requests.r_verb r = Requests.GET /\ Requests.r_kwargs r = [].

(** ** The text of an instant *)

(** The number a run of digits spells. *)
Fixpoint numeral_from (acc : Z) (cs : list ascii) : option Z :=
  match cs with
  | [] => Some acc
  | c :: cs' =>
      match digit c with
      | Some d => numeral_from (10 * acc + d) cs'
      | None => None
      end
  end.

Definition numeral (cs : list ascii) : option Z :=
  match cs with
  | [] => None
  | _ :: _ => numeral_from 0 cs
  end.

(** A field written with one digit or with two. *)
Definition field_text (cs : list ascii) (v : Z) : Prop :=
  (List.length cs <= 2)%nat /\ numeral cs = Some v.

(** The day may also be one digit behind a space. *)
Definition day_text (cs : list ascii) (v : Z) : Prop :=
  field_text cs v \/ exists c, cs = [" "%char; c] /\ digit c = Some v.

(** The text behind a field does not go on with a digit. *)
Definition field_ends (r : list ascii) : Prop :=
  match r with
  | [] => True
  | c :: _ => digit c = None
  end.

(** The text spells the instant: four digits for the year, then month,
    day, hour, minute and second, each the number its digits spell, with
    the separators of the format ([T] and [Z] in either case) and nothing
    else. *)
Definition spells (s : string) (t : datetime) : Prop :=
  exists ys ms ds hs ns ss sep1 sep2,
    list_ascii_of_string s
    = (ys ++ "-" :: ms ++ "-" :: ds ++ sep1 :: hs ++ ":" :: ns ++ ":"
          :: ss ++ [sep2])%list%char
    /\ List.length ys = 4%nat /\ numeral ys = Some (year t)
    /\ field_text ms (month t)
    /\ day_text ds (day t)
    /\ (sep1 = "T" \/ sep1 = "t")%char
    /\ field_text hs (hour t)
    /\ field_text ns (minute t)
    /\ field_text ss (second t)
    /\ (sep2 = "Z" \/ sep2 = "z")%char.

(** The instant exists: a day of the calendar in the years 1 to 9999, and
    a time of day. *)
Definition in_calendar (t : datetime) : Prop :=
  1 <= year t <= 9999
  /\ 1 <= month t <= 12
  /\ 1 <= day t <= days_in_month (year t) (month t)
  /\ 0 <= hour t <= 23 /\ 0 <= minute t <= 59 /\ 0 <= second t <= 59.

(** * Properties *)

(** ** The run time, on examples *)

Example strptime_ex :
  strptime "2021-03-05T00:00:00Z" = Ok (mk_datetime 2021 3 5 0 0 0).
Proof. reflexivity. Qed.

Example strptime_lenient :
  strptime "2021-3-5t7:08:09z" = Ok (mk_datetime 2021 3 5 7 8 9).
Proof. reflexivity. Qed.

Example strptime_bad_day : strptime "2021-02-29T00:00:00Z" = Raise ValueError.
Proof. reflexivity. Qed.

Example int_of_string_ex : int_of_string " +1_000 " = Ok 1000.
Proof. reflexivity. Qed.

Example Decimal_of_string_ex :
  Decimal.of_string "200.00" = Ok (Decimal.Finite false 20000 (-2)).
Proof. reflexivity. Qed.

Example Decimal_of_string_exp :
  Decimal.of_string " -1_0.5E+3 " = Ok (Decimal.Finite true 105 2).
Proof. reflexivity. Qed.

Example Decimal_third :
  Decimal.truediv_int (Decimal.of_int 1) 3
  = Ok (Decimal.Finite false 3333333333333333333333333333 (-28)).
Proof. vm_compute. reflexivity. Qed.

Example Decimal_two_thirds :
  Decimal.truediv_int (Decimal.of_int 2) 3
  = Ok (Decimal.Finite false 6666666666666666666666666667 (-28)).
Proof. vm_compute. reflexivity. Qed.

(** ** Keys and dicts *)

Lemma key_eqb_norm (a b : key) : key_eqb a b = true <-> key_norm a = key_norm b.
Proof.
  destruct a as [|[]|x|s], b as [|[]|y|t];
    unfold key_eqb, key_norm, key_num, Z_of_bool; split; intros H;
    try reflexivity; try discriminate; try congruence;
    try (apply Z.eqb_eq in H; congruence);
    try (apply String.eqb_eq in H; congruence);
    try (injection H as H; subst; first [apply Z.eqb_refl | apply String.eqb_refl]).
Qed.

Lemma key_eqb_refl (k : key) : key_eqb k k = true.
Proof. apply key_eqb_norm. reflexivity. Qed.

Lemma key_eqb_false_norm (a b : key) :
  key_eqb a b = false <-> key_norm a <> key_norm b.
Proof.
  split.
  - intros H E. apply key_eqb_norm in E. congruence.
  - intros H. destruct (key_eqb a b) eqn:E; [|reflexivity].
    apply key_eqb_norm in E. contradiction.
Qed.

Section DictFacts.
Context {V : Type}.
Implicit Types (d : pydict V) (k : key) (v : V).

Lemma dict_get_set_same d k v : dict_get k (dict_set k v d) = Some v.
Proof.
  induction d as [|[k' v'] d IH]; simpl.
  - now rewrite key_eqb_refl.
  - destruct (key_eqb k' k) eqn:E; simpl; rewrite E; [reflexivity | exact IH].
Qed.

Lemma dict_get_set_other d k k' v :
  key_eqb k k' = false -> dict_get k' (dict_set k v d) = dict_get k' d.
Proof.
  intros Hne. apply key_eqb_false_norm in Hne.
  induction d as [|[k0 v0] d IH]; simpl.
  - destruct (key_eqb k k') eqn:E; [|reflexivity].
    apply key_eqb_norm in E. contradiction.
  - destruct (key_eqb k0 k) eqn:E; simpl.
    + apply key_eqb_norm in E.
      destruct (key_eqb k0 k') eqn:E'; [|reflexivity].
      apply key_eqb_norm in E'. congruence.
    + destruct (key_eqb k0 k'); [reflexivity | exact IH].
Qed.

(** A key that is not in the dict goes to the end. *)
Lemma dict_set_fresh d k v :
  dict_get k d = None -> dict_set k v d = (d ++ [(k, v)])%list.
Proof.
  induction d as [|[k' v'] d IH]; simpl; [reflexivity|].
  destruct (key_eqb k' k); [discriminate|].
  intros H. now rewrite IH.
Qed.

End DictFacts.

Lemma getitem_Some (d : record) (k : string) (v : pyval) :
  dict_get (KStr k) d = Some v -> getitem d k = Ok v.
Proof. unfold getitem. now intros ->. Qed.

Lemma getitem_None (d : record) (k : string) :
  dict_get (KStr k) d = None -> getitem d k = Raise (KeyError k).
Proof. unfold getitem. now intros ->. Qed.

Lemma get_Some (d : record) (k : string) (v : pyval) :
  dict_get (KStr k) d = Some v -> get d k = v.
Proof. unfold get. now intros ->. Qed.

Lemma get_None (d : record) (k : string) :
  dict_get (KStr k) d = None -> get d k = VNone.
Proof. unfold get. now intros ->. Qed.

(** [x == 'true'] holds for the string "true" and nothing else. *)
Lemma py_eq_str (x : pyval) (s : string) :
  py_eq x (VStr s) = true <-> x = VStr s.
Proof.
  destruct x as [|b|n|t|l|d]; simpl; split; intros H; try discriminate.
  - apply String.eqb_eq in H. now subst.
  - injection H as ->. apply String.eqb_refl.
Qed.

(** ** Contacts *)

(** C8: the Person built from {"id": 42, "contacts": ""} (as [party] builds
    it from the response {"person": {...}}) raises AttributeError from both
    [emails] and [phone_numbers]: each property raises it, the [__getattr__]
    hook is asked next and raises it as well; no list is returned and no
    other exception escapes. *)
Theorem C8_empty_contacts_attribute_error :
  CapsuleAPI.party (VDict [field "person" (VDict party_42)])
    = Ok (CapsuleAPI.APerson party_42)
  /\ Party.emails party_42 = Raise (AttributeError "emails")
  /\ Party.phone_numbers party_42 = Raise (AttributeError "phone_numbers")
  /\ is_AttributeError (Party.attr_emails party_42) = true
  /\ is_AttributeError (Party.attr_phone_numbers party_42) = true.
Proof. repeat split; reflexivity. Qed.

(** ** The amount of an opportunity *)

Lemma Opportunity_value_absent (self : record) :
  dict_get (KStr "value") self = None ->
  Opportunity.value self = Ok (Decimal.of_int 0).
Proof.
  intros H. unfold Opportunity.value. now rewrite (getitem_None _ _ H).
Qed.

(** C9: without a 'value' key the accessor [value] returns Decimal(0), no
    exception, and [weighted_value] is then a zero for every probability
    the record carries; the properties of the other optional fields,
    [expectedCloseDate] and [actualCloseDate], raise AttributeError when
    their key is absent. *)
Theorem C9_value_defaults_to_zero (self : record) :
  (dict_get (KStr "value") self = None ->
   Opportunity.value self = Ok (Decimal.Finite false 0 0)
   /\ forall p, Opportunity.probability self = Ok p ->
        Opportunity.weighted_value self = Ok (Decimal.Finite (p <? 0) 0 0)
        /\ Decimal.is_zero (Decimal.Finite (p <? 0) 0 0) = true)
  /\ (dict_get (KStr "expectedCloseDate") self = None ->
      Opportunity.expectedCloseDate self = Raise (AttributeError ""))
  /\ (dict_get (KStr "actualCloseDate") self = None ->
      Opportunity.actualCloseDate self = Raise (AttributeError "")).
Proof.
  split; [|split].
  - intros H. split; [exact (Opportunity_value_absent self H)|].
    intros p Hp. split; [|reflexivity].
    unfold Opportunity.weighted_value.
    rewrite (Opportunity_value_absent self H), Hp. simpl.
    unfold Decimal.mul_int, Decimal.mul, Decimal.of_int. simpl.
    destruct (p <? 0); reflexivity.
  - intros H. unfold Opportunity.expectedCloseDate.
    now rewrite (getitem_None _ _ H).
  - intros H. unfold Opportunity.actualCloseDate.
    now rewrite (getitem_None _ _ H).
Qed.

Lemma C9_value_defaults_to_zero_witness :
  Opportunity.value [field "id" (VInt 7); field "probability" (VStr "50")]
    = Ok (Decimal.Finite false 0 0)
  /\ Opportunity.weighted_value [field "id" (VInt 7); field "probability" (VStr "50")]
    = Ok (Decimal.Finite false 0 0)
  /\ Opportunity.expectedCloseDate [field "id" (VInt 7); field "probability" (VStr "50")]
    = Raise (AttributeError "").
Proof.
  pose proof (C9_value_defaults_to_zero
                [field "id" (VInt 7); field "probability" (VStr "50")])
    as (Hvalue & Hexpected & _).
  destruct (Hvalue eq_refl) as [Hv Hw].
  split; [exact Hv|]. split.
  - exact (proj1 (Hw 50 eq_refl)).
  - exact (Hexpected eq_refl).
Defined.

(** ** Custom fields *)

Lemma filterM_no_date_all_dated (entries : list pyval) :
  Forall carries_date entries ->
  filterM CustomFieldsMixin.has_no_date entries = Ok [].
Proof.
  induction 1 as [|x l (d & -> & Hd) _ IH]; simpl; [reflexivity|].
  unfold CustomFieldsMixin.has_no_date in *. simpl. rewrite Hd. simpl.
  now rewrite IH.
Qed.

Lemma filterM_date_all_dated (entries : list pyval) :
  Forall carries_date entries ->
  filterM CustomFieldsMixin.has_date entries = Ok entries.
Proof.
  induction 1 as [|x l (d & -> & Hd) _ IH]; simpl; [reflexivity|].
  unfold CustomFieldsMixin.has_date in *. simpl. rewrite Hd. simpl.
  now rewrite IH.
Qed.

(** C10: after [load_customfields_from_api] with entries that all carry a
    'date' key, 'raw_customfields' is the empty list; the empty list is
    falsy, so [customfields] turns to the legacy key 'customfields', and
    on an entity without that key the accessor raises AttributeError, on an
    Opportunity and on a Party alike, instead of returning an empty dict. *)
Theorem C10_empty_raw_customfields_falls_back (self : record) (entries : list pyval) :
  Forall carries_date entries ->
  dict_get (KStr "customfields") self = None ->
  let call := CustomFieldsMixin.load_customfields_from_api self (VList entries) in
  fst call = Ok tt
  /\ dict_get (KStr "raw_customfields") (snd call) = Some (VList [])
  /\ CustomFieldsMixin.customfields (snd call) = Raise (AttributeError "customfields")
  /\ Opportunity.attr_customfields (snd call) = Raise (AttributeError "")
  /\ Party.attr_customfields (snd call) = Raise (AttributeError "customfields").
Proof.
  intros Hall Hlegacy call.
  assert (Hcall : call =
    (Ok tt, dict_set (KStr "raw_datatags") (VList entries)
              (dict_set (KStr "raw_customfields") (VList []) self))).
  { unfold call, CustomFieldsMixin.load_customfields_from_api. simpl.
    rewrite (filterM_no_date_all_dated _ Hall), (filterM_date_all_dated _ Hall).
    reflexivity. }
  rewrite Hcall. simpl fst. simpl snd.
  assert (Hraw : dict_get (KStr "raw_customfields")
            (dict_set (KStr "raw_datatags") (VList entries)
               (dict_set (KStr "raw_customfields") (VList []) self))
          = Some (VList [])).
  { rewrite dict_get_set_other by reflexivity. apply dict_get_set_same. }
  assert (Hold : dict_get (KStr "customfields")
            (dict_set (KStr "raw_datatags") (VList entries)
               (dict_set (KStr "raw_customfields") (VList []) self))
          = None).
  { rewrite !dict_get_set_other by reflexivity. exact Hlegacy. }
  assert (Hbody : CustomFieldsMixin.customfields
            (dict_set (KStr "raw_datatags") (VList entries)
               (dict_set (KStr "raw_customfields") (VList []) self))
          = Raise (AttributeError "customfields")).
  { unfold CustomFieldsMixin.customfields.
    rewrite (get_Some _ _ _ Hraw). simpl truthy. cbv iota.
    now rewrite (getitem_None _ _ Hold). }
  repeat split; try assumption.
  - unfold Opportunity.attr_customfields. now rewrite Hbody.
  - unfold Party.attr_customfields. now rewrite Hbody.
Qed.

Lemma C10_empty_raw_customfields_falls_back_witness :
  Opportunity.attr_customfields
    (snd (CustomFieldsMixin.load_customfields_from_api opportunity_7
            (VList [VDict [field "label" (VStr "Signed");
                           field "tag" (VStr "signed");
                           field "date" (VStr "2021-03-05T00:00:00Z")]])))
  = Raise (AttributeError "").
Proof.
  refine (proj1 (proj2 (proj2 (proj2
    (C10_empty_raw_customfields_falls_back opportunity_7 _ _ eq_refl))))).
  constructor; [|constructor].
  eexists. split; reflexivity.
Defined.

(** ** Decoding responses *)

(** C7: [party] returns a Person built from the value under 'person' when
    the response has that key, whatever else it has, and an Organisation
    built from the value under 'organisation' when 'person' is absent; on
    the responses of the server, which carry exactly one of the two
    wrappers, the class is therefore the one the wrapper names. *)
Theorem C7_party_person_before_organisation (response : record) :
  (forall p, dict_get (KStr "person") response = Some (VDict p) ->
     CapsuleAPI.party (VDict response) = Ok (CapsuleAPI.APerson p))
  /\ (forall o, dict_get (KStr "person") response = None ->
        dict_get (KStr "organisation") response = Some (VDict o) ->
        CapsuleAPI.party (VDict response) = Ok (CapsuleAPI.AnOrganisation o)).
Proof.
  split.
  - intros p Hp. unfold CapsuleAPI.party. simpl.
    now rewrite (getitem_Some _ _ _ Hp).
  - intros o Hp Ho. unfold CapsuleAPI.party. simpl.
    rewrite (getitem_None _ _ Hp). simpl.
    now rewrite (getitem_Some _ _ _ Ho).
Qed.

Lemma C7_party_person_before_organisation_witness :
  CapsuleAPI.party (VDict [field "person" (VDict party_42)])
    = Ok (CapsuleAPI.APerson party_42)
  /\ CapsuleAPI.party (VDict [field "organisation" (VDict [field "id" (VInt 9)])])
    = Ok (CapsuleAPI.AnOrganisation [field "id" (VInt 9)]).
Proof.
  split.
  - exact (proj1 (C7_party_person_before_organisation
                    [field "person" (VDict party_42)]) party_42 eq_refl).
  - exact (proj2 (C7_party_person_before_organisation
                    [field "organisation" (VDict [field "id" (VInt 9)])])
                 [field "id" (VInt 9)] eq_refl eq_refl).
Defined.

(** What the three statements of a collection endpoint make of the value
    they took out of the envelope. *)
Lemma one_or_many_falsy (v : pyval) :
  truthy v = false -> CapsuleAPI.one_or_many v = VList [].
Proof. unfold CapsuleAPI.one_or_many. now intros ->. Qed.

Lemma one_or_many_object (d : record) :
  d <> [] -> CapsuleAPI.one_or_many (VDict d) = VList [VDict d].
Proof. destruct d; [contradiction | reflexivity]. Qed.

Lemma one_or_many_list (l : list pyval) :
  CapsuleAPI.one_or_many (VList l) = VList l.
Proof. destruct l; reflexivity. Qed.

Lemma mapM_dict_new_objects (ds : list record) :
  mapM dict_new (map VDict ds) = Ok ds.
Proof. induction ds as [|d ds IH]; simpl; [reflexivity | now rewrite IH]. Qed.

(** C4 as stated fails on the empty object: it is a mapping, and it is
    falsy, so [milestones] returns the empty list and not the list that
    holds the object. *)
Lemma C4_counterexample :
  ~ (forall (envelope : record) (m : pyval),
       dict_get (KStr "milestone") envelope = Some m ->
       is_dict m = true ->
       CapsuleAPI.milestones (VDict [field "milestones" (VDict envelope)])
         = Ok (VList [m])).
Proof.
  intros H.
  specialize (H [field "milestone" (VDict [])] (VDict []) eq_refl eq_refl).
  discriminate H.
Qed.

(** C4, amended: at a collection endpoint ([milestones] returns the
    normalised value itself, [opportunities] wraps its items), a value that
    is absent or falsy (None, "", 0, False, [] and the empty object) gives
    the empty list; a single non-empty object gives the list that holds
    exactly that object; a list is returned as it is, item for item. *)
Theorem C4_one_or_many (envelope : record) :
  let resp_m := VDict [field "milestones" (VDict envelope)] in
  let resp_o := VDict [field "opportunities" (VDict envelope)] in
  (dict_get (KStr "milestone") envelope = None ->
     CapsuleAPI.milestones resp_m = Ok (VList []))
  /\ (forall v, dict_get (KStr "milestone") envelope = Some v -> truthy v = false ->
        CapsuleAPI.milestones resp_m = Ok (VList []))
  /\ (forall d, dict_get (KStr "milestone") envelope = Some (VDict d) -> d <> [] ->
        CapsuleAPI.milestones resp_m = Ok (VList [VDict d]))
  /\ (forall l, dict_get (KStr "milestone") envelope = Some (VList l) ->
        CapsuleAPI.milestones resp_m = Ok (VList l))
  /\ (dict_get (KStr "opportunity") envelope = None ->
        CapsuleAPI.opportunities resp_o = Ok [])
  /\ (forall v, dict_get (KStr "opportunity") envelope = Some v -> truthy v = false ->
        CapsuleAPI.opportunities resp_o = Ok [])
  /\ (forall d, dict_get (KStr "opportunity") envelope = Some (VDict d) -> d <> [] ->
        CapsuleAPI.opportunities resp_o = Ok [d])
  /\ (forall ds, dict_get (KStr "opportunity") envelope = Some (VList (map VDict ds)) ->
        CapsuleAPI.opportunities resp_o = Ok ds).
Proof.
  intros resp_m resp_o.
  unfold resp_m, resp_o, CapsuleAPI.milestones, CapsuleAPI.opportunities.
  cbn [py_getitem getitem dict_get field key_eqb String.eqb Ascii.eqb Bool.eqb bind py_get].
  repeat split.
  - intros H. now rewrite (get_None _ _ H).
  - intros v H Hv. now rewrite (get_Some _ _ _ H), (one_or_many_falsy _ Hv).
  - intros d H Hd. now rewrite (get_Some _ _ _ H), (one_or_many_object _ Hd).
  - intros l H. now rewrite (get_Some _ _ _ H), one_or_many_list.
  - intros H. now rewrite (get_None _ _ H).
  - intros v H Hv. now rewrite (get_Some _ _ _ H), (one_or_many_falsy _ Hv).
  - intros d H Hd. now rewrite (get_Some _ _ _ H), (one_or_many_object _ Hd).
  - intros ds H. rewrite (get_Some _ _ _ H), one_or_many_list.
    cbn [py_iter bind]. apply mapM_dict_new_objects.
Qed.

Lemma C4_one_or_many_witness :
  CapsuleAPI.milestones
    (VDict [field "milestones" (VDict [field "milestone" (VDict [field "id" (VInt 1)])])])
  = Ok (VList [VDict [field "id" (VInt 1)]])
  /\ CapsuleAPI.opportunities
       (VDict [field "opportunities" (VDict [field "opportunity" (VStr "")])])
     = Ok [].
Proof.
  pose proof (C4_one_or_many [field "milestone" (VDict [field "id" (VInt 1)])])
    as (_ & _ & Hobj & _).
  pose proof (C4_one_or_many [field "opportunity" (VStr "")])
    as (_ & _ & _ & _ & _ & Hfalsy & _).
  split.
  - apply Hobj; [reflexivity | discriminate].
  - apply (Hfalsy (VStr "")); reflexivity.
Defined.

(** ** Tasks of an opportunity *)

Lemma Opportunity_id (self : record) (me : pyval) :
  dict_get (KStr "id") self = Some me -> Opportunity.id self = Ok me.
Proof. intros H. unfold Opportunity.id, Opportunity.getattr_. simpl. now rewrite H. Qed.

Lemma any_foreign_nonempty (self : record) (me : pyval) (tasks : list record) :
  Opportunity.id self = Ok me ->
  Forall (fun t => t <> []) tasks ->
  Opportunity.any_foreign self (map VDict tasks)
    = Ok (existsb (fun t => negb (owned_by me t)) tasks).
Proof.
  intros Hid. induction 1 as [|t ts Ht _ IH]; simpl; [reflexivity|].
  rewrite Hid. simpl. fold (owned_by me t).
  destruct t as [|e t]; [contradiction|].
  destruct (owned_by me (e :: t)); simpl; [exact IH | reflexivity].
Qed.

(** On task records that are not empty the check is the one the invariant
    asks for: the call fails exactly when some task is not owned by the
    opportunity, a failed call leaves the record as it was, a call that
    passes stores the list it was given under 'raw_tasks'. *)
Lemma load_tasks_from_api_nonempty (self : record) (me : pyval) (tasks : list record) :
  Opportunity.id self = Ok me ->
  Forall (fun t => t <> []) tasks ->
  Opportunity.load_tasks_from_api self (VList (map VDict tasks))
    = if existsb (fun t => negb (owned_by me t)) tasks
      then (Raise Exception_, self)
      else (Ok tt, dict_set (KStr "raw_tasks") (VList (map VDict tasks)) self).
Proof.
  intros Hid Hne. unfold Opportunity.load_tasks_from_api. simpl.
  rewrite (any_foreign_nonempty _ _ _ Hid Hne).
  now destruct (existsb _ tasks).
Qed.

(** An empty object is not a task record, and it is the one task the check
    lets by whatever it holds: [any] asks the task the generator hands out
    for its truth value, and the empty record is falsy. *)
Example load_tasks_from_api_empty_object :
  Opportunity.load_tasks_from_api opportunity_7 (VList [VDict []])
  = (Ok tt, dict_set (KStr "raw_tasks") (VList [VDict []]) opportunity_7).
Proof. reflexivity. Qed.

(** C5: for an opportunity whose [id] reads as [me] and a list of task
    records (objects with at least one member), [load_tasks_from_api]
    fails with the bare Exception exactly when some task of the list has
    an 'opportunityId' that is not [me] (a task without the member reads as
    None there); a failed call leaves the record as it was, so no
    'raw_tasks' is written; and a call that does not fail returns, and has
    stored the whole list under 'raw_tasks'. *)
Theorem C5_load_tasks_from_api (self : record) (me : pyval) (tasks : list record) :
  Opportunity.id self = Ok me ->
  Forall (fun t => t <> []) tasks ->
  let call := Opportunity.load_tasks_from_api self (VList (map VDict tasks)) in
  (fst call = Raise Exception_
   <-> exists t, In t tasks /\ owned_by me t = false)
  /\ (fst call = Raise Exception_ -> snd call = self)
  /\ (fst call <> Raise Exception_ ->
      fst call = Ok tt
      /\ snd call = dict_set (KStr "raw_tasks") (VList (map VDict tasks)) self
      /\ dict_get (KStr "raw_tasks") (snd call)
         = Some (VList (map VDict tasks))).
Proof.
  intros Hid Hne call. subst call.
  rewrite (load_tasks_from_api_nonempty _ _ _ Hid Hne).
  destruct (existsb (fun t => negb (owned_by me t)) tasks) eqn:E; cbn [fst snd].
  - apply existsb_exists in E. destruct E as (t & Hin & Ht).
    apply negb_true_iff in Ht.
    split; [|split].
    + split; [intros _; exists t; split; assumption | reflexivity].
    + reflexivity.
    + intros H. contradiction H. reflexivity.
  - split; [|split].
    + split; [discriminate|].
      intros (t & Hin & Ht).
      assert (E' : existsb (fun t => negb (owned_by me t)) tasks = true).
      { apply existsb_exists. exists t. split; [exact Hin|].
        rewrite Ht. reflexivity. }
      rewrite E' in E. discriminate E.
    + discriminate.
    + intros _. split; [reflexivity|]. split; [reflexivity|].
      apply dict_get_set_same.
Qed.

Lemma C5_load_tasks_from_api_witness :
  Opportunity.load_tasks_from_api opportunity_7
    (VList [VDict [field "id" (VInt 1); field "opportunityId" (VInt 7)];
            VDict [field "id" (VInt 2); field "opportunityId" (VInt 8)]])
  = (Raise Exception_, opportunity_7)
  /\ dict_get (KStr "raw_tasks")
       (snd (Opportunity.load_tasks_from_api opportunity_7
               (VList [VDict [field "id" (VInt 1); field "opportunityId" (VInt 7)]])))
     = Some (VList [VDict [field "id" (VInt 1); field "opportunityId" (VInt 7)]]).
Proof.
  split.
  - destruct (C5_load_tasks_from_api opportunity_7 (VInt 7)
                [[field "id" (VInt 1); field "opportunityId" (VInt 7)];
                 [field "id" (VInt 2); field "opportunityId" (VInt 8)]])
      as (H1 & H2 & _).
    + reflexivity.
    + repeat constructor; discriminate.
    + apply injective_projections.
      * apply H1.
        exists [field "id" (VInt 2); field "opportunityId" (VInt 8)].
        split; [right; left; reflexivity | reflexivity].
      * apply H2. apply H1.
        exists [field "id" (VInt 2); field "opportunityId" (VInt 8)].
        split; [right; left; reflexivity | reflexivity].
  - destruct (C5_load_tasks_from_api opportunity_7 (VInt 7)
                [[field "id" (VInt 1); field "opportunityId" (VInt 7)]])
      as (H1 & _ & H3).
    + reflexivity.
    + repeat constructor; discriminate.
    + apply H3. intros H. apply H1 in H. destruct H as (t & [<-|[]] & Ht).
      discriminate Ht.
Defined.

(** ** The name of a person *)

(** [getattr(self, 'first_name', None)] and its twin. *)
Lemma getattr_name_part (self : record) (key attribute : string) :
  String.eqb attribute "customfields" = false ->
  getattr_or_None
    (except_KeyError (getitem self key) (Raise (AttributeError attribute)))
    (Party.getattr_ self attribute)
  = name_part self key attribute.
Proof.
  intros Hne. unfold name_part, getitem.
  destruct (dict_get (KStr key) self) as [v|]; [reflexivity|].
  cbn [except_KeyError]. unfold getattr_or_None, getattribute, Party.getattr_.
  rewrite Hne.
  destruct (dict_get (KStr attribute) self) as [v|]; [reflexivity|].
  unfold Party.attr_customfields.
  destruct (CustomFieldsMixin.customfields self) as [cf|e]; cbn [bind].
  - destruct (dict_get (KStr attribute) cf); reflexivity.
  - destruct e; reflexivity.
Qed.

Lemma name_parts (self : record) :
  Person.name self
  = (first <- name_part self "firstName" "first_name" ;;
     last <- name_part self "lastName" "last_name" ;;
     ret <- Person.join (filter truthy [first; last]) ;;
     if String.eqb ret "" then _ <- Party.id self ;; Raise Exception_
     else Ok ret).
Proof.
  unfold Person.name, Person.first_name, Person.last_name.
  rewrite !getattr_name_part by reflexivity. reflexivity.
Qed.

(** Without custom fields (none loaded, or an empty list loaded, and no
    'customfields' of the old format) the fallback has only raw keys to
    offer. *)
Lemma without_unpopulated (self : record) (key attribute : string) :
  dict_get (KStr key) self = None ->
  dict_get (KStr attribute) self = None ->
  truthy (get self "raw_customfields") = false ->
  dict_get (KStr "customfields") self = None ->
  without self key attribute.
Proof.
  intros Hk Ha Hraw Hold. exists VNone. split; [|reflexivity].
  unfold name_part. rewrite Hk, Ha.
  unfold CustomFieldsMixin.customfields. rewrite Hraw.
  rewrite (getitem_None _ _ Hold). reflexivity.
Qed.

(** [name] never returns the empty string. *)
Lemma name_not_empty (self : record) (ret : string) :
  Person.name self = Ok ret -> ret <> "".
Proof.
  unfold Person.name.
  destruct (getattr_or_None (Person.first_name self) _) as [first|]; [|discriminate].
  destruct (getattr_or_None (Person.last_name self) _) as [last|]; [|discriminate].
  cbn [bind].
  destruct (Person.join (filter truthy [first; last])) as [r|] eqn:J; [|discriminate].
  cbn [bind]. destruct (String.eqb r "") eqn:E.
  - destruct (Party.id self); discriminate.
  - intros [= <-]. intros ->. discriminate E.
Qed.

(** C6 as stated fails on both sides.  A person whose only name key is
    'firstName' with the empty string has one of the two keys, and [name]
    raises; a person with neither 'firstName' nor 'lastName' but with a raw
    key 'first_name' gets a name from the [__getattr__] hook. *)
Lemma C6_counterexample :
  (dict_get (KStr "firstName") [field "id" (VInt 42); field "firstName" (VStr "")]
     = Some (VStr "")
   /\ Person.name [field "id" (VInt 42); field "firstName" (VStr "")]
     = Raise Exception_)
  /\ (dict_get (KStr "firstName") [field "id" (VInt 42); field "first_name" (VStr "Bob")]
        = None
      /\ dict_get (KStr "lastName") [field "id" (VInt 42); field "first_name" (VStr "Bob")]
        = None
      /\ Person.name [field "id" (VInt 42); field "first_name" (VStr "Bob")]
        = Ok "Bob").
Proof. repeat split; reflexivity. Qed.

(** C6, amended: [name] never returns the empty string.  With both names
    present as non-empty strings it is the two joined by one space,
    whatever else the record holds.  With one name present as a non-empty
    string and the person without the other, it is that one name.  A
    person with an id and without both names raises the bare Exception.
    A person is without a name when the key of the API is present and
    empty, or absent while the attribute fallback has nothing to offer:
    in particular when neither that key nor a raw key called like the
    attribute is present and the person has no custom fields, loaded or
    not. *)
Theorem C6_person_name (self : record) :
  (forall ret, Person.name self = Ok ret -> ret <> "")
  /\ (forall first last, first <> "" -> last <> "" ->
        dict_get (KStr "firstName") self = Some (VStr first) ->
        dict_get (KStr "lastName") self = Some (VStr last) ->
        Person.name self = Ok (first ++ " " ++ last))
  /\ (forall first, first <> "" ->
        dict_get (KStr "firstName") self = Some (VStr first) ->
        without self "lastName" "last_name" ->
        Person.name self = Ok first)
  /\ (forall last, last <> "" ->
        dict_get (KStr "lastName") self = Some (VStr last) ->
        without self "firstName" "first_name" ->
        Person.name self = Ok last)
  /\ (without self "firstName" "first_name" ->
      without self "lastName" "last_name" ->
      forall id_, dict_get (KStr "id") self = Some id_ ->
      Person.name self = Raise Exception_)
  /\ (forall key attribute,
        (forall v, dict_get (KStr key) self = Some v -> truthy v = false ->
           without self key attribute)
        /\ (dict_get (KStr key) self = None ->
            dict_get (KStr attribute) self = None ->
            truthy (get self "raw_customfields") = false ->
            dict_get (KStr "customfields") self = None ->
            without self key attribute)).
Proof.
  split; [exact (name_not_empty self)|].
  rewrite name_parts.
  split; [|split; [|split; [|split]]].
  - intros [|c f] [|c' l] Hne Hne' Hf Hl; try contradiction.
    unfold name_part. rewrite Hf, Hl. reflexivity.
  - intros [|c f] Hne Hf (v & Hv & Tv); try contradiction.
    unfold name_part at 1. rewrite Hf. cbn [bind]. rewrite Hv. cbn [bind filter truthy].
    rewrite Tv. reflexivity.
  - intros [|c l] Hne Hl (v & Hv & Tv); try contradiction.
    rewrite Hv. cbn [bind]. unfold name_part. rewrite Hl. cbn [bind filter truthy].
    rewrite Tv. reflexivity.
  - intros (v & Hv & Tv) (w & Hw & Tw) id_ Hid.
    rewrite Hv, Hw. cbn [bind filter]. rewrite Tv, Tw. cbn [Person.join bind String.eqb].
    unfold Party.id. rewrite (getitem_Some _ _ _ Hid). reflexivity.
  - intros key attribute. split.
    + intros v Hk Tv. exists v. split; [|exact Tv].
      unfold name_part. rewrite Hk. reflexivity.
    + apply without_unpopulated.
Qed.

Lemma C6_person_name_witness :
  Person.name party_42 = Raise Exception_
  /\ Person.name [field "id" (VInt 42); field "raw_customfields" (VList []);
                  field "raw_datatags" (VList [])] = Raise Exception_
  /\ Person.name
       [field "id" (VInt 1); field "firstName" (VStr "Ann");
        field "lastName" (VStr "Lee");
        field "raw_customfields"
          (VList [VDict [field "label" (VStr "Source"); field "text" (VStr "Web")]]);
        field "raw_datatags" (VList [])] = Ok "Ann Lee"
  /\ Person.name [field "id" (VInt 1); field "firstName" (VStr "Ann");
                  field "lastName" (VStr "")] = Ok "Ann".
Proof.
  split; [|split; [|split]].
  - destruct (C6_person_name party_42) as (_ & _ & _ & _ & H & Hw).
    apply (H (proj2 (Hw "firstName" "first_name") eq_refl eq_refl eq_refl eq_refl)
             (proj2 (Hw "lastName" "last_name") eq_refl eq_refl eq_refl eq_refl)
             (VInt 42) eq_refl).
  - destruct (C6_person_name
                [field "id" (VInt 42); field "raw_customfields" (VList []);
                 field "raw_datatags" (VList [])]) as (_ & _ & _ & _ & H & Hw).
    apply (H (proj2 (Hw "firstName" "first_name") eq_refl eq_refl eq_refl eq_refl)
             (proj2 (Hw "lastName" "last_name") eq_refl eq_refl eq_refl eq_refl)
             (VInt 42) eq_refl).
  - destruct (C6_person_name
                [field "id" (VInt 1); field "firstName" (VStr "Ann");
                 field "lastName" (VStr "Lee");
                 field "raw_customfields"
                   (VList [VDict [field "label" (VStr "Source");
                                  field "text" (VStr "Web")]]);
                 field "raw_datatags" (VList [])]) as (_ & H & _).
    apply (H "Ann" "Lee"); [discriminate | discriminate | reflexivity | reflexivity].
  - destruct (C6_person_name
                [field "id" (VInt 1); field "firstName" (VStr "Ann");
                 field "lastName" (VStr "")]) as (_ & _ & H & _ & _ & Hw).
    apply (H "Ann"); [discriminate | reflexivity |].
    apply (proj1 (Hw "lastName" "last_name") (VStr "")); reflexivity.
Defined.

(** ** The values of plain custom fields *)

Lemma dict_collect_app {A V : Type} (f : A -> result (pyval * V))
  (l1 l2 : list A) (d : pydict V) :
  dict_collect f (l1 ++ l2)%list d
  = (d1 <- dict_collect f l1 d ;; dict_collect f l2 d1).
Proof.
  revert d. induction l1 as [|x l1 IH]; intros d; simpl; [reflexivity|].
  destruct (f x) as [p|]; simpl; [|reflexivity].
  destruct (key_of_value (fst p)); simpl; [apply IH | reflexivity].
Qed.

(** With a non-empty list under 'raw_customfields' the accessor builds its
    dict from that list, entry by entry. *)
Lemma customfields_of_raw (self : record) (entries : list pyval) :
  get self "raw_customfields" = VList entries -> entries <> [] ->
  CustomFieldsMixin.customfields self
  = except_KeyError (dict_collect CustomFieldsMixin.to_tuple entries [])
      (Raise (AttributeError "customfields")).
Proof.
  intros Hraw Hne. unfold CustomFieldsMixin.customfields. rewrite Hraw.
  destruct entries; [contradiction | reflexivity].
Qed.

Lemma to_tuple_text (entry : record) (label text : pyval) :
  dict_get (KStr "label") entry = Some label ->
  dict_get (KStr "text") entry = Some text ->
  CustomFieldsMixin.to_tuple (VDict entry) = Ok (label, text).
Proof.
  intros Hl Ht. unfold CustomFieldsMixin.to_tuple, py_contains, dict_has, py_getitem.
  rewrite Ht. cbn [bind].
  now rewrite (getitem_Some _ _ _ Hl), (getitem_Some _ _ _ Ht).
Qed.

Lemma to_tuple_boolean (entry : record) (label boolean : pyval) :
  dict_get (KStr "label") entry = Some label ->
  dict_get (KStr "text") entry = None ->
  dict_get (KStr "boolean") entry = Some boolean ->
  CustomFieldsMixin.to_tuple (VDict entry)
  = Ok (label, VBool (py_eq boolean (VStr "true"))).
Proof.
  intros Hl Ht Hb. unfold CustomFieldsMixin.to_tuple, py_contains, dict_has, py_getitem.
  rewrite Ht, Hb. cbn [bind].
  now rewrite (getitem_Some _ _ _ Hl), (getitem_Some _ _ _ Hb).
Qed.

Lemma to_tuple_number (entry : record) (label number : pyval) :
  dict_get (KStr "label") entry = Some label ->
  dict_get (KStr "text") entry = None ->
  dict_get (KStr "boolean") entry = None ->
  dict_get (KStr "number") entry = Some number ->
  CustomFieldsMixin.to_tuple (VDict entry) = Ok (label, number).
Proof.
  intros Hl Ht Hb Hn. unfold CustomFieldsMixin.to_tuple, py_contains, dict_has, py_getitem.
  rewrite Ht, Hb, Hn. cbn [bind].
  now rewrite (getitem_Some _ _ _ Hl), (getitem_Some _ _ _ Hn).
Qed.

Lemma to_tuple_untyped (entry : record) :
  dict_get (KStr "text") entry = None ->
  dict_get (KStr "boolean") entry = None ->
  dict_get (KStr "number") entry = None ->
  CustomFieldsMixin.to_tuple (VDict entry) = Raise ValueError.
Proof.
  intros Ht Hb Hn. unfold CustomFieldsMixin.to_tuple, py_contains, dict_has.
  now rewrite Ht, Hb, Hn.
Qed.

(** C3: the pair [customfields] makes of a plain entry.  With a 'text' key
    the value is the text; otherwise with a 'boolean' key it is the boolean
    [entry['boolean'] == 'true'], true for the string "true" and false for
    every other value, never an error; otherwise with a 'number' key it is
    the number.  The accessor stores that value under the label.  An entry
    with none of the three keys raises ValueError, and the accessor lets it
    through when it reaches the entry: the entry is neither skipped nor
    given a default. *)
Theorem C3_custom_field_value (entry : record) :
  (forall label, dict_get (KStr "label") entry = Some label ->
     (forall text, dict_get (KStr "text") entry = Some text ->
        CustomFieldsMixin.to_tuple (VDict entry) = Ok (label, text))
     /\ (forall boolean,
           dict_get (KStr "text") entry = None ->
           dict_get (KStr "boolean") entry = Some boolean ->
           CustomFieldsMixin.to_tuple (VDict entry)
             = Ok (label, VBool (py_eq boolean (VStr "true")))
           /\ (py_eq boolean (VStr "true") = true <-> boolean = VStr "true"))
     /\ (forall number,
           dict_get (KStr "text") entry = None ->
           dict_get (KStr "boolean") entry = None ->
           dict_get (KStr "number") entry = Some number ->
           CustomFieldsMixin.to_tuple (VDict entry) = Ok (label, number)))
  /\ (forall self before sofar label v k,
        get self "raw_customfields" = VList (before ++ [VDict entry]) ->
        dict_collect CustomFieldsMixin.to_tuple before [] = Ok sofar ->
        CustomFieldsMixin.to_tuple (VDict entry) = Ok (label, v) ->
        key_of_value label = Ok k ->
        CustomFieldsMixin.customfields self = Ok (dict_set k v sofar)
        /\ dict_get k (dict_set k v sofar) = Some v)
  /\ (dict_get (KStr "text") entry = None ->
      dict_get (KStr "boolean") entry = None ->
      dict_get (KStr "number") entry = None ->
      CustomFieldsMixin.to_tuple (VDict entry) = Raise ValueError
      /\ forall self before after sofar,
           get self "raw_customfields" = VList (before ++ VDict entry :: after) ->
           dict_collect CustomFieldsMixin.to_tuple before [] = Ok sofar ->
           CustomFieldsMixin.customfields self = Raise ValueError
           /\ Opportunity.attr_customfields self = Raise ValueError
           /\ Party.attr_customfields self = Raise ValueError).
Proof.
  split; [|split].
  - intros label Hl. repeat split.
    + intros text. now apply to_tuple_text.
    + now apply to_tuple_boolean.
    + apply py_eq_str.
    + apply py_eq_str.
    + intros number. now apply to_tuple_number.
  - intros self before sofar label v k Hraw Hbefore Hentry Hk.
    split; [|apply dict_get_set_same].
    rewrite (customfields_of_raw _ _ Hraw) by (now destruct before).
    rewrite dict_collect_app, Hbefore. simpl. rewrite Hentry. simpl.
    now rewrite Hk.
  - intros Ht Hb Hn. split; [now apply to_tuple_untyped|].
    intros self before after sofar Hraw Hbefore.
    assert (Hbody : CustomFieldsMixin.customfields self = Raise ValueError).
    { rewrite (customfields_of_raw _ _ Hraw) by (now destruct before).
      rewrite dict_collect_app, Hbefore. simpl.
      now rewrite (to_tuple_untyped _ Ht Hb Hn). }
    repeat split; [exact Hbody | |].
    + unfold Opportunity.attr_customfields. now rewrite Hbody.
    + unfold Party.attr_customfields. now rewrite Hbody.
Qed.

Lemma C3_custom_field_value_witness :
  CustomFieldsMixin.to_tuple
    (VDict [field "label" (VStr "Vip"); field "boolean" (VStr "yes")])
  = Ok (VStr "Vip", VBool false)
  /\ Opportunity.attr_customfields
       [field "id" (VInt 7);
        field "raw_customfields"
          (VList [VDict [field "label" (VStr "Source"); field "text" (VStr "Web")];
                  VDict [field "label" (VStr "Broken")]])]
     = Raise ValueError.
Proof.
  split.
  - pose proof (proj1 (C3_custom_field_value
        [field "label" (VStr "Vip"); field "boolean" (VStr "yes")])
        (VStr "Vip") eq_refl) as (_ & Hb & _).
    exact (proj1 (Hb (VStr "yes") eq_refl eq_refl)).
  - pose proof (proj2 (proj2 (C3_custom_field_value [field "label" (VStr "Broken")]))
        eq_refl eq_refl eq_refl) as (_ & Hacc).
    refine (proj1 (proj2 (Hacc
      [field "id" (VInt 7);
       field "raw_customfields"
         (VList [VDict [field "label" (VStr "Source"); field "text" (VStr "Web")];
                 VDict [field "label" (VStr "Broken")]])]
      [VDict [field "label" (VStr "Source"); field "text" (VStr "Web")]] []
      [(KStr "Source", VStr "Web")] eq_refl eq_refl))).
Defined.

(** ** Decimal arithmetic *)

Section DecimalFacts.
Import Decimal.

Lemma ndigits_fuel_pos (fuel : nat) (n : Z) : 1 <= ndigits_fuel fuel n.
Proof.
  revert n. induction fuel as [|fuel IH]; intros n; cbn [ndigits_fuel]; [lia|].
  destruct (n <? 10); [lia|]. specialize (IH (n / 10)). lia.
Qed.

(** A number below [10 ^ d] has at most [d] digits. *)
Lemma ndigits_fuel_le (fuel : nat) (n d : Z) :
  1 <= d -> n < 10 ^ d -> ndigits_fuel fuel n <= d.
Proof.
  revert n d. induction fuel as [|fuel IH]; intros n d Hd Hn; cbn [ndigits_fuel]; [lia|].
  destruct (n <? 10) eqn:E; [lia|].
  apply Z.ltb_ge in E.
  assert (Hd2 : 2 <= d).
  { destruct (Z.eq_dec d 1) as [->|]; [simpl in Hn; lia | lia]. }
  assert (Hpow : 10 ^ d = 10 * 10 ^ (d - 1)).
  { rewrite <- Z.pow_succ_r by lia. f_equal. lia. }
  assert (n / 10 < 10 ^ (d - 1)).
  { apply Z.div_lt_upper_bound; lia. }
  specialize (IH (n / 10) (d - 1)). lia.
Qed.

(** The fuel is enough: the result is the number of decimal digits. *)
Lemma ndigits_fuel_spec (fuel : nat) (n : Z) :
  0 < n < 2 ^ (Z.of_nat fuel + 1) ->
  10 ^ (ndigits_fuel fuel n - 1) <= n < 10 ^ ndigits_fuel fuel n.
Proof.
  revert n. induction fuel as [|fuel IH]; intros n Hn; cbn [ndigits_fuel].
  - change (2 ^ (Z.of_nat 0 + 1)) with 2 in Hn.
    change (10 ^ (1 - 1)) with 1. change (10 ^ 1) with 10. lia.
  - destruct (n <? 10) eqn:E.
    + apply Z.ltb_lt in E. change (10 ^ (1 - 1)) with 1. change (10 ^ 1) with 10. lia.
    + apply Z.ltb_ge in E.
      rewrite Nat2Z.inj_succ in Hn.
      replace (Z.succ (Z.of_nat fuel) + 1) with (Z.succ (Z.of_nat fuel + 1)) in Hn by lia.
      rewrite Z.pow_succ_r in Hn by lia.
      pose proof (Z.div_mod n 10 ltac:(lia)) as Hdm.
      pose proof (Z.mod_pos_bound n 10 ltac:(lia)) as Hmod.
      assert (Hq : 0 < n / 10 < 2 ^ (Z.of_nat fuel + 1)) by lia.
      specialize (IH _ Hq).
      pose proof (ndigits_fuel_pos fuel (n / 10)) as Hpos.
      replace (1 + ndigits_fuel fuel (n / 10) - 1)
        with (Z.succ (ndigits_fuel fuel (n / 10) - 1)) by lia.
      replace (1 + ndigits_fuel fuel (n / 10))
        with (Z.succ (ndigits_fuel fuel (n / 10))) by lia.
      rewrite !Z.pow_succ_r by lia. lia.
Qed.

Lemma ndigits_spec (n : Z) :
  0 < n -> 10 ^ (ndigits n - 1) <= n < 10 ^ ndigits n.
Proof.
  intros Hn. apply ndigits_fuel_spec. split; [exact Hn|].
  rewrite Z2Nat.id by apply Z.log2_nonneg.
  replace (Z.log2 n + 1) with (Z.succ (Z.log2 n)) by lia.
  apply Z.log2_spec. exact Hn.
Qed.

Lemma ndigits_pos (n : Z) : 1 <= ndigits n.
Proof. apply ndigits_fuel_pos. Qed.

Lemma ndigits_le (n d : Z) : 1 <= d -> n < 10 ^ d -> ndigits n <= d.
Proof. apply ndigits_fuel_le. Qed.

(** A number that fits the precision and the exponent range is left as
    it is by [_fix]. *)
Lemma fix_fits (s : bool) (c e : Z) :
  0 < c < 10 ^ prec -> Etiny <= e <= Etop ->
  fix_ (Finite s c e) = Ok (Finite s c e).
Proof.
  intros Hc He. unfold fix_.
  destruct (c =? 0) eqn:E0; [apply Z.eqb_eq in E0; lia|].
  pose proof (ndigits_le c prec ltac:(unfold prec; lia) (proj2 Hc)) as Hn.
  destruct (ndigits c + e - prec >? Etop) eqn:E1.
  { apply Z.gtb_lt in E1. lia. }
  destruct (e <? Z.max (ndigits c + e - prec) Etiny) eqn:E2; [|reflexivity].
  apply Z.ltb_lt in E2. lia.
Qed.

Lemma fix_zero (s : bool) (e : Z) :
  Etiny <= e <= Emax -> fix_ (Finite s 0 e) = Ok (Finite s 0 e).
Proof.
  intros He. unfold fix_. simpl. do 3 f_equal. lia.
Qed.

(** The zeros [strip_zeros] takes off: [j] of them, and it stops at the
    ideal exponent or at a digit that is not zero. *)
Lemma strip_zeros_spec (fuel : nat) (coeff exp ideal : Z) :
  fuel = Z.to_nat (ideal - exp) -> exp <= ideal -> 0 < coeff ->
  exists k j,
    strip_zeros fuel coeff exp ideal = (k, exp + j)
    /\ 0 <= j /\ exp + j <= ideal /\ coeff = k * 10 ^ j /\ 0 < k
    /\ (exp + j = ideal \/ k mod 10 <> 0).
Proof.
  revert coeff exp. induction fuel as [|fuel IH]; intros coeff exp Hf He Hc.
  - exists coeff, 0. cbn [strip_zeros]. rewrite Z.add_0_r, Z.mul_1_r.
    repeat split; lia.
  - cbn [strip_zeros]. destruct (exp <? ideal) eqn:E1; cbn [andb].
    2: { apply Z.ltb_ge in E1. lia. }
    apply Z.ltb_lt in E1.
    destruct (coeff mod 10 =? 0) eqn:E2.
    + apply Z.eqb_eq in E2.
      assert (Hdiv : coeff = 10 * (coeff / 10)).
      { pose proof (Z.div_mod coeff 10 ltac:(lia)). lia. }
      destruct (IH (coeff / 10) (exp + 1)) as (k & j & Hs & Hj & Hle & Hk & Hpos & Hstop);
        try lia.
      exists k, (j + 1). rewrite Hs.
      replace (exp + 1 + j) with (exp + (j + 1)) in * by lia.
      repeat split; try lia.
      rewrite Z.pow_add_r by lia. rewrite Hdiv, Hk at 1. simpl (10 ^ 1). lia.
    + apply Z.eqb_neq in E2.
      exists coeff, 0. rewrite Z.add_0_r, Z.mul_1_r.
      repeat split; lia.
Qed.

(** Dividing by 100 when the coefficient fits the precision: the
    quotient is exact, with an exponent at most two below. *)
Lemma truediv_hundred_exact (s : bool) (m e : Z) :
  0 < m < 10 ^ prec -> Etiny + 2 <= e <= Etop ->
  exists k x,
    truediv_int (Finite s m e) 100 = Ok (Finite s k x)
    /\ e - 2 <= x <= e /\ k * 10 ^ (x - (e - 2)) = m.
Proof.
  intros Hm He.
  pose proof (ndigits_pos m) as HL1.
  pose proof (ndigits_le m prec ltac:(unfold prec; lia) (proj2 Hm)) as HL2.
  unfold truediv_int, truediv, of_int.
  change (100 <? 0) with false. change (Z.abs 100) with 100.
  cbn [check_nans]. change (100 =? 0) with false. cbv iota.
  destruct (m =? 0) eqn:E0; [apply Z.eqb_eq in E0; lia|].
  change (ndigits 100) with 3. rewrite !Z.sub_0_r.
  set (shift := 3 - ndigits m + prec + 1).
  assert (Hshift : 4 <= shift <= 31) by (unfold shift, prec in *; lia).
  destruct (0 <=? shift) eqn:E1; [|apply Z.leb_gt in E1; lia].
  assert (Hpow : 10 ^ shift = 10 ^ (shift - 2) * 100).
  { change 100 with (10 ^ 2). rewrite <- Z.pow_add_r by lia. f_equal. lia. }
  rewrite Hpow, Z.mul_assoc, Z.div_mul, Z.mod_mul by lia.
  change (0 =? 0) with true. cbv iota beta zeta.
  assert (Hc0 : 0 < m * 10 ^ (shift - 2)).
  { apply Z.mul_pos_pos; [lia | apply Z.pow_pos_nonneg; lia]. }
  destruct (strip_zeros_spec _ (m * 10 ^ (shift - 2)) (e - shift) e eq_refl
              ltac:(lia) Hc0)
    as (k & j & Hs & Hj & Hle & Hk & Hpos & Hstop).
  rewrite Hs. rewrite xorb_false_r.
  assert (Hjt : shift - 2 <= j /\ k * 10 ^ (j - (shift - 2)) = m).
  { destruct (Z_le_gt_dec (shift - 2) j) as [Hge|Hlt].
    - split; [exact Hge|].
      replace j with ((j - (shift - 2)) + (shift - 2)) in Hk at 1 by lia.
      rewrite Z.pow_add_r, Z.mul_assoc in Hk by lia.
      apply Z.mul_reg_r in Hk; [lia|].
      apply Z.pow_nonzero; lia.
    - exfalso. destruct Hstop as [Hstop|Hstop]; [lia|].
      apply Hstop.
      replace (shift - 2) with ((shift - 2 - j - 1) + 1 + j) in Hk by lia.
      rewrite !Z.pow_add_r, !Z.mul_assoc in Hk by lia.
      apply Z.mul_reg_r in Hk; [|apply Z.pow_nonzero; lia].
      rewrite <- Hk. change (10 ^ 1) with 10. apply Z.mod_mul. lia. }
  destruct Hjt as [Hge Hkm].
  exists k, (e - shift + j). split; [|split].
  - apply fix_fits; [|lia].
    split; [lia|].
    assert (0 < 10 ^ (j - (shift - 2))) by (apply Z.pow_pos_nonneg; lia).
    nia.
  - lia.
  - replace (e - shift + j - (e - 2)) with (j - (shift - 2)) by lia. exact Hkm.
Qed.

(** Multiplying by an integer when the product fits the precision. *)
Lemma mul_int_exact (s : bool) (c e p : Z) :
  0 <= c -> c * Z.abs p < 10 ^ prec -> Etiny <= e <= Etop ->
  mul_int (Finite s c e) p = Ok (Finite (xorb s (p <? 0)) (c * Z.abs p) e).
Proof.
  intros Hc Hm He. unfold mul_int, mul, of_int. cbn [check_nans].
  rewrite Z.add_0_r.
  destruct (Z.eq_dec (c * Z.abs p) 0) as [E|E].
  - rewrite E. apply fix_zero. unfold Etop, Emax, prec in *. lia.
  - apply fix_fits; [|exact He].
    pose proof (Z.abs_nonneg p). nia.
Qed.

Lemma digits_value_nonneg (ds : list Z) :
  Forall (fun d => 0 <= d) ds -> 0 <= digits_value ds.
Proof.
  intros H. unfold digits_value.
  assert (G : forall acc, 0 <= acc ->
            0 <= fold_left (fun a d => 10 * a + d) ds acc).
  { induction H as [|d ds Hd _ IH]; intros acc Hacc; cbn [fold_left]; [exact Hacc|].
    apply IH. cbv beta in Hd. lia. }
  apply G. lia.
Qed.

Lemma digit_range (c : ascii) (d : Z) : digit c = Some d -> 0 <= d <= 9.
Proof.
  unfold digit.
  destruct ((48 <=? Z.of_N (N_of_ascii c)) && (Z.of_N (N_of_ascii c) <=? 57)) eqn:E;
    [|discriminate].
  intros [= <-]. apply andb_true_iff in E as [E1 E2].
  apply Z.leb_le in E1, E2. lia.
Qed.

Lemma take_digits_nonneg (s : list ascii) :
  Forall (fun d => 0 <= d) (fst (take_digits s)).
Proof.
  induction s as [|c s IH]; simpl; [constructor|].
  destruct (digit c) as [d|] eqn:E; [|constructor].
  destruct (take_digits s) as [ds r]. simpl in *.
  constructor; [|exact IH]. apply digit_range in E. lia.
Qed.

Lemma digits_of_values_nonneg (l : list pyval) (ds : list Z) :
  digits_of_values l = Some ds -> Forall (fun d => 0 <= d) ds.
Proof.
  revert ds. induction l as [|v l IH]; intros ds; simpl.
  - intros [= <-]. constructor.
  - destruct (digit_of_value v) as [d|] eqn:E; [|discriminate].
    destruct (digits_of_values l) as [ds'|]; [|discriminate].
    intros [= <-]. constructor; [|now apply IH].
    unfold digit_of_value in E. destruct (value_num v); [|discriminate].
    destruct (between 0 9 z) eqn:B; [|discriminate].
    injection E as <-. unfold between in B.
    apply andb_true_iff in B as [B _]. now apply Z.leb_le in B.
Qed.

Lemma read_number_nonneg (sign : bool) (s : list ascii) (d : t) :
  read_number sign s = Some d -> coeff_nonneg d.
Proof.
  unfold read_number.
  pose proof (take_digits_nonneg s) as Hi.
  destruct (take_digits s) as [ip r1]. simpl in Hi.
  assert (Hf : forall fp r2,
    match r1 with
    | c :: r => if char_is c "." then take_digits r else ([], r1)
    | [] => ([], r1)
    end = (fp, r2) -> Forall (fun d => 0 <= d) fp).
  { intros fp r2. destruct r1 as [|c r].
    - intros [= <- _]. constructor.
    - destruct (char_is c ".").
      + intros E. pose proof (take_digits_nonneg r) as H. now rewrite E in H.
      + intros [= <- _]. constructor. }
  destruct (match r1 with [] => _ | _ => _ end) as [fp r2].
  specialize (Hf fp r2 eq_refl).
  assert (Hall : Forall (fun d => 0 <= d) (ip ++ fp)%list)
    by (apply Forall_app; now split).
  destruct (ip ++ fp)%list as [|d0 ds] eqn:E; [discriminate|].
  destruct (read_exponent r2); [|discriminate].
  intros [= <-]. simpl. now apply digits_value_nonneg.
Qed.

Lemma read_special_nonneg (sign : bool) (s : list ascii) (d : t) :
  read_special sign s = Some d -> coeff_nonneg d.
Proof.
  unfold read_special, read_nan.
  destruct (_ || _); [intros [= <-]; exact I|].
  destruct (strip_prefix "nan" s) as [r|].
  - destruct (take_digits r) as [ds [|]]; [intros [= <-]; exact I | discriminate].
  - destruct (strip_prefix "snan" s) as [r|]; [|discriminate].
    destruct (take_digits r) as [ds [|]]; [intros [= <-]; exact I | discriminate].
Qed.

Lemma exact_inv (d d' : t) : exact d = Ok d' -> d' = d.
Proof.
  unfold exact. destruct d as [s c e| |]; try (intros H; inversion H; reflexivity).
  destruct ((MIN_ETINY <=? e) && (e + ndigits c - 1 <=? MAX_EMAX));
    [intros H; inversion H; reflexivity | discriminate].
Qed.

(** The coefficient of a constructed decimal is not negative. *)
Lemma new_coeff_nonneg (x : pyval) (d : t) : new x = Ok d -> coeff_nonneg d.
Proof.
  destruct x as [|b|n|s|l|o]; simpl; try discriminate.
  - intros [= <-]. simpl. destruct b; simpl; lia.
  - intros [= <-]. simpl. apply Z.abs_nonneg.
  - unfold of_string.
    destruct (match map lower _ with [] => _ | _ => _ end) as [sign rest].
    destruct (read_number sign rest) as [d'|] eqn:E.
    + intros H. apply exact_inv in H. subst d'.
      exact (read_number_nonneg _ _ _ E).
    + destruct (read_special sign rest) as [d'|] eqn:E'; [|discriminate].
      intros [= <-]. exact (read_special_nonneg _ _ _ E').
  - unfold of_triple.
    destruct l as [|sg [|[| | | |ds|] [|ex [|]]]]; try discriminate.
    destruct (value_num sg) as [sn|]; [|discriminate].
    destruct (digits_of_values ds) as [zs|] eqn:E; [|discriminate].
    destruct (between 0 1 sn); [|discriminate].
    apply digits_of_values_nonneg in E.
    assert (Hnum : forall e,
              (if between (- 2 ^ 63) (2 ^ 63 - 1) e
               then exact (Finite (sn =? 1) (digits_value zs) e)
               else Raise OverflowError) = Ok d -> coeff_nonneg d).
    { intros e. destruct (between _ _ e); [|discriminate].
      intros H. apply exact_inv in H. subst d.
      cbn [coeff_nonneg]. now apply digits_value_nonneg. }
    destruct ex as [|bx|nx|str| |]; cbn [value_num]; try discriminate.
    + apply Hnum.
    + apply Hnum.
    + repeat match goal with
             | |- context [match ?x with _ => _ end] => destruct x
             end;
        try discriminate; intros [= <-]; exact I.
Qed.
End DecimalFacts.

(** C1 as stated fails where the precision of the context ends: with an
    amount of 29 digits and probability 100 the product is rounded to 28
    digits, and [weighted_value] is 1E+28, not the amount. *)
Lemma C1_counterexample :
  exists v w,
    Opportunity.value opportunity_29_digits = Ok v
    /\ Opportunity.probability opportunity_29_digits = Ok 100
    /\ Opportunity.weighted_value opportunity_29_digits = Ok w
    /\ v = Decimal.Finite false 10000000000000000000000000001 0
    /\ w = Decimal.Finite false 10000000000000000000000000 3
    /\ ~ weighted_exactly v 100 w.
Proof.
  eexists. eexists.
  split; [vm_compute; reflexivity|].
  split; [vm_compute; reflexivity|].
  split; [vm_compute; reflexivity|].
  split; [reflexivity|]. split; [reflexivity|].
  vm_compute. discriminate.
Qed.

Lemma Opportunity_value_coeff (self : record) (s : bool) (c e : Z) :
  Opportunity.value self = Ok (Decimal.Finite s c e) -> 0 <= c.
Proof.
  unfold Opportunity.value, getitem.
  destruct (dict_get (KStr "value") self) as [x|]; simpl.
  - destruct (Decimal.new x) as [d|[]] eqn:E; simpl; try discriminate.
    + intros [= ->]. exact (new_coeff_nonneg _ _ E).
    + intros [= <- <- <-]. lia.
  - intros [= <- <- <-]. lia.
Qed.

(** C1, amended: [open] is true exactly when the record has no
    'actualCloseDate' key; [weighted_value] is [value * probability / 100]
    computed by the decimal arithmetic of the default context, and that is
    the exact quotient whenever the digits of the amount times the
    probability fit the 28 digits of the context (and the exponent of the
    amount is within the range of the context); the record of the example
    is open, with probability 50, value 200.00 and weighted value 100.00. *)
Theorem C1_open_and_weighted_value (self : record) :
  (Opportunity.open self = true <-> dict_get (KStr "actualCloseDate") self = None)
  /\ Opportunity.weighted_value self
     = (v <- Opportunity.value self ;;
        p <- Opportunity.probability self ;;
        m <- Decimal.mul v (Decimal.of_int p) ;;
        Decimal.truediv m (Decimal.of_int 100))
  /\ (forall s c e p,
        Opportunity.value self = Ok (Decimal.Finite s c e) ->
        Opportunity.probability self = Ok p ->
        c * Z.abs p < 10 ^ 28 ->
        Decimal.Etiny + 2 <= e <= Decimal.Etop ->
        exists w, Opportunity.weighted_value self = Ok w
                  /\ weighted_exactly (Decimal.Finite s c e) p w)
  /\ (Opportunity.open opportunity_7 = true
      /\ Opportunity.probability opportunity_7 = Ok 50
      /\ Opportunity.value opportunity_7 = Ok (Decimal.Finite false 20000 (-2))
      /\ Opportunity.weighted_value opportunity_7
         = Ok (Decimal.Finite false 10000 (-2))).
Proof.
  split; [|split; [reflexivity|split]].
  - unfold Opportunity.open, dict_has.
    destruct (dict_get (KStr "actualCloseDate") self); split; intros H;
      try reflexivity; discriminate.
  - intros s c e p Hv Hp Hfit He.
    pose proof (Opportunity_value_coeff _ _ _ _ Hv) as Hc.
    unfold Opportunity.weighted_value. rewrite Hv, Hp. cbn [bind].
    rewrite (mul_int_exact s c e p Hc Hfit ltac:(lia)). cbn [bind].
    set (s' := xorb s (p <? 0)).
    assert (Hsign : (if s' then - (c * Z.abs p) else c * Z.abs p)
                    = p * (if s then - c else c)).
    { unfold s'. destruct s, (p <? 0) eqn:E; cbn [xorb];
        [apply Z.ltb_lt in E | apply Z.ltb_ge in E
        | apply Z.ltb_lt in E | apply Z.ltb_ge in E];
        first [rewrite (Z.abs_neq p) by lia | rewrite (Z.abs_eq p) by lia]; lia. }
    destruct (Z.eq_dec (c * Z.abs p) 0) as [E0|E0].
    + exists (Decimal.Finite s' 0 e). split.
      * rewrite E0. unfold Decimal.truediv_int, Decimal.truediv, Decimal.of_int.
        cbn [Decimal.check_nans]. change (Z.abs 100 =? 0) with false.
        change (0 =? 0) with true. cbv iota. rewrite xorb_false_r, Z.sub_0_r.
        apply fix_zero. unfold Decimal.Etop, Decimal.Etiny, Decimal.Emax, Decimal.prec in *.
        lia.
      * cbn [weighted_exactly Decimal.units]. rewrite Z.min_id, Z.sub_diag.
        rewrite E0 in Hsign. change (10 ^ 0) with 1. destruct s'; lia.
    + destruct (truediv_hundred_exact s' (c * Z.abs p) e) as (k & x & Hdiv & Hx & Hk).
      { pose proof (Z.abs_nonneg p). unfold Decimal.prec. nia. }
      { exact He. }
      exists (Decimal.Finite s' k x). split; [exact Hdiv|].
      cbn [weighted_exactly Decimal.units].
      rewrite Z.min_r by lia. rewrite Z.sub_diag. change (10 ^ 0) with 1.
      assert (Hcases : x = e - 2 \/ x = e - 1 \/ x = e) by lia.
      destruct Hcases as [->|[->| ->]].
      * replace (e - 2 - (e - 2)) with 0 in Hk by lia.
        replace (e - (e - 2)) with 2 by lia.
        change (10 ^ 0) with 1 in Hk. change (10 ^ 2) with 100.
        destruct s'; lia.
      * replace (e - 1 - (e - 2)) with 1 in Hk by lia.
        replace (e - (e - 1)) with 1 by lia.
        change (10 ^ 1) with 10 in *.
        destruct s'; lia.
      * replace (e - (e - 2)) with 2 in Hk by lia.
        rewrite Z.sub_diag. change (10 ^ 2) with 100 in Hk. change (10 ^ 0) with 1.
        destruct s'; lia.
  - repeat split; vm_compute; reflexivity.
Qed.

Lemma C1_open_and_weighted_value_witness :
  exists w, Opportunity.weighted_value opportunity_7 = Ok w
            /\ weighted_exactly (Decimal.Finite false 20000 (-2)) 50 w.
Proof.
  apply (proj1 (proj2 (proj2 (C1_open_and_weighted_value opportunity_7)))
           false 20000 (-2) 50).
  - vm_compute. reflexivity.
  - vm_compute. reflexivity.
  - vm_compute. reflexivity.
  - vm_compute. split; discriminate.
Defined.

(** ** Date tags *)

Lemma char_is_eq (c : ascii) (lit : ascii) :
  char_is c (String lit EmptyString) = true -> c = lit.
Proof.
  unfold char_is. intros H. apply String.eqb_eq in H. now injection H.
Qed.

Lemma two_digits_inv (a b : ascii) (v : Z) :
  two_digits a b = Some v ->
  exists x y, digit a = Some x /\ digit b = Some y /\ v = 10 * x + y
              /\ 0 <= x <= 9 /\ 0 <= y <= 9.
Proof.
  unfold two_digits.
  destruct (digit a) as [x|] eqn:Ea; [|discriminate].
  destruct (digit b) as [y|] eqn:Eb; [|discriminate].
  intros [= <-]. exists x, y.
  pose proof (digit_range _ _ Ea). pose proof (digit_range _ _ Eb). auto.
Qed.

Lemma digit_not_space (c : ascii) (x : Z) :
  digit c = Some x -> char_is c " " = false.
Proof.
  intros H. destruct (char_is c " ") eqn:E; [|reflexivity].
  apply char_is_eq in E. subst c. discriminate H.
Qed.

Lemma read_field_two (two_ok one_ok : Z -> bool) (a b : ascii) (r : list ascii) (v : Z) :
  two_digits a b = Some v -> two_ok v = true ->
  read_field two_ok one_ok (a :: b :: r) = Some (v, r).
Proof.
  intros H Hok. apply two_digits_inv in H as (x & y & Ha & Hb & -> & _).
  unfold read_field. now rewrite Ha, Hb, Hok.
Qed.

Lemma read_day_two (a b : ascii) (r : list ascii) (v : Z) :
  two_digits a b = Some v -> between 1 31 v = true ->
  read_day (a :: b :: r) = Some (v, r).
Proof.
  intros H Hok. unfold read_day.
  pose proof (two_digits_inv _ _ _ H) as (x & y & Ha & _).
  rewrite (digit_not_space _ _ Ha). now apply read_field_two.
Qed.

Lemma read_year_four (a b c d : ascii) (r : list ascii) (yh yl : Z) :
  two_digits a b = Some yh -> two_digits c d = Some yl ->
  read_year (a :: b :: c :: d :: r) = Some (100 * yh + yl, r).
Proof.
  intros H1 H2.
  apply two_digits_inv in H1 as (x1 & x2 & E1 & E2 & -> & _).
  apply two_digits_inv in H2 as (x3 & x4 & E3 & E4 & -> & _).
  unfold read_year. rewrite E1, E2, E3, E4. do 2 f_equal. lia.
Qed.

(** A text in the fixed format is parsed by [strptime] to the instant it
    spells. *)
Lemma fixed_format_strptime (s : string) (t : datetime) :
  fixed_format s = Some t -> strptime s = Ok t.
Proof.
  unfold fixed_format, strptime.
  destruct (list_ascii_of_string s)
    as [|y1 [|y2 [|y3 [|y4 [|c1 [|m1 [|m2 [|c2 [|d1 [|d2 [|c3 [|h1 [|h2 [|c4
        [|n1 [|n2 [|c5 [|s1 [|s2 [|c6 [|]]]]]]]]]]]]]]]]]]]]];
    try discriminate.
  destruct (char_is c1 "-") eqn:E1; [|discriminate].
  destruct (char_is c2 "-") eqn:E2; [|discriminate].
  destruct (char_is c3 "T") eqn:E3; [|discriminate].
  destruct (char_is c4 ":") eqn:E4; [|discriminate].
  destruct (char_is c5 ":") eqn:E5; [|discriminate].
  destruct (char_is c6 "Z") eqn:E6; [|discriminate].
  apply char_is_eq in E1, E2, E3, E4, E5, E6. subst.
  cbn [andb].
  destruct (two_digits y1 y2) as [yh|] eqn:Y1; [|discriminate].
  destruct (two_digits y3 y4) as [yl|] eqn:Y2; [|discriminate].
  destruct (two_digits m1 m2) as [mo|] eqn:M; [|discriminate].
  destruct (two_digits d1 d2) as [d|] eqn:D; [|discriminate].
  destruct (two_digits h1 h2) as [h|] eqn:H; [|discriminate].
  destruct (two_digits n1 n2) as [mi|] eqn:N; [|discriminate].
  destruct (two_digits s1 s2) as [sec|] eqn:S; [|discriminate].
  cbv zeta.
  destruct (between 1 12 mo) eqn:Bm; [|discriminate].
  destruct (between 1 31 d) eqn:Bd; [|discriminate].
  destruct (between 0 23 h) eqn:Bh; [|discriminate].
  destruct (between 0 59 mi) eqn:Bn; [|discriminate].
  cbn [andb].
  destruct (valid_datetime _) eqn:V; [|discriminate].
  intros [= <-].
  assert (Bs : between 0 61 sec = true).
  { unfold valid_datetime in V. cbn [second] in V.
    apply andb_true_iff in V as [_ V]. apply Z.leb_le in V.
    apply two_digits_inv in S as (x & y & _ & _ & -> & ? & ?).
    unfold between. apply andb_true_iff. split; apply Z.leb_le; lia. }
  unfold match_format.
  rewrite (read_year_four _ _ _ _ _ _ _ Y1 Y2). cbn [obind expect].
  change (char_is (lower "-") "-") with true. cbv iota. cbn [obind].
  unfold read_month. rewrite (read_field_two _ _ _ _ _ _ M Bm). cbn [obind expect].
  change (char_is (lower "-") "-") with true. cbv iota. cbn [obind].
  rewrite (read_day_two _ _ _ _ D Bd). cbn [obind expect].
  change (char_is (lower "T") "t") with true. cbv iota. cbn [obind].
  unfold read_hour. rewrite (read_field_two _ _ _ _ _ _ H Bh). cbn [obind expect].
  change (char_is (lower ":") ":") with true. cbv iota. cbn [obind].
  unfold read_minute. rewrite (read_field_two _ _ _ _ _ _ N Bn). cbn [obind expect].
  change (char_is (lower ":") ":") with true. cbv iota. cbn [obind].
  unfold read_second. rewrite (read_field_two _ _ _ _ _ _ S Bs). cbn [obind expect].
  change (char_is (lower "Z") "z") with true. cbv iota. cbn [obind].
  now rewrite V.
Qed.

(** An instant and the date of it never disagree on the order. *)
Lemma date_of_le (a b : datetime) :
  datetime_le a b -> date_le (date_of a) (date_of b).
Proof.
  unfold datetime_le, date_le, datetime_compare, date_compare, date_of.
  cbn [d_year d_month d_day].
  destruct (year a ?= year b); try easy.
  destruct (month a ?= month b); try easy.
  destruct (day a ?= day b); easy.
Qed.

Lemma datetime_compare_stamp (a b : datetime) :
  two_digit_fields a -> two_digit_fields b ->
  datetime_compare a b = (stamp a ?= stamp b).
Proof.
  unfold two_digit_fields, datetime_compare, stamp.
  intros (? & ? & ? & ? & ?) (? & ? & ? & ? & ?).
  symmetry.
  destruct (Z.compare_spec (year a) (year b));
    [destruct (Z.compare_spec (month a) (month b));
       [destruct (Z.compare_spec (day a) (day b));
          [destruct (Z.compare_spec (hour a) (hour b));
             [destruct (Z.compare_spec (minute a) (minute b));
                [destruct (Z.compare_spec (second a) (second b))| |]| |]| |]| |]| |];
    first [ apply Z.compare_eq_iff; lia
          | apply Z.compare_lt_iff; lia
          | apply Z.compare_gt_iff; lia ].
Qed.

Lemma place_value_bound (l : list Z) :
  Forall is_digit l -> 0 <= place_value l < 10 ^ Z.of_nat (List.length l).
Proof.
  induction 1 as [|d l Hd _ IH]; cbn [place_value List.length].
  - change (10 ^ Z.of_nat 0) with 1. lia.
  - rewrite Nat2Z.inj_succ, Z.pow_succ_r by lia. unfold is_digit in Hd. nia.
Qed.

(** Digit strings of one length compare like the numbers they spell. *)
Lemma lex_compare_place_value (l l' : list Z) :
  List.length l = List.length l' -> Forall is_digit l -> Forall is_digit l' ->
  lex_compare l l' = (place_value l ?= place_value l').
Proof.
  revert l'. induction l as [|d l IH]; intros [|d' l'] Hlen Hl Hl';
    try discriminate; [reflexivity|].
  injection Hlen as Hlen.
  inversion Hl as [|? ? Hd Hr]; inversion Hl' as [|? ? Hd' Hr']; subst.
  cbn [lex_compare place_value]. rewrite <- Hlen.
  pose proof (place_value_bound l Hr) as B.
  pose proof (place_value_bound l' Hr') as B'. rewrite <- Hlen in B'.
  set (P := 10 ^ Z.of_nat (List.length l)) in *.
  unfold is_digit in Hd, Hd'.
  symmetry. destruct (Z.compare_spec d d') as [->| |].
  - rewrite (IH l' Hlen Hr Hr').
    destruct (Z.compare_spec (place_value l) (place_value l'));
      first [ apply Z.compare_eq_iff; lia
            | apply Z.compare_lt_iff; lia
            | apply Z.compare_gt_iff; lia ].
  - apply Z.compare_lt_iff. nia.
  - apply Z.compare_gt_iff. nia.
Qed.

Lemma digit_compare (c c' : ascii) (x x' : Z) :
  digit c = Some x -> digit c' = Some x' -> Ascii.compare c c' = (x ?= x').
Proof.
  unfold digit, Ascii.compare.
  destruct (_ && _); [|discriminate]. intros [= <-].
  destruct (_ && _); [|discriminate]. intros [= <-].
  rewrite <- N2Z.inj_compare.
  destruct (Z.compare_spec (Z.of_N (N_of_ascii c)) (Z.of_N (N_of_ascii c')));
    symmetry;
    [apply Z.compare_eq_iff | apply Z.compare_lt_iff | apply Z.compare_gt_iff];
    lia.
Qed.

Lemma fixed_format_inv (s : string) (t : datetime) :
  fixed_format s = Some t ->
  exists cs ds,
    List.length cs = 14%nat
    /\ s = string_of_list_ascii (layout cs)
    /\ Forall2 (fun c d => digit c = Some d) cs ds
    /\ stamp t = place_value ds
    /\ two_digit_fields t.
Proof.
  unfold fixed_format. intros H.
  rewrite <- (string_of_list_ascii_of_string s).
  destruct (list_ascii_of_string s)
    as [|y1 [|y2 [|y3 [|y4 [|c1 [|m1 [|m2 [|c2 [|d1 [|d2 [|c3 [|h1 [|h2 [|c4
        [|n1 [|n2 [|c5 [|s1 [|s2 [|c6 [|]]]]]]]]]]]]]]]]]]]]];
    try discriminate.
  destruct (char_is c1 "-") eqn:E1; [|discriminate].
  destruct (char_is c2 "-") eqn:E2; [|discriminate].
  destruct (char_is c3 "T") eqn:E3; [|discriminate].
  destruct (char_is c4 ":") eqn:E4; [|discriminate].
  destruct (char_is c5 ":") eqn:E5; [|discriminate].
  destruct (char_is c6 "Z") eqn:E6; [|discriminate].
  apply char_is_eq in E1, E2, E3, E4, E5, E6. subst.
  cbn [andb] in H.
  destruct (two_digits y1 y2) as [yh|] eqn:Y1; [|discriminate].
  destruct (two_digits y3 y4) as [yl|] eqn:Y2; [|discriminate].
  destruct (two_digits m1 m2) as [mo|] eqn:M; [|discriminate].
  destruct (two_digits d1 d2) as [d|] eqn:D; [|discriminate].
  destruct (two_digits h1 h2) as [h|] eqn:Hh; [|discriminate].
  destruct (two_digits n1 n2) as [mi|] eqn:N; [|discriminate].
  destruct (two_digits s1 s2) as [sec|] eqn:S; [|discriminate].
  cbv zeta in H.
  destruct (_ && _); [|discriminate].
  apply (f_equal (fun o => match o with Some x => x | None => t end)) in H.
  cbv beta iota in H. subst t.
  apply two_digits_inv in Y1 as (a1 & a2 & ? & ? & -> & ? & ?).
  apply two_digits_inv in Y2 as (a3 & a4 & ? & ? & -> & ? & ?).
  apply two_digits_inv in M as (a5 & a6 & ? & ? & -> & ? & ?).
  apply two_digits_inv in D as (a7 & a8 & ? & ? & -> & ? & ?).
  apply two_digits_inv in Hh as (a9 & a10 & ? & ? & -> & ? & ?).
  apply two_digits_inv in N as (a11 & a12 & ? & ? & -> & ? & ?).
  apply two_digits_inv in S as (a13 & a14 & ? & ? & -> & ? & ?).
  exists [y1; y2; y3; y4; m1; m2; d1; d2; h1; h2; n1; n2; s1; s2],
         [a1; a2; a3; a4; a5; a6; a7; a8; a9; a10; a11; a12; a13; a14].
  split; [reflexivity|]. split; [reflexivity|]. split.
  { repeat (constructor; [assumption|]). constructor. }
  split.
  - unfold stamp. cbn [year month day hour minute second].
    change (place_value [a1; a2; a3; a4; a5; a6; a7; a8; a9; a10; a11; a12; a13; a14])
      with (a1 * 10000000000000 + (a2 * 1000000000000 + (a3 * 100000000000
            + (a4 * 10000000000 + (a5 * 1000000000 + (a6 * 100000000
            + (a7 * 10000000 + (a8 * 1000000 + (a9 * 100000 + (a10 * 10000
            + (a11 * 1000 + (a12 * 100 + (a13 * 10 + (a14 * 1 + 0)))))))))))))).
    lia.
  - unfold two_digit_fields. cbn [month day hour minute second]. lia.
Qed.

(** Two texts in the fixed format compare, as strings, like the instants
    they spell. *)
Lemma fixed_format_compare (s s' : string) (t t' : datetime) :
  fixed_format s = Some t -> fixed_format s' = Some t' ->
  (s ?= s')%string = datetime_compare t t'.
Proof.
  intros H H'.
  apply fixed_format_inv in H as (cs & ds & Hlen & -> & Hd & Hst & Hr).
  apply fixed_format_inv in H' as (cs' & ds' & Hlen' & -> & Hd' & Hst' & Hr').
  rewrite (datetime_compare_stamp _ _ Hr Hr'), Hst, Hst'.
  assert (Hds : Forall is_digit ds).
  { clear - Hd. induction Hd as [|c d cs ds H _ IH]; constructor; [|exact IH].
    exact (digit_range _ _ H). }
  assert (Hds' : Forall is_digit ds').
  { clear - Hd'. induction Hd' as [|c d cs ds H _ IH]; constructor; [|exact IH].
    exact (digit_range _ _ H). }
  rewrite <- lex_compare_place_value; [|
    rewrite <- (Forall2_length Hd), <- (Forall2_length Hd'); congruence | exact Hds | exact Hds'].
  clear Hst Hst' Hr Hr' Hds Hds' t t'.
  destruct cs as [|y1 [|y2 [|y3 [|y4 [|m1 [|m2 [|d1 [|d2 [|h1 [|h2 [|n1 [|n2
                 [|s1 [|s2 [|]]]]]]]]]]]]]]]; try discriminate Hlen.
  destruct cs' as [|z1 [|z2 [|z3 [|z4 [|o1 [|o2 [|e1 [|e2 [|i1 [|i2 [|p1 [|p2
                  [|u1 [|u2 [|]]]]]]]]]]]]]]]; try discriminate Hlen'.
  repeat match goal with
         | H : Forall2 _ (_ :: _) _ |- _ => inversion H; subst; clear H
         | H : Forall2 _ [] _ |- _ => inversion H; subst; clear H
         end.
  cbn [layout string_of_list_ascii String.compare lex_compare].
  repeat match goal with
         | Ha : digit ?c = Some ?x, Hb : digit ?c' = Some ?x'
           |- context [Ascii.compare ?c ?c'] =>
             rewrite (digit_compare c c' x x' Ha Hb)
         end.
  change (Ascii.compare "-" "-") with Eq.
  change (Ascii.compare "T" "T") with Eq.
  change (Ascii.compare ":" ":") with Eq.
  change (Ascii.compare "Z" "Z") with Eq.
  cbv iota.
  reflexivity.
Qed.

(** *** Sorting by keys that are strings *)

Lemma ltb_asym (s t : string) : String.ltb s t = true -> String.ltb t s = false.
Proof.
  unfold String.ltb. rewrite (String.compare_antisym s t).
  destruct (t ?= s)%string; simpl; congruence.
Qed.

Section SortStrings.
Context {A : Type}.

Lemma insert_by_strings (kx : pyval * A) (l : list (pyval * A)) :
  string_key kx -> Forall string_key l -> Sorted str_le l ->
  exists r,
    insert_by kx l = Ok r
    /\ Permutation (kx :: l) r
    /\ Sorted str_le r
    /\ (forall z, str_le z kx -> HdRel str_le z l -> HdRel str_le z r).
Proof.
  intros [sx Hx]. induction l as [|ky l IH]; intros Hl Hs.
  - exists [kx]. cbn [insert_by]. repeat split; auto.
  - inversion Hl as [|? ? [sy Hy] Hl']; subst.
    inversion Hs as [|? ? Hs' Hhd]; subst.
    cbn [insert_by]. rewrite Hy, Hx. cbn [py_lt bind].
    destruct (String.ltb sy sx) eqn:E.
    + destruct (IH Hl' Hs') as (r & Hr & Hp & Hsr & Hh).
      rewrite Hr. cbn [bind]. exists (ky :: r). repeat split.
      * rewrite perm_swap. now constructor.
      * constructor; [exact Hsr|]. apply Hh; [|exact Hhd].
        exists sy, sx. repeat split; auto. now apply ltb_asym.
      * intros z Hz Hzl. inversion Hzl; subst. now constructor.
    + exists (kx :: ky :: l). repeat split; auto.
      * constructor; [exact Hs|]. constructor.
        exists sx, sy. repeat split; auto.
Qed.

Lemma sort_by_strings (l : list (pyval * A)) :
  Forall string_key l ->
  exists r, sort_by l = Ok r /\ Permutation l r /\ Sorted str_le r.
Proof.
  induction 1 as [|kx l Hx Hl IH].
  - exists []. repeat split; constructor.
  - destruct IH as (r & Hr & Hp & Hs).
    destruct (insert_by_strings kx r Hx) as (r' & Hr' & Hp' & Hs' & _);
      [eapply Permutation_Forall; eassumption | exact Hs |].
    exists r'. cbn [sort_by]. rewrite Hr. cbn [bind]. repeat split; auto.
    transitivity (kx :: r); [now constructor | exact Hp'].
Qed.
End SortStrings.

Lemma Sorted_map_In {A B : Type} (R : A -> A -> Prop) (R' : B -> B -> Prop)
  (f : A -> B) (l : list A) :
  (forall a b, In a l -> In b l -> R a b -> R' (f a) (f b)) ->
  Sorted R l -> Sorted R' (map f l).
Proof.
  intros Hf Hs. induction Hs as [|a l Hs IH Hhd]; cbn [map]; constructor.
  - apply IH. intros x y Hx Hy. apply Hf; now right.
  - destruct Hhd as [|b l' Hab]; cbn [map]; constructor.
    apply Hf; [now left | right; now left | exact Hab].
Qed.

(** *** What an entry of 'raw_datatags' stands for *)

Lemma datatag_entry_inv (x : pyval) (it : key * datetime) :
  datatag_entry x = Some it ->
  exists d s n,
    x = VDict d
    /\ dict_get (KStr "date") d = Some (VStr s)
    /\ fixed_format s = Some (snd it)
    /\ (if truthy (get d "tag") then Some (get d "tag")
        else dict_get (KStr "label") d) = Some n
    /\ key_of_value n = Ok (fst it).
Proof.
  unfold datatag_entry.
  destruct x as [| | | | |d]; try discriminate.
  destruct (dict_get (KStr "date") d) as [[| | |s| |]|] eqn:Ed; try discriminate.
  destruct (fixed_format s) as [t|] eqn:Ef; [|discriminate].
  cbv zeta.
  destruct (if truthy (get d "tag") then _ else _) as [n|] eqn:En; [|discriminate].
  destruct (key_of_value n) as [k|] eqn:Ek; [|discriminate].
  intros [= <-]. exists d, s, n. auto.
Qed.

Lemma datatag_item_entry (x : pyval) (it : key * datetime) :
  datatag_entry x = Some it ->
  exists n, CustomFieldsMixin.datatag_item x = Ok (n, date_of (snd it))
            /\ key_of_value n = Ok (fst it).
Proof.
  intros H. apply datatag_entry_inv in H as (d & s & n & -> & Hd & Hf & Hn & Hk).
  exists n. split; [|exact Hk].
  unfold CustomFieldsMixin.datatag_item. cbn [py_get bind py_getitem].
  assert (Hname : (if truthy (get d "tag") then Ok (get d "tag") else getitem d "label")
                  = Ok n).
  { destruct (truthy (get d "tag")); [congruence|].
    now apply getitem_Some. }
  rewrite Hname. cbn [bind].
  rewrite (getitem_Some _ _ _ Hd). cbn [bind capsule_datetime_to_utc_aware].
  now rewrite (fixed_format_strptime _ _ Hf).
Qed.

Lemma dict_get_fresh {V : Type} (d : pydict V) (k : key) :
  ~ In (key_norm k) (map (fun p => key_norm (fst p)) d) -> dict_get k d = None.
Proof.
  induction d as [|[k' v] d IH]; cbn [dict_get map In fst]; [reflexivity|].
  intros H. destruct (key_eqb k' k) eqn:E.
  - apply key_eqb_norm in E. exfalso. apply H. now left.
  - apply IH. intros Hin. apply H. now right.
Qed.

(** With keys that differ from each other and from the keys already
    there, every entry adds its pair at the end. *)
Lemma dict_collect_datatags (l : list pyval) (d : pydict date) :
  Forall is_datatag l ->
  NoDup (map (fun p => key_norm (fst p)) d
         ++ map (fun x => key_norm (fst (item_of x))) l)%list ->
  dict_collect CustomFieldsMixin.datatag_item l d
  = Ok (d ++ map (fun x => tagged_date (item_of x)) l)%list.
Proof.
  intros Hl. revert d. induction Hl as [|x l [it Hx] _ IH]; intros d Hnd.
  - cbn [dict_collect map]. now rewrite app_nil_r.
  - cbn [dict_collect map]. cbn [map] in Hnd.
    destruct (datatag_item_entry _ _ Hx) as (n & Hitem & Hk).
    rewrite Hitem. cbn [bind fst snd]. rewrite Hk. cbn [bind].
    assert (Hit : item_of x = it) by (unfold item_of; now rewrite Hx).
    rewrite Hit in *.
    pose proof (NoDup_remove_2 _ _ _ Hnd) as Hfresh.
    rewrite dict_set_fresh.
    2: { apply dict_get_fresh. intros Hin. apply Hfresh.
         apply in_or_app. now left. }
    rewrite IH.
    + unfold tagged_date at 2. now rewrite <- app_assoc.
    + rewrite map_app. cbn [map fst]. rewrite <- app_assoc. exact Hnd.
Qed.

Lemma map_Some_items (entries : list pyval) (items : list (key * datetime)) :
  map datatag_entry entries = map Some items ->
  Forall is_datatag entries /\ items = map item_of entries.
Proof.
  revert items. induction entries as [|x l IH]; intros [|it items] H;
    try discriminate; [split; [constructor | reflexivity]|].
  cbn [map] in H. injection H as Hx Hl.
  destruct (IH _ Hl) as [Hall ->]. split.
  - constructor; [now exists it | exact Hall].
  - cbn [map]. f_equal. unfold item_of. now rewrite Hx.
Qed.

Lemma dated_key (x : pyval) :
  is_datatag x ->
  py_getitem x "date" = Ok (date_key x) /\ dated (date_key x, x).
Proof.
  intros [it H].
  pose proof (datatag_entry_inv _ _ H) as (d & s & n & -> & Hd & Hf & _).
  unfold date_key. cbn [py_getitem]. rewrite (getitem_Some _ _ _ Hd).
  split; [reflexivity|]. exists it, s. auto.
Qed.

Lemma mapM_date_keys (entries : list pyval) :
  Forall is_datatag entries ->
  mapM (fun x => k <- py_getitem x "date" ;; Ok (k, x)) entries
  = Ok (map (fun x => (date_key x, x)) entries).
Proof.
  induction 1 as [|x l Hx _ IH]; cbn [mapM map]; [reflexivity|].
  rewrite (proj1 (dated_key x Hx)). cbn [bind]. now rewrite IH.
Qed.

Lemma dated_string_key (kx : pyval * pyval) : dated kx -> string_key kx.
Proof. intros (it & s & _ & Hs & _). now exists s. Qed.

Lemma dated_le (a b : pyval * pyval) :
  dated a -> dated b -> str_le a b ->
  datetime_le (snd (item_of (snd a))) (snd (item_of (snd b))).
Proof.
  intros (ia & sa & Ha & Hka & Hfa) (ib & sb & Hb & Hkb & Hfb) (s & t & Hs & Ht & Hlt).
  unfold item_of. rewrite Ha, Hb.
  rewrite Hka in Hs. rewrite Hkb in Ht. injection Hs as <-. injection Ht as <-.
  unfold datetime_le. rewrite <- (fixed_format_compare _ _ _ _ Hfa Hfb).
  unfold String.ltb in Hlt. rewrite (String.compare_antisym sa sb).
  destruct (sb ?= sa)%string; simpl; congruence.
Qed.

(** C2 as stated fails when two entries share their tag: every entry has
    its 'date' in the fixed format, the entries are sorted by date, but
    the later entry for x overwrites the date of x and leaves x in the
    first place, so the mapping runs from 2021-01-01 to 2020-06-01. *)
Lemma C2_counterexample :
  exists out,
    Forall is_datatag
      [datatag "x" "2021-01-01T00:00:00Z"; datatag "y" "2020-06-01T00:00:00Z";
       datatag "x" "2020-01-01T00:00:00Z"]
    /\ CustomFieldsMixin.datatags opportunity_tag_twice = Ok out
    /\ out = [(KStr "x", mk_date 2021 1 1); (KStr "y", mk_date 2020 6 1)]
    /\ ~ Sorted (fun a b => date_le (snd a) (snd b)) out.
Proof.
  eexists. split.
  { repeat constructor; eexists; vm_compute; reflexivity. }
  split; [vm_compute; reflexivity|]. split; [reflexivity|].
  intros H. inversion H as [|? ? _ Hhd]; subst.
  inversion Hhd as [|? ? Hle]; subst. apply Hle. reflexivity.
Qed.

(** C2, amended: for an entity whose 'raw_datatags' is a list of entries,
    each with a 'date' in the fixed format and with a tag (or, the tag
    absent or falsy, a label) that no other entry of the list has, the
    [datatags] accessor produces the mapping from that tag or label to the
    date component of the parsed date, one pair for each entry, and the
    pairs stand in ascending order of the instants, hence of the dates,
    whatever the order of the list was. *)
Theorem C2_datatags_ascending
  (self : record) (entries : list pyval) (items : list (key * datetime)) :
  dict_get (KStr "raw_datatags") self = Some (VList entries) ->
  map datatag_entry entries = map Some items ->
  NoDup (map (fun it => key_norm (fst it)) items) ->
  exists in_order,
    Permutation items in_order
    /\ Sorted (fun a b => datetime_le (snd a) (snd b)) in_order
    /\ CustomFieldsMixin.datatags self = Ok (map tagged_date in_order)
    /\ Opportunity.attr_datatags self = Ok (Computed (map tagged_date in_order))
    /\ Party.attr_datatags self = Ok (Computed (map tagged_date in_order))
    /\ Sorted (fun a b => date_le (snd a) (snd b)) (map tagged_date in_order).
Proof.
  intros Hraw Hitems Hnodup.
  destruct (map_Some_items _ _ Hitems) as [Hall ->].
  set (keyed := map (fun x => (date_key x, x)) entries).
  assert (Hdated : Forall dated keyed).
  { unfold keyed. apply Forall_map.
    eapply Forall_impl; [|exact Hall]. intros x Hx. exact (proj2 (dated_key x Hx)). }
  destruct (sort_by_strings keyed) as (r & Hsort & Hperm & Hsorted).
  { eapply Forall_impl; [|exact Hdated]. exact dated_string_key. }
  assert (Hdated_r : Forall dated r) by (eapply Permutation_Forall; eassumption).
  assert (Hperm_e : Permutation entries (map snd r)).
  { replace entries with (map snd keyed).
    - now apply Permutation_map.
    - unfold keyed. rewrite map_map. cbn [snd]. apply map_id. }
  exists (map item_of (map snd r)).
  assert (Hsorted_items :
    Sorted (fun a b => datetime_le (snd a) (snd b)) (map item_of (map snd r))).
  { rewrite map_map.
    apply (Sorted_map_In str_le); [|exact Hsorted].
    intros a b Ha Hb Hab. rewrite Forall_forall in Hdated_r.
    apply dated_le; auto. }
  assert (Hbody : CustomFieldsMixin.datatags self
                  = Ok (map tagged_date (map item_of (map snd r)))).
  { unfold CustomFieldsMixin.datatags.
    rewrite (getitem_Some _ _ _ Hraw). cbn [bind py_iter].
    unfold sorted. rewrite (mapM_date_keys _ Hall). fold keyed. cbn [bind].
    rewrite Hsort. cbn [bind].
    rewrite dict_collect_datatags.
    - cbn [app except_KeyError]. now rewrite (map_map item_of tagged_date).
    - eapply Permutation_Forall; eassumption.
    - cbn [map app]. rewrite <- (map_map item_of (fun it => key_norm (fst it))).
      eapply Permutation_NoDup; [|exact Hnodup].
      now do 2 apply Permutation_map. }
  repeat split.
  - now apply Permutation_map.
  - exact Hsorted_items.
  - exact Hbody.
  - unfold Opportunity.attr_datatags. now rewrite Hbody.
  - unfold Party.attr_datatags. now rewrite Hbody.
  - apply (Sorted_map_In (fun a b => datetime_le (snd a) (snd b)));
      [|exact Hsorted_items].
    intros a b _ _ Hab. cbn [tagged_date snd]. now apply date_of_le.
Qed.

Lemma C2_datatags_ascending_witness :
  exists in_order,
    Permutation
      [(KStr "z", mk_datetime 2021 1 1 0 0 0); (KStr "y", mk_datetime 2020 6 1 12 30 0);
       (KStr "x", mk_datetime 2020 1 1 0 0 0)] in_order
    /\ CustomFieldsMixin.datatags
         [field "id" (VInt 7);
          field "raw_datatags"
            (VList [datatag "z" "2021-01-01T00:00:00Z";
                    datatag "y" "2020-06-01T12:30:00Z";
                    datatag "x" "2020-01-01T00:00:00Z"])]
       = Ok (map tagged_date in_order)
    /\ Sorted (fun a b => date_le (snd a) (snd b)) (map tagged_date in_order).
Proof.
  destruct (C2_datatags_ascending
    [field "id" (VInt 7);
     field "raw_datatags"
       (VList [datatag "z" "2021-01-01T00:00:00Z";
               datatag "y" "2020-06-01T12:30:00Z";
               datatag "x" "2020-01-01T00:00:00Z"])]
    [datatag "z" "2021-01-01T00:00:00Z"; datatag "y" "2020-06-01T12:30:00Z";
     datatag "x" "2020-01-01T00:00:00Z"]
    [(KStr "z", mk_datetime 2021 1 1 0 0 0); (KStr "y", mk_datetime 2020 6 1 12 30 0);
     (KStr "x", mk_datetime 2020 1 1 0 0 0)])
    as (in_order & Hp & _ & Hb & _ & _ & Hs).
  - reflexivity.
  - vm_compute. reflexivity.
  - cbn [map fst key_norm].
    repeat constructor; cbn [In]; intuition discriminate.
  - exists in_order. auto.
Defined.

(** ** Loading the custom fields *)

Lemma key_eqb_str (s : string) (k : key) :
  key_eqb (KStr s) k = true <-> k = KStr s.
Proof.
  destruct k; cbn; try (split; [discriminate | discriminate]).
  rewrite String.eqb_eq. split; [intros -> | intros [= ->]]; reflexivity.
Qed.

Lemma key_eqb_sym (a b : key) : key_eqb a b = key_eqb b a.
Proof.
  destruct (key_eqb a b) eqn:E.
  - apply key_eqb_norm in E. symmetry. apply key_eqb_norm. congruence.
  - apply key_eqb_false_norm in E. symmetry. apply key_eqb_false_norm. congruence.
Qed.

Lemma key_eqb_trans (a b c : key) :
  key_eqb a b = true -> key_eqb b c = true -> key_eqb a c = true.
Proof.
  rewrite !key_eqb_norm. congruence.
Qed.

Section DictSetFacts.
Context {V : Type}.
Implicit Types (d : pydict V) (k : key) (v : V).

Lemma dict_set_set d k v v' :
  dict_set k v' (dict_set k v d) = dict_set k v' d.
Proof.
  induction d as [|[k0 v0] d IH]; cbn.
  - rewrite key_eqb_refl. reflexivity.
  - destruct (key_eqb k0 k) eqn:E; cbn; rewrite E; [reflexivity|].
    rewrite IH. reflexivity.
Qed.

Lemma dict_set_comm d k1 k2 v1 v2 :
  key_eqb k1 k2 = false -> dict_has k1 d = true ->
  dict_set k1 v1 (dict_set k2 v2 d) = dict_set k2 v2 (dict_set k1 v1 d).
Proof.
  intros Hne. unfold dict_has.
  induction d as [|[k0 v0] d IH]; cbn; [discriminate|].
  destruct (key_eqb k0 k1) eqn:E1.
  - intros _.
    assert (E2 : key_eqb k0 k2 = false).
    { destruct (key_eqb k0 k2) eqn:E2; [|reflexivity].
      rewrite key_eqb_sym in E1.
      rewrite (key_eqb_trans _ _ _ E1 E2) in Hne. discriminate. }
    rewrite E2. cbn. rewrite E1, E2. reflexivity.
  - intros H. destruct (key_eqb k0 k2) eqn:E2; cbn; rewrite E1, ?E2; [reflexivity|].
    rewrite IH by exact H. reflexivity.
Qed.

Lemma dict_has_set d k v : dict_has k (dict_set k v d) = true.
Proof. unfold dict_has. rewrite dict_get_set_same. reflexivity. Qed.

End DictSetFacts.

Lemma filterM_has_date (entries : list pyval) :
  Forall (fun x => is_dict x = true) entries ->
  filterM CustomFieldsMixin.has_date entries = Ok (filter with_date entries).
Proof.
  induction 1 as [|x l Hx _ IH]; [reflexivity|].
  destruct x; try discriminate. cbn [filterM filter with_date].
  rewrite IH. cbn. destruct (dict_has (KStr "date") d); reflexivity.
Qed.

Lemma filterM_has_no_date (entries : list pyval) :
  Forall (fun x => is_dict x = true) entries ->
  filterM CustomFieldsMixin.has_no_date entries
  = Ok (filter (fun x => negb (with_date x)) entries).
Proof.
  induction 1 as [|x l Hx _ IH]; [reflexivity|].
  destruct x; try discriminate. cbn [filterM filter with_date].
  rewrite IH. cbn. destruct (dict_has (KStr "date") d); reflexivity.
Qed.

Lemma load_customfields_objects (self : record) (entries : list pyval) :
  Forall (fun x => is_dict x = true) entries ->
  CustomFieldsMixin.load_customfields_from_api self (VList entries)
  = (Ok tt,
     dict_set (KStr "raw_datatags") (VList (filter with_date entries))
       (dict_set (KStr "raw_customfields")
          (VList (filter (fun x => negb (with_date x)) entries)) self)).
Proof.
  intros H. unfold CustomFieldsMixin.load_customfields_from_api.
  cbn [py_iter bind].
  rewrite (filterM_has_no_date _ H), (filterM_has_date _ H). reflexivity.
Qed.

(** X1: [load_customfields_from_api] sorts the entries of the API into
    two lists and touches nothing else: given a list of JSON objects it
    succeeds, 'raw_customfields' holds the entries without a 'date' member
    and 'raw_datatags' the entries with one, each list in the order of the
    response, and every other key of the entity keeps its value. *)
Theorem X1_load_customfields_splits (self : record) (entries : list pyval) :
  Forall (fun x => is_dict x = true) entries ->
  let call := CustomFieldsMixin.load_customfields_from_api self (VList entries) in
  fst call = Ok tt
  /\ dict_get (KStr "raw_customfields") (snd call)
     = Some (VList (filter (fun x => negb (with_date x)) entries))
  /\ dict_get (KStr "raw_datatags") (snd call)
     = Some (VList (filter with_date entries))
  /\ (forall k : key,
        k <> KStr "raw_customfields" -> k <> KStr "raw_datatags" ->
        dict_get k (snd call) = dict_get k self).
Proof.
  intros H call. subst call. rewrite (load_customfields_objects _ _ H).
  cbn [fst snd]. split; [reflexivity|]. split; [|split].
  - rewrite dict_get_set_other by reflexivity. apply dict_get_set_same.
  - apply dict_get_set_same.
  - intros k H1 H2.
    rewrite !dict_get_set_other; [reflexivity| |].
    + destruct (key_eqb (KStr "raw_customfields") k) eqn:E; [|reflexivity].
      apply key_eqb_str in E. contradiction.
    + destruct (key_eqb (KStr "raw_datatags") k) eqn:E; [|reflexivity].
      apply key_eqb_str in E. contradiction.
Qed.

Lemma X1_load_customfields_splits_witness :
  let call :=
    CustomFieldsMixin.load_customfields_from_api opportunity_7
      (VList [datatag "signed" "2021-03-05T00:00:00Z";
              VDict [field "label" (VStr "Source"); field "text" (VStr "Web")]]) in
  fst call = Ok tt
  /\ dict_get (KStr "raw_customfields") (snd call)
     = Some (VList [VDict [field "label" (VStr "Source"); field "text" (VStr "Web")]])
  /\ dict_get (KStr "raw_datatags") (snd call)
     = Some (VList [datatag "signed" "2021-03-05T00:00:00Z"])
  /\ (forall k : key,
        k <> KStr "raw_customfields" -> k <> KStr "raw_datatags" ->
        dict_get k (snd call) = dict_get k opportunity_7).
Proof.
  apply (X1_load_customfields_splits opportunity_7
           [datatag "signed" "2021-03-05T00:00:00Z";
            VDict [field "label" (VStr "Source"); field "text" (VStr "Web")]]).
  repeat constructor.
Defined.

Lemma load_customfields_ok (self : record) (customfields : pyval) :
  fst (CustomFieldsMixin.load_customfields_from_api self customfields) = Ok tt ->
  exists plain dated,
    CustomFieldsMixin.load_customfields_from_api self customfields
    = (Ok tt,
       dict_set (KStr "raw_datatags") (VList dated)
         (dict_set (KStr "raw_customfields") (VList plain) self))
    /\ forall self',
         CustomFieldsMixin.load_customfields_from_api self' customfields
         = (Ok tt,
            dict_set (KStr "raw_datatags") (VList dated)
              (dict_set (KStr "raw_customfields") (VList plain) self')).
Proof.
  unfold CustomFieldsMixin.load_customfields_from_api.
  destruct (items <- py_iter customfields ;;
            filterM CustomFieldsMixin.has_no_date items) as [plain|e];
    [|discriminate].
  destruct (items <- py_iter customfields ;;
            filterM CustomFieldsMixin.has_date items) as [dated|e];
    [|discriminate].
  intros _. exists plain, dated. split; [reflexivity|]. intros self'. reflexivity.
Qed.

(** X2: Loading again replaces what was loaded before: when two lists of
    custom fields can each be loaded into an entity, loading the second
    after the first leaves exactly the entity that loading the second
    alone gives, so nothing of the first load is left over.  The same
    holds for the tags. *)
Theorem X2_last_load_wins (self : record) :
  (forall first second,
     fst (CustomFieldsMixin.load_customfields_from_api self first) = Ok tt ->
     fst (CustomFieldsMixin.load_customfields_from_api self second) = Ok tt ->
     CustomFieldsMixin.load_customfields_from_api
       (snd (CustomFieldsMixin.load_customfields_from_api self first)) second
     = CustomFieldsMixin.load_customfields_from_api self second)
  /\ (forall first second,
        fst (CustomFieldsMixin.load_tags_from_api self first) = Ok tt ->
        fst (CustomFieldsMixin.load_tags_from_api self second) = Ok tt ->
        CustomFieldsMixin.load_tags_from_api
          (snd (CustomFieldsMixin.load_tags_from_api self first)) second
        = CustomFieldsMixin.load_tags_from_api self second).
Proof.
  split.
  - intros c1 c2 H1 H2.
    destruct (load_customfields_ok _ _ H1) as (p1 & d1 & E1 & _).
    destruct (load_customfields_ok _ _ H2) as (p2 & d2 & _ & E2).
    rewrite E1. cbn [snd]. rewrite !E2. f_equal.
    rewrite (dict_set_comm _ (KStr "raw_customfields") (KStr "raw_datatags"))
      by (reflexivity || apply dict_has_set).
    rewrite dict_set_set, dict_set_set. reflexivity.
  - intros t1 t2. unfold CustomFieldsMixin.load_tags_from_api.
    destruct (py_iter t1) as [l1|]; [|discriminate].
    destruct (py_iter t2) as [l2|]; [|discriminate].
    intros _ _. cbn [snd]. rewrite dict_set_set. reflexivity.
Qed.

Lemma X2_last_load_wins_witness :
  CustomFieldsMixin.load_customfields_from_api
    (snd (CustomFieldsMixin.load_customfields_from_api opportunity_7
            (VList [datatag "signed" "2021-03-05T00:00:00Z"])))
    (VList [VDict [field "label" (VStr "Source"); field "text" (VStr "Web")]])
  = CustomFieldsMixin.load_customfields_from_api opportunity_7
      (VList [VDict [field "label" (VStr "Source"); field "text" (VStr "Web")]]).
Proof.
  apply (proj1 (X2_last_load_wins opportunity_7)); reflexivity.
Defined.

(** ** Custom fields as attributes *)

Lemma dict_collect_fields (l : list pyval) (fields : list (key * pyval))
  (d : pydict pyval) :
  Forall2 (fun x kv => custom_field x = Some kv) l fields ->
  dict_collect CustomFieldsMixin.to_tuple l d
  = Ok (fold_left (fun d kv => dict_set (fst kv) (snd kv) d) fields d).
Proof.
  intros H. revert d. induction H as [|x kv l fields Hx _ IH]; intros d.
  - reflexivity.
  - cbn [dict_collect fold_left]. unfold custom_field in Hx.
    destruct (CustomFieldsMixin.to_tuple x) as [[label v]|]; [|discriminate].
    cbn [bind fst snd].
    destruct (key_of_value label) as [k|]; [|discriminate].
    apply (f_equal (fun o => match o with Some x => x | None => kv end)) in Hx.
    cbn beta iota in Hx. subst kv. cbn [bind fst snd]. apply IH.
Qed.

(** X3: After [load_customfields_from_api], a custom field reads as an
    attribute under its label.  When the entries are JSON objects and the
    plain ones (those without a 'date') are well-formed fields, the
    [customfields] of the entity are the dict of the plain fields alone,
    and a label of that dict that is no key of the entity itself (and none
    of the three names the class reserves) is answered by [__getattr__],
    of [Opportunity] and of [Party] alike, with the value of the field. *)
Theorem X3_custom_field_is_attribute (self : record) (entries : list pyval)
  (fields : list (key * pyval)) (name : string) (v : pyval) :
  Forall (fun x => is_dict x = true) entries ->
  Forall2 (fun x kv => custom_field x = Some kv)
    (filter (fun x => negb (with_date x)) entries) fields ->
  dict_get (KStr name) (dict_of fields) = Some v ->
  dict_get (KStr name) self = None ->
  name <> "raw_customfields" -> name <> "raw_datatags" ->
  name <> "customfields" ->
  let self' :=
    snd (CustomFieldsMixin.load_customfields_from_api self (VList entries)) in
  CustomFieldsMixin.customfields self' = Ok (dict_of fields)
  /\ Opportunity.getattr_ self' name = Ok v
  /\ Party.getattr_ self' name = Ok v.
Proof.
  intros Hobj Hfields Hv Hself N1 N2 N3 self'. subst self'.
  rewrite (load_customfields_objects _ _ Hobj). cbn [snd].
  set (plain := filter (fun x => negb (with_date x)) entries) in *.
  set (self' := dict_set (KStr "raw_datatags") _ _).
  assert (Hraw : get self' "raw_customfields" = VList plain).
  { apply get_Some. subst self'.
    rewrite dict_get_set_other by reflexivity. apply dict_get_set_same. }
  assert (Hne : plain <> []).
  { intros E. rewrite E in Hfields. inversion Hfields; subst.
    discriminate Hv. }
  assert (Hcf : CustomFieldsMixin.customfields self' = Ok (dict_of fields)).
  { rewrite (customfields_of_raw _ _ Hraw Hne).
    rewrite (dict_collect_fields _ _ _ Hfields). reflexivity. }
  assert (Hfresh : dict_get (KStr name) self' = None).
  { subst self'. rewrite !dict_get_set_other; [exact Hself| |].
    - destruct (key_eqb (KStr "raw_customfields") (KStr name)) eqn:E; [|reflexivity].
      apply key_eqb_str in E. congruence.
    - destruct (key_eqb (KStr "raw_datatags") (KStr name)) eqn:E; [|reflexivity].
      apply key_eqb_str in E. congruence. }
  assert (Hname : String.eqb name "customfields" = false).
  { apply String.eqb_neq. exact N3. }
  split; [exact Hcf|]. split.
  - unfold Opportunity.getattr_, Opportunity.attr_customfields.
    rewrite Hname, Hfresh, Hcf. cbn [bind]. rewrite Hv. reflexivity.
  - unfold Party.getattr_, Party.attr_customfields.
    rewrite Hname, Hfresh, Hcf. cbn [bind]. rewrite Hv. reflexivity.
Qed.

Lemma X3_custom_field_is_attribute_witness :
  let self' :=
    snd (CustomFieldsMixin.load_customfields_from_api opportunity_7
           (VList [datatag "signed" "2021-03-05T00:00:00Z";
                   VDict [field "label" (VStr "Source"); field "text" (VStr "Web")]])) in
  CustomFieldsMixin.customfields self' = Ok (dict_of [(KStr "Source", VStr "Web")])
  /\ Opportunity.getattr_ self' "Source" = Ok (VStr "Web")
  /\ Party.getattr_ self' "Source" = Ok (VStr "Web").
Proof.
  apply (X3_custom_field_is_attribute opportunity_7
           [datatag "signed" "2021-03-05T00:00:00Z";
            VDict [field "label" (VStr "Source"); field "text" (VStr "Web")]]
           [(KStr "Source", VStr "Web")] "Source" (VStr "Web")).
  - repeat constructor.
  - repeat constructor.
  - reflexivity.
  - reflexivity.
  - discriminate.
  - discriminate.
  - discriminate.
Defined.

(** ** Tags *)

Lemma mapM_names (ts : list record) (names : list pyval) :
  Forall2 (fun t n => dict_get (KStr "name") t = Some n) ts names ->
  mapM (fun x => py_getitem x "name") (map VDict ts) = Ok names.
Proof.
  induction 1 as [|t n ts names Ht _ IH]; [reflexivity|].
  cbn [map mapM py_getitem]. rewrite (getitem_Some _ _ _ Ht), IH. reflexivity.
Qed.

(** X4: The tags of an entity are what [load_tags_from_api] stored.
    Before any load the property [tags] raises KeyError (not the
    AttributeError that [customfields] and [datatags] raise); after a list
    of tag objects has been loaded, [tags] is the list of their names, in
    the order of the response. *)
Theorem X4_tags_round_trip (self : record) (ts : list record)
  (names : list pyval) :
  Forall2 (fun t n => dict_get (KStr "name") t = Some n) ts names ->
  (dict_get (KStr "tags_id") self = None ->
   CustomFieldsMixin.tags self = Raise (KeyError "tags_id"))
  /\ (let call := CustomFieldsMixin.load_tags_from_api self (VList (map VDict ts)) in
      fst call = Ok tt /\ CustomFieldsMixin.tags (snd call) = Ok names).
Proof.
  intros H. split.
  - intros Hnone. unfold CustomFieldsMixin.tags.
    rewrite (getitem_None _ _ Hnone). reflexivity.
  - cbn. split; [reflexivity|]. unfold CustomFieldsMixin.tags.
    rewrite (getitem_Some _ _ _ (dict_get_set_same _ _ _)).
    cbn [bind py_iter]. apply (mapM_names _ _ H).
Qed.

Lemma X4_tags_round_trip_witness :
  CustomFieldsMixin.tags opportunity_7 = Raise (KeyError "tags_id")
  /\ CustomFieldsMixin.tags
       (snd (CustomFieldsMixin.load_tags_from_api opportunity_7
               (VList [VDict [field "name" (VStr "vip")];
                       VDict [field "name" (VStr "lead")]])))
     = Ok [VStr "vip"; VStr "lead"].
Proof.
  destruct (X4_tags_round_trip opportunity_7
              [[field "name" (VStr "vip")]; [field "name" (VStr "lead")]]
              [VStr "vip"; VStr "lead"]) as [H1 [_ H2]].
  - repeat constructor.
  - split; [apply H1; reflexivity | exact H2].
Defined.

Lemma getitem_of_key (k : key) (name : string) :
  py_getitem (value_of_key k) name = Raise TypeError.
Proof. destruct k; reflexivity. Qed.

(** X5: A single tag is not wrapped.  [opportunity_tags] hands the value
    under 'tag' on as it is, so when the response holds one tag object
    instead of a list, [load_tags_from_api] stores the keys of that object
    as if they were the tags, and the property [tags] then raises
    TypeError. *)
Theorem X5_single_tag_breaks_tags (self envelope tag : record) :
  dict_get (KStr "tag") envelope = Some (VDict tag) -> tag <> [] ->
  let found := CapsuleAPI.opportunity_tags (VDict [field "tags" (VDict envelope)]) in
  let call := CustomFieldsMixin.load_tags_from_api self (VDict tag) in
  found = Ok (VDict tag)
  /\ fst call = Ok tt
  /\ dict_get (KStr "tags_id") (snd call)
     = Some (VList (map value_of_key (dict_keys tag)))
  /\ CustomFieldsMixin.tags (snd call) = Raise TypeError.
Proof.
  intros Htag Hne found call. subst found call. split; [|split; [|split]].
  - unfold CapsuleAPI.opportunity_tags. cbn [py_getitem field].
    rewrite (getitem_Some _ "tags" (VDict envelope)) by reflexivity.
    cbn [bind py_get]. rewrite (get_Some _ _ _ Htag).
    destruct tag; [contradiction|reflexivity].
  - reflexivity.
  - cbn. apply dict_get_set_same.
  - cbn [CustomFieldsMixin.load_tags_from_api py_iter snd].
    unfold CustomFieldsMixin.tags.
    rewrite (getitem_Some _ _ _ (dict_get_set_same _ _ _)).
    cbn [bind py_iter]. destruct tag as [|[k v] tag]; [contradiction|].
    cbn [dict_keys map fst mapM]. rewrite getitem_of_key. reflexivity.
Qed.

Lemma X5_single_tag_breaks_tags_witness :
  CapsuleAPI.opportunity_tags
    (VDict [field "tags" (VDict [field "tag" (VDict [field "name" (VStr "vip")])])])
  = Ok (VDict [field "name" (VStr "vip")])
  /\ CustomFieldsMixin.tags
       (snd (CustomFieldsMixin.load_tags_from_api opportunity_7
               (VDict [field "name" (VStr "vip")])))
     = Raise TypeError.
Proof.
  destruct (X5_single_tag_breaks_tags opportunity_7
              [field "tag" (VDict [field "name" (VStr "vip")])]
              [field "name" (VStr "vip")]) as (H1 & _ & _ & H4).
  - reflexivity.
  - discriminate.
  - split; [exact H1 | exact H4].
Defined.

(** ** The outcome of an opportunity *)

(** X6: An opportunity never has both outcomes.  While it is open both
    [positive_outcome] and [negative_outcome] are False, whatever its
    probability (which is not even read); and when one of the two is True
    the opportunity is closed and the other one is False. *)
Theorem X6_outcomes_exclude_each_other (self : record) :
  (Opportunity.open self = true ->
   Opportunity.positive_outcome self = Ok false
   /\ Opportunity.negative_outcome self = Ok false)
  /\ (Opportunity.positive_outcome self = Ok true ->
      Opportunity.open self = false
      /\ Opportunity.probability self = Ok 100
      /\ Opportunity.negative_outcome self = Ok false)
  /\ (Opportunity.negative_outcome self = Ok true ->
      Opportunity.open self = false
      /\ Opportunity.probability self = Ok 0
      /\ Opportunity.positive_outcome self = Ok false).
Proof.
  unfold Opportunity.positive_outcome, Opportunity.negative_outcome.
  destruct (Opportunity.open self).
  - split; [intros _; split; reflexivity|]. split; discriminate.
  - split; [discriminate|].
    destruct (Opportunity.probability self) as [p|e]; cbn [bind].
    + split; intros H;
        apply (f_equal (fun r => match r with Ok b => b | Raise _ => false end)) in H;
        cbn beta iota in H; apply Z.eqb_eq in H; subst p; repeat split; reflexivity.
    + split; discriminate.
Qed.

Lemma X6_outcomes_exclude_each_other_witness :
  Opportunity.open
    [field "actualCloseDate" (VStr "2021-03-05T00:00:00Z");
     field "probability" (VStr "100")] = false
  /\ Opportunity.negative_outcome
       [field "actualCloseDate" (VStr "2021-03-05T00:00:00Z");
        field "probability" (VStr "100")] = Ok false.
Proof.
  destruct (proj1 (proj2 (X6_outcomes_exclude_each_other
              [field "actualCloseDate" (VStr "2021-03-05T00:00:00Z");
               field "probability" (VStr "100")])))
    as (H1 & _ & H3).
  - reflexivity.
  - split; [exact H1 | exact H3].
Defined.

(** ** What [strptime] accepts *)

Lemma read_year_range (s r : list ascii) (y : Z) :
  read_year s = Some (y, r) -> 0 <= y <= 9999.
Proof.
  unfold read_year.
  destruct s as [|a [|b [|c [|d s]]]]; try discriminate.
  destruct (digit a) as [x1|] eqn:E1; [|discriminate].
  destruct (digit b) as [x2|] eqn:E2; [|discriminate].
  destruct (digit c) as [x3|] eqn:E3; [|discriminate].
  destruct (digit d) as [x4|] eqn:E4; [|discriminate].
  apply digit_range in E1, E2, E3, E4.
  intros H.
  apply (f_equal (fun o => match o with Some p => fst p | None => y end)) in H.
  cbv beta iota in H. unfold fst in H. lia.
Qed.

Lemma read_field_range (two_ok one_ok : Z -> bool) (s r : list ascii) (v : Z) :
  read_field two_ok one_ok s = Some (v, r) ->
  two_ok v = true \/ one_ok v = true.
Proof.
  unfold read_field.
  destruct s as [|c1 s1]; [discriminate|].
  destruct (digit c1) as [a|]; [|discriminate].
  assert (Hone : (if one_ok a then Some (a, s1) else None) = Some (v, r) ->
                 two_ok v = true \/ one_ok v = true).
  { destruct (one_ok a) eqn:E; [|discriminate].
    intros H.
    apply (f_equal (fun o => match o with Some p => fst p | None => v end)) in H.
    cbv beta iota in H. unfold fst in H. subst a. right. exact E. }
  destruct s1 as [|c2 s2]; [exact Hone|].
  destruct (digit c2) as [b|]; [|exact Hone].
  destruct (two_ok (10 * a + b)) eqn:E; [|discriminate].
  intros H.
  apply (f_equal (fun o => match o with Some p => fst p | None => v end)) in H.
  cbv beta iota in H. unfold fst in H. subst v. left. exact E.
Qed.

Lemma between_spec (lo hi v : Z) : between lo hi v = true <-> lo <= v <= hi.
Proof. unfold between. rewrite andb_true_iff, !Z.leb_le. reflexivity. Qed.

Lemma read_field_between (lo hi lo' hi' : Z) (s r : list ascii) (v : Z) :
  read_field (between lo hi) (between lo' hi') s = Some (v, r) ->
  Z.min lo lo' <= v <= Z.max hi hi'.
Proof.
  intros H. apply read_field_range in H.
  destruct H as [H|H]; apply between_spec in H; lia.
Qed.

Lemma read_day_range (s r : list ascii) (v : Z) :
  read_day s = Some (v, r) -> 1 <= v <= 31.
Proof.
  assert (Hfield : read_field (between 1 31) (between 1 9) s = Some (v, r) ->
                   1 <= v <= 31).
  { intros H. apply read_field_between in H. lia. }
  unfold read_day. destruct s as [|c1 [|c2 s2]]; try exact Hfield.
  destruct (char_is c1 " "); [|exact Hfield].
  destruct (digit c2) as [b|]; [|discriminate].
  destruct (between 1 9 b) eqn:E; [|discriminate].
  apply between_spec in E. intros H.
  apply (f_equal (fun o => match o with Some p => fst p | None => v end)) in H.
  cbv beta iota in H. unfold fst in H. lia.
Qed.

Lemma match_format_range (s : list ascii) (t : datetime) :
  match_format s = Some t ->
  0 <= year t <= 9999 /\ 1 <= month t <= 12 /\ 1 <= day t <= 31
  /\ 0 <= hour t <= 23 /\ 0 <= minute t <= 59 /\ 0 <= second t <= 61.
Proof.
  unfold match_format, obind.
  destruct (read_year s) as [[y s1]|] eqn:Ey; [|discriminate].
  destruct (expect "-" s1) as [s2|]; [|discriminate].
  destruct (read_month s2) as [[mo s3]|] eqn:Emo; [|discriminate].
  destruct (expect "-" s3) as [s4|]; [|discriminate].
  destruct (read_day s4) as [[d s5]|] eqn:Ed; [|discriminate].
  destruct (expect "t" s5) as [s6|]; [|discriminate].
  destruct (read_hour s6) as [[h s7]|] eqn:Eh; [|discriminate].
  destruct (expect ":" s7) as [s8|]; [|discriminate].
  destruct (read_minute s8) as [[mi s9]|] eqn:Emi; [|discriminate].
  destruct (expect ":" s9) as [s10|]; [|discriminate].
  destruct (read_second s10) as [[sec s11]|] eqn:Esec; [|discriminate].
  destruct (expect "z" s11) as [s12|]; [|discriminate].
  destruct s12; [|discriminate].
  intros H.
  apply (f_equal (fun o => match o with Some x => x | None => t end)) in H.
  cbv beta iota in H. subst t. cbn [year month day hour minute second].
  apply read_year_range in Ey. apply read_day_range in Ed.
  apply read_field_between in Emo, Eh, Emi, Esec. lia.
Qed.

Lemma numeral_1 (a : ascii) (x : Z) :
  digit a = Some x -> numeral [a] = Some x.
Proof.
  intros H. cbn [numeral numeral_from]. rewrite H. f_equal; lia.
Qed.

Lemma numeral_2 (a b : ascii) (x y : Z) :
  digit a = Some x -> digit b = Some y -> numeral [a; b] = Some (10 * x + y).
Proof.
  intros H1 H2. cbn [numeral numeral_from]. rewrite H1, H2. f_equal; lia.
Qed.

Lemma numeral_4 (a b c d : ascii) (x y z w : Z) :
  digit a = Some x -> digit b = Some y -> digit c = Some z -> digit d = Some w ->
  numeral [a; b; c; d] = Some (1000 * x + 100 * y + 10 * z + w).
Proof.
  intros H1 H2 H3 H4. cbn [numeral numeral_from]. rewrite H1, H2, H3, H4.
  f_equal; lia.
Qed.

Lemma numeral_1_inv (a : ascii) (v : Z) :
  numeral [a] = Some v -> digit a = Some v.
Proof.
  cbn [numeral numeral_from]. destruct (digit a) as [x|]; [|discriminate].
  intros H. inversion H. f_equal; lia.
Qed.

Lemma numeral_2_inv (a b : ascii) (v : Z) :
  numeral [a; b] = Some v ->
  exists x y, digit a = Some x /\ digit b = Some y /\ v = 10 * x + y.
Proof.
  cbn [numeral numeral_from]. destruct (digit a) as [x|]; [|discriminate].
  destruct (digit b) as [y|]; [|discriminate].
  intros H. inversion H. exists x, y. repeat split; lia.
Qed.

Lemma read_year_inv (s r : list ascii) (y : Z) :
  read_year s = Some (y, r) ->
  exists ys, s = (ys ++ r)%list /\ List.length ys = 4%nat /\ numeral ys = Some y.
Proof.
  unfold read_year.
  destruct s as [|a [|b [|c [|d s]]]]; try discriminate.
  destruct (digit a) as [x1|] eqn:E1; [|discriminate].
  destruct (digit b) as [x2|] eqn:E2; [|discriminate].
  destruct (digit c) as [x3|] eqn:E3; [|discriminate].
  destruct (digit d) as [x4|] eqn:E4; [|discriminate].
  intros H. inversion H; subst. exists [a; b; c; d].
  split; [reflexivity|]. split; [reflexivity|].
  apply numeral_4; assumption.
Qed.

Lemma read_field_inv (two_ok one_ok : Z -> bool) (s r : list ascii) (v : Z) :
  read_field two_ok one_ok s = Some (v, r) ->
  exists cs, s = (cs ++ r)%list /\ field_text cs v.
Proof.
  unfold read_field, field_text.
  destruct s as [|c1 s1]; [discriminate|].
  destruct (digit c1) as [a|] eqn:E1; [|discriminate].
  assert (Hone : (if one_ok a then Some (a, s1) else None) = Some (v, r) ->
                 exists cs, (c1 :: s1) = (cs ++ r)%list
                            /\ (List.length cs <= 2)%nat /\ numeral cs = Some v).
  { destruct (one_ok a); [|discriminate]. intros H. inversion H; subst.
    exists [c1]. split; [reflexivity|]. split; [cbn; lia|].
    apply numeral_1. exact E1. }
  destruct s1 as [|c2 s2]; [exact Hone|].
  destruct (digit c2) as [b|] eqn:E2; [|exact Hone].
  destruct (two_ok (10 * a + b)); [|discriminate].
  intros H. inversion H; subst. exists [c1; c2].
  split; [reflexivity|]. split; [cbn; lia|].
  apply numeral_2; assumption.
Qed.

Lemma read_day_inv (s r : list ascii) (v : Z) :
  read_day s = Some (v, r) ->
  exists cs, s = (cs ++ r)%list /\ day_text cs v.
Proof.
  assert (Hfield : read_field (between 1 31) (between 1 9) s = Some (v, r) ->
                   exists cs, s = (cs ++ r)%list /\ day_text cs v).
  { intros H. apply read_field_inv in H. destruct H as (cs & E & H).
    exists cs. split; [exact E|]. left. exact H. }
  unfold read_day. destruct s as [|c1 [|c2 s2]]; try exact Hfield.
  destruct (char_is c1 " ") eqn:Esp; [|exact Hfield].
  destruct (digit c2) as [b|] eqn:E2; [|discriminate].
  destruct (between 1 9 b); [|discriminate].
  intros H. inversion H; subst.
  apply (char_is_eq c1 " "%char) in Esp. subst c1.
  exists [" "%char; c2]. split; [reflexivity|].
  right. exists c2. split; [reflexivity|exact E2].
Qed.

Lemma lower_inv (c : ascii) :
  lower c = c \/ exists n, N_of_ascii c = n /\ (65 <= n <= 90)%N
                           /\ lower c = ascii_of_N (n + 32).
Proof.
  unfold lower.
  destruct ((65 <=? N_of_ascii c) && (N_of_ascii c <=? 90))%N eqn:E.
  - right. exists (N_of_ascii c). split; [reflexivity|].
    apply andb_true_iff in E. destruct E as [E1 E2].
    apply N.leb_le in E1. apply N.leb_le in E2. split; [lia|reflexivity].
  - left. reflexivity.
Qed.

Lemma expect_inv (lit : ascii) (s r : list ascii) :
  expect (String lit EmptyString) s = Some r ->
  exists c, s = c :: r /\ lower c = lit.
Proof.
  unfold expect. destruct s as [|c s']; [discriminate|].
  destruct (char_is (lower c) (String lit EmptyString)) eqn:E; [|discriminate].
  intros H. inversion H; subst. exists c. split; [reflexivity|].
  apply char_is_eq. exact E.
Qed.

(** The letters: [lower c] is [c] off the capitals, and the capital 32
    places below the letter on them. *)
Lemma lower_is (c : ascii) (lit : ascii) :
  lower c = lit ->
  c = lit \/ ((65 <= N_of_ascii c <= 90)%N /\ N_of_ascii lit = (N_of_ascii c + 32)%N).
Proof.
  intros H. destruct (lower_inv c) as [E|(n & En & Hn & E)].
  - left. congruence.
  - right. subst n. split; [exact Hn|]. rewrite <- H, E.
    rewrite N_ascii_embedding; [reflexivity|lia].
Qed.

Lemma expect_symbol (lit : ascii) (s r : list ascii) :
  (N_of_ascii lit < 97)%N ->
  expect (String lit EmptyString) s = Some r -> s = lit :: r.
Proof.
  intros Hlit H. apply expect_inv in H. destruct H as (c & -> & Hc).
  apply lower_is in Hc. destruct Hc as [->|[H1 H2]]; [reflexivity|lia].
Qed.

Lemma expect_letter (lit : ascii) (s r : list ascii) :
  (97 <= N_of_ascii lit <= 122)%N ->
  expect (String lit EmptyString) s = Some r ->
  exists c, s = c :: r /\ (c = ascii_of_N (N_of_ascii lit - 32) \/ c = lit).
Proof.
  intros Hlit H. apply expect_inv in H. destruct H as (c & -> & Hc).
  exists c. split; [reflexivity|].
  apply lower_is in Hc. destruct Hc as [->|[H1 H2]]; [right; reflexivity|].
  left. rewrite H2. replace (N_of_ascii c + 32 - 32)%N with (N_of_ascii c) by lia.
  symmetry. apply ascii_N_embedding.
Qed.

Lemma match_format_spells (s : string) (t : datetime) :
  match_format (list_ascii_of_string s) = Some t -> spells s t.
Proof.
  unfold match_format, obind, spells.
  destruct (read_year (list_ascii_of_string s)) as [[y s1]|] eqn:Ey; [|discriminate].
  destruct (expect "-" s1) as [s2|] eqn:X1; [|discriminate].
  destruct (read_month s2) as [[mo s3]|] eqn:Emo; [|discriminate].
  destruct (expect "-" s3) as [s4|] eqn:X2; [|discriminate].
  destruct (read_day s4) as [[d s5]|] eqn:Ed; [|discriminate].
  destruct (expect "t" s5) as [s6|] eqn:X3; [|discriminate].
  destruct (read_hour s6) as [[h s7]|] eqn:Eh; [|discriminate].
  destruct (expect ":" s7) as [s8|] eqn:X4; [|discriminate].
  destruct (read_minute s8) as [[mi s9]|] eqn:Emi; [|discriminate].
  destruct (expect ":" s9) as [s10|] eqn:X5; [|discriminate].
  destruct (read_second s10) as [[sec s11]|] eqn:Esec; [|discriminate].
  destruct (expect "z" s11) as [s12|] eqn:X6; [|discriminate].
  destruct s12; [|discriminate].
  intros H. inversion H; subst t. clear H. cbn [year month day hour minute second].
  apply read_year_inv in Ey. destruct Ey as (ys & Hs & Hlen & Hy).
  apply (expect_symbol "-"%char) in X1; [|reflexivity].
  apply read_field_inv in Emo. destruct Emo as (ms & -> & Hmo).
  apply (expect_symbol "-"%char) in X2; [|reflexivity].
  apply read_day_inv in Ed. destruct Ed as (ds & -> & Hd).
  apply (expect_letter "t"%char) in X3; [|split; reflexivity || discriminate].
  destruct X3 as (sep1 & -> & Hsep1).
  apply read_field_inv in Eh. destruct Eh as (hs & -> & Hh).
  apply (expect_symbol ":"%char) in X4; [|reflexivity].
  apply read_field_inv in Emi. destruct Emi as (ns & -> & Hmi).
  apply (expect_symbol ":"%char) in X5; [|reflexivity].
  apply read_field_inv in Esec. destruct Esec as (ss & -> & Hsec).
  apply (expect_letter "z"%char) in X6; [|split; reflexivity || discriminate].
  destruct X6 as (sep2 & -> & Hsep2).
  subst s9 s7 s3 s1.
  exists ys, ms, ds, hs, ns, ss, sep1, sep2.
  split; [exact Hs|]. split; [exact Hlen|]. split; [exact Hy|].
  split; [exact Hmo|]. split; [exact Hd|].
  split; [destruct Hsep1 as [->| ->]; [left|right]; reflexivity|].
  split; [exact Hh|]. split; [exact Hmi|]. split; [exact Hsec|].
  destruct Hsep2 as [->| ->]; [left|right]; reflexivity.
Qed.

Lemma read_year_complete (ys r : list ascii) (y : Z) :
  List.length ys = 4%nat -> numeral ys = Some y ->
  read_year (ys ++ r) = Some (y, r).
Proof.
  destruct ys as [|a [|b [|c [|d [|]]]]]; try discriminate. intros _.
  cbn [numeral numeral_from app]. unfold read_year.
  destruct (digit a) as [x1|]; [|discriminate].
  destruct (digit b) as [x2|]; [|discriminate].
  destruct (digit c) as [x3|]; [|discriminate].
  destruct (digit d) as [x4|]; [|discriminate].
  intros H. cbn [numeral numeral_from] in H.
  apply (f_equal (fun o => match o with Some x => x | None => y end)) in H.
  cbv beta iota in H.
  assert (E : y = 1000 * x1 + 100 * x2 + 10 * x3 + x4) by lia.
  rewrite E. reflexivity.
Qed.

Lemma read_field_complete (two_ok one_ok : Z -> bool) (cs r : list ascii) (v : Z) :
  field_text cs v -> field_ends r ->
  two_ok v = true -> (0 <= v <= 9 -> one_ok v = true) ->
  read_field two_ok one_ok (cs ++ r) = Some (v, r).
Proof.
  intros [Hlen Hnum] Hend Htwo Hone.
  destruct cs as [|a [|b [|]]]; try discriminate; [| |cbn in Hlen; lia].
  - apply numeral_1_inv in Hnum. cbn [app]. unfold read_field. rewrite Hnum.
    rewrite (Hone (digit_range _ _ Hnum)).
    destruct r as [|c r]; [reflexivity|]. cbn in Hend. rewrite Hend. reflexivity.
  - apply numeral_2_inv in Hnum. destruct Hnum as (x & y & Hx & Hy & ->).
    cbn [app]. unfold read_field. rewrite Hx, Hy, Htwo. reflexivity.
Qed.

Lemma read_day_digit (c : ascii) (s : list ascii) (x : Z) :
  digit c = Some x ->
  read_day (c :: s) = read_field (between 1 31) (between 1 9) (c :: s).
Proof.
  intros H. unfold read_day. destruct s as [|c2 s2]; [reflexivity|].
  rewrite (digit_not_space _ _ H). reflexivity.
Qed.

Lemma read_day_complete (cs r : list ascii) (v : Z) :
  day_text cs v -> field_ends r -> 1 <= v <= 31 ->
  read_day (cs ++ r) = Some (v, r).
Proof.
  intros [Hf|(c & -> & Hc)] Hend Hv.
  - assert (Hread : read_field (between 1 31) (between 1 9) (cs ++ r) = Some (v, r)).
    { apply read_field_complete; [exact Hf|exact Hend| |].
      - apply between_spec. lia.
      - intros H9. apply between_spec. lia. }
    destruct Hf as [Hlen Hnum].
    destruct cs as [|a cs]; [discriminate|].
    assert (Ha : exists x, digit a = Some x).
    { cbn [numeral numeral_from] in Hnum.
      destruct (digit a) as [x|]; [exists x; reflexivity|discriminate]. }
    destruct Ha as (x & Ha). cbn [app] in *.
    rewrite (read_day_digit _ _ _ Ha). exact Hread.
  - cbn [app]. unfold read_day.
    change (char_is " " " ") with true. cbv iota. rewrite Hc.
    replace (between 1 9 v) with true; [reflexivity|].
    symmetry. apply between_spec. pose proof (digit_range _ _ Hc). lia.
Qed.

Lemma spells_match_format (s : string) (t : datetime) :
  spells s t -> in_calendar t ->
  match_format (list_ascii_of_string s) = Some t.
Proof.
  intros (ys & ms & ds & hs & ns & ss & sep1 & sep2 & Hs & Hlen & Hy & Hmo & Hd
          & Hsep1 & Hh & Hmi & Hsec & Hsep2)
         (Cy & Cmo & Cd & Ch & Cmi & Csec).
  assert (Hdim : days_in_month (year t) (month t) <= 31).
  { unfold days_in_month.
    destruct (month t =? 2); [destruct (is_leap (year t)); lia|].
    destruct ((month t =? 4) || (month t =? 6) || (month t =? 9) || (month t =? 11)); lia. }
  rewrite Hs. unfold match_format, obind.
  rewrite (read_year_complete _ _ _ Hlen Hy).
  change (expect "-" ("-"%char :: ?r)) with (Some r).
  unfold read_month.
  rewrite (read_field_complete _ _ ms _ (month t) Hmo);
    [|reflexivity | apply between_spec; lia | intros H9; apply between_spec; lia].
  change (expect "-" ("-"%char :: ?r)) with (Some r). cbv iota.
  rewrite (read_day_complete ds _ (day t) Hd);
    [|destruct Hsep1 as [->| ->]; reflexivity | lia].
  replace (expect "t" (sep1 :: (hs ++ ":"%char :: ns ++ ":"%char :: ss ++ [sep2])%list))
    with (Some (hs ++ ":"%char :: ns ++ ":"%char :: ss ++ [sep2])%list)
    by (destruct Hsep1 as [->| ->]; reflexivity).
  unfold read_hour.
  rewrite (read_field_complete _ _ hs _ (hour t) Hh);
    [|reflexivity | apply between_spec; lia | intros H9; apply between_spec; lia].
  change (expect ":" (":"%char :: ?r)) with (Some r). cbv iota.
  unfold read_minute.
  rewrite (read_field_complete _ _ ns _ (minute t) Hmi);
    [|reflexivity | apply between_spec; lia | intros H9; apply between_spec; lia].
  change (expect ":" (":"%char :: ?r)) with (Some r). cbv iota.
  unfold read_second.
  rewrite (read_field_complete _ _ ss _ (second t) Hsec);
    [|destruct Hsep2 as [->| ->]; reflexivity
     | apply between_spec; lia | intros H9; apply between_spec; lia].
  replace (expect "z" [sep2]) with (Some (@nil ascii))
    by (destruct Hsep2 as [->| ->]; reflexivity).
  destruct t; reflexivity.
Qed.

(** X7: [capsule_datetime_to_utc_aware] returns an instant exactly for the
    strings that spell one.  It returns [t] if and only if its argument is
    a string that spells [t] (four digits for the year; one or two digits
    for the month, the day, the hour, the minute and the second, or a
    space and one digit for the day; the separators of the format, with
    [T] and [Z] in either case; nothing else) and [t] is an instant of the
    calendar: a year from 1 to 9999, a month from 1 to 12, a day that
    exists in that month of that year, a time from 00:00:00 to 23:59:59.
    So every field of the result is the number written in the text, and
    any other text, a 30th of February or a second 60 among them, is an
    error and never a shifted date. *)
Theorem X7_parsed_instant_is_in_the_calendar (v : pyval) (t : datetime) :
  capsule_datetime_to_utc_aware v = Ok t
  <-> exists s, v = VStr s /\ spells s t /\ in_calendar t.
Proof.
  split.
  - destruct v as [| | |s| |]; try discriminate.
    cbn [capsule_datetime_to_utc_aware]. unfold strptime.
    destruct (match_format (list_ascii_of_string s)) as [t'|] eqn:E; [|discriminate].
    destruct (valid_datetime t') eqn:V; [|discriminate].
    intros H.
    apply (f_equal (fun r => match r with Ok x => x | Raise _ => t end)) in H.
    cbv beta iota in H. subst t'.
    exists s. split; [reflexivity|]. split; [apply match_format_spells; exact E|].
    apply match_format_range in E.
    unfold valid_datetime in V. rewrite !andb_true_iff, !Z.leb_le in V.
    unfold in_calendar. lia.
  - intros (s & -> & Hsp & Hcal).
    cbn [capsule_datetime_to_utc_aware]. unfold strptime.
    rewrite (spells_match_format _ _ Hsp Hcal).
    replace (valid_datetime t) with true; [reflexivity|].
    symmetry. unfold valid_datetime. rewrite !andb_true_iff, !Z.leb_le.
    unfold in_calendar in Hcal. lia.
Qed.

Lemma X7_parsed_instant_is_in_the_calendar_witness :
  in_calendar (mk_datetime 2024 2 29 23 59 59)
  /\ capsule_datetime_to_utc_aware (VStr "2021-03- 5t7:08:09z")
     = Ok (mk_datetime 2021 3 5 7 8 9)
  /\ capsule_datetime_to_utc_aware (VStr "2021-02-30T00:00:00Z") = Raise ValueError.
Proof.
  split; [|split].
  - destruct (proj1 (X7_parsed_instant_is_in_the_calendar
                       (VStr "2024-2-29T23:59:59Z")
                       (mk_datetime 2024 2 29 23 59 59)) eq_refl)
      as (s & _ & _ & H).
    exact H.
  - apply (proj2 (X7_parsed_instant_is_in_the_calendar
                    (VStr "2021-03- 5t7:08:09z") (mk_datetime 2021 3 5 7 8 9))).
    exists "2021-03- 5t7:08:09z". split; [reflexivity|]. split.
    + exists ["2"; "0"; "2"; "1"]%char, ["0"; "3"]%char, [" "; "5"]%char,
        ["7"]%char, ["0"; "8"]%char, ["0"; "9"]%char, "t"%char, "z"%char.
      split; [reflexivity|]. split; [reflexivity|]. split; [reflexivity|].
      split; [split; [cbn; lia|reflexivity]|].
      split; [right; exists "5"%char; split; reflexivity|].
      split; [right; reflexivity|].
      split; [split; [cbn; lia|reflexivity]|].
      split; [split; [cbn; lia|reflexivity]|].
      split; [split; [cbn; lia|reflexivity]|].
      right; reflexivity.
    + unfold in_calendar. vm_compute. repeat split; discriminate.
  - reflexivity.
Defined.

(** ** Writing a date tag and reading it back *)

Lemma digit_digit_char (x : Z) : 0 <= x <= 9 -> digit (digit_char x) = Some x.
Proof.
  intros H.
  assert (E : x = 0 \/ x = 1 \/ x = 2 \/ x = 3 \/ x = 4 \/ x = 5 \/ x = 6
              \/ x = 7 \/ x = 8 \/ x = 9) by lia.
  repeat (destruct E as [E|E]; [subst x; reflexivity|]). subst x. reflexivity.
Qed.

Lemma two_digits_digit_chars (a b : Z) :
  0 <= a <= 9 -> 0 <= b <= 9 ->
  two_digits (digit_char a) (digit_char b) = Some (10 * a + b).
Proof.
  intros Ha Hb. unfold two_digits.
  rewrite (digit_digit_char _ Ha), (digit_digit_char _ Hb). reflexivity.
Qed.

Lemma digits_of_Z_four (y : Z) :
  1000 <= y <= 9999 ->
  digits_of_Z y
  = [digit_char (y / 10 / 10 / 10); digit_char ((y / 10 / 10) mod 10);
     digit_char ((y / 10) mod 10); digit_char (y mod 10)].
Proof.
  intros H. unfold digits_of_Z.
  assert (L : 9 <= Z.log2 y).
  { change 9 with (Z.log2 512). apply Z.log2_le_mono. lia. }
  destruct (Z.to_nat (Z.log2 y)) as [|[|[|n]]] eqn:E; try lia.
  assert (H1 : (y <? 10) = false) by (apply Z.ltb_ge; lia).
  assert (H2 : (y / 10 <? 10) = false).
  { apply Z.ltb_ge. Z.div_mod_to_equations. lia. }
  assert (H3 : (y / 10 / 10 <? 10) = false).
  { apply Z.ltb_ge. Z.div_mod_to_equations. lia. }
  assert (H4 : (y / 10 / 10 / 10 <? 10) = true).
  { apply Z.ltb_lt. Z.div_mod_to_equations. lia. }
  cbn [decimal_digits]. rewrite H1, H2, H3, H4. reflexivity.
Qed.

Lemma strftime_midnight_fixed_format (d : date) :
  valid_date d -> 1000 <= d_year d ->
  fixed_format (strftime_midnight d)
  = Some (mk_datetime (d_year d) (d_month d) (d_day d) 0 0 0).
Proof.
  destruct d as [y m dd]. unfold valid_date. cbn [d_year d_month d_day].
  intros (Hy & Hm & Hd) Hy'.
  assert (Hdim : days_in_month y m <= 31).
  { unfold days_in_month.
    destruct (m =? 2); [destruct (is_leap y); lia|].
    destruct ((m =? 4) || (m =? 6) || (m =? 9) || (m =? 11)); lia. }
  unfold strftime_midnight, string_of_Z, two_digit_text.
  cbn [d_year d_month d_day].
  replace (y <? 0) with false by (symmetry; apply Z.ltb_ge; lia).
  rewrite digits_of_Z_four by lia.
  set (y1 := y / 10 / 10 / 10). set (y2 := (y / 10 / 10) mod 10).
  set (y3 := (y / 10) mod 10). set (y4 := y mod 10).
  set (m1 := m / 10). set (m2 := m mod 10).
  set (d1 := dd / 10). set (d2 := dd mod 10).
  assert (Ey : y = 100 * (10 * y1 + y2) + (10 * y3 + y4)).
  { subst y1 y2 y3 y4. Z.div_mod_to_equations. lia. }
  assert (Em : m = 10 * m1 + m2).
  { subst m1 m2. Z.div_mod_to_equations. lia. }
  assert (Ed : dd = 10 * d1 + d2).
  { subst d1 d2. Z.div_mod_to_equations. lia. }
  assert (R1 : 0 <= y1 <= 9) by (subst y1; Z.div_mod_to_equations; lia).
  assert (R2 : 0 <= y2 <= 9) by (subst y2; Z.div_mod_to_equations; lia).
  assert (R3 : 0 <= y3 <= 9) by (subst y3; Z.div_mod_to_equations; lia).
  assert (R4 : 0 <= y4 <= 9) by (subst y4; Z.div_mod_to_equations; lia).
  assert (R5 : 0 <= m1 <= 9) by (subst m1; Z.div_mod_to_equations; lia).
  assert (R6 : 0 <= m2 <= 9) by (subst m2; Z.div_mod_to_equations; lia).
  assert (R7 : 0 <= d1 <= 9) by (subst d1; Z.div_mod_to_equations; lia).
  assert (R8 : 0 <= d2 <= 9) by (subst d2; Z.div_mod_to_equations; lia).
  clearbody y1 y2 y3 y4 m1 m2 d1 d2.
  unfold fixed_format.
  cbn [string_of_list_ascii String.append list_ascii_of_string].
  change (char_is "-" "-" && char_is "-" "-" && char_is "T" "T"
          && char_is ":" ":" && char_is ":" ":" && char_is "Z" "Z") with true.
  cbv iota.
  rewrite (two_digits_digit_chars _ _ R1 R2), (two_digits_digit_chars _ _ R3 R4),
    (two_digits_digit_chars _ _ R5 R6), (two_digits_digit_chars _ _ R7 R8).
  change (two_digits "0" "0") with (Some 0).
  cbv iota.
  rewrite <- Ey, <- Em, <- Ed.
  replace (between 1 12 m) with true by (symmetry; apply between_spec; lia).
  replace (between 1 31 dd) with true by (symmetry; apply between_spec; lia).
  replace (valid_datetime (mk_datetime y m dd 0 0 0)) with true.
  - reflexivity.
  - symmetry. unfold valid_datetime. cbn [year month day second].
    rewrite !andb_true_iff, !Z.leb_le. lia.
Qed.

Lemma datatags_of_new_datatag (self : record) (name : pyval) (k : key) (d : date) :
  valid_date d -> 1000 <= d_year d ->
  truthy name = true -> key_of_value name = Ok k ->
  CustomFieldsMixin.datatags
    (snd (CustomFieldsMixin.load_customfields_from_api self
            (VList [new_datatag name (strftime_midnight d)])))
  = Ok [(k, d)].
Proof.
  intros Hd Hy Hname Hk.
  pose proof (fixed_format_strptime _ _ (strftime_midnight_fixed_format d Hd Hy)) as Hs.
  set (text := strftime_midnight d) in *.
  rewrite load_customfields_objects by (repeat constructor).
  cbn [snd filter with_date new_datatag dict_has dict_get key_eqb String.eqb
       Ascii.eqb Bool.eqb negb].
  unfold CustomFieldsMixin.datatags, new_datatag.
  rewrite (getitem_Some _ _ _ (dict_get_set_same _ _ _)).
  cbn [bind py_iter]. unfold sorted.
  cbn [mapM py_getitem getitem dict_get key_eqb String.eqb Ascii.eqb Bool.eqb
       bind sort_by insert_by map snd].
  cbn [dict_collect CustomFieldsMixin.datatag_item py_get get dict_get key_eqb
       String.eqb Ascii.eqb Bool.eqb bind].
  rewrite Hname. cbn [bind py_getitem getitem dict_get key_eqb String.eqb
                      Ascii.eqb Bool.eqb capsule_datetime_to_utc_aware].
  rewrite Hs. cbn [bind fst snd]. rewrite Hk. cbn [bind dict_set].
  destruct d; reflexivity.
Qed.

(** X8: A date tag that [put_datatag] writes is read back as the same
    date.  For an opportunity whose id is a string and a date from the
    year 1000 on, the call makes one PUT to
    [opportunity/<id>/customfields] whose body holds a single entry with
    the name under 'tag' and the date printed as [YYYY-MM-DDT00:00:00Z];
    and when an entity later loads that entry, its [datatags] map the
    name to exactly that date.  Without a date the tag carries today's. *)
Theorem X8_datatag_written_is_read_back (today : date) (self : Client.api)
  (opportunity : record) (id : string) (name : pyval) (k : key)
  (date : option date) (srv : Requests.server) (tr : Requests.trace)
  (resp : Requests.response) :
  let d := match date with Some d => d | None => today end in
  let entry := new_datatag name (strftime_midnight d) in
  let req :=
    request_for self Requests.PUT ("opportunity/" ++ id ++ "/customfields")
      [(KStr "customFields", VDict [(KStr "customField", VList [entry])])] in
  valid_date d -> 1000 <= d_year d ->
  truthy name = true -> key_of_value name = Ok k ->
  Opportunity.id opportunity = Ok (VStr id) ->
  srv tr req = Some resp -> accepted resp ->
  Client.put_datatag today self opportunity name date srv tr
  = (Requests.Return tt, (tr ++ [req])%list)
  /\ forall entity,
       CustomFieldsMixin.datatags
         (snd (CustomFieldsMixin.load_customfields_from_api entity (VList [entry])))
       = Ok [(k, d)].
Proof.
  intros d entry req Hd Hy Hname Hk Hid Hsrv Hok.
  split; [|intros entity; apply datatags_of_new_datatag; assumption].
  unfold Client.put_datatag. fold d.
  unfold Requests.io_bind at 1. rewrite Hid. cbn [Requests.lift Requests.ret].
  unfold Requests.io_bind at 1. cbn [py_concat Requests.lift Requests.ret].
  unfold Requests.io_bind at 1. unfold Client.put.
  unfold Requests.io_bind at 1. unfold Client.request.
  unfold Requests.io_bind at 1.
  cbn [keywords dict_keys map fst forallb keyword_ok existsb String.eqb Ascii.eqb
       Bool.eqb negb orb andb Requests.lift Requests.ret].
  change (lower_string "put") with "put".
  cbn [String.eqb Ascii.eqb Bool.eqb Client.verb_of].
  unfold Requests.io_bind at 1. unfold Requests.send.
  change (Requests.mk_request Requests.PUT _ _ _) with req.
  rewrite Hsrv. unfold Requests.io_bind at 1. unfold Requests.raise_for_status.
  replace ((400 <=? Requests.status_code resp) && (Requests.status_code resp <? 600))
    with false.
  - reflexivity.
  - symmetry. apply andb_false_iff. unfold accepted in Hok.
    destruct Hok; [left; apply Z.leb_gt; lia | right; apply Z.ltb_ge; lia].
Qed.

Lemma X8_datatag_written_is_read_back_witness :
  Client.put_datatag (mk_date 2021 3 5) acme [field "id" (VStr "7")]
    (VStr "signed") None (always (Requests.mk_response 200 None None)) []
  = (Requests.Return tt,
     [request_for acme Requests.PUT "opportunity/7/customfields"
        [(KStr "customFields",
          VDict [(KStr "customField",
                  VList [new_datatag (VStr "signed") "2021-03-05T00:00:00Z"])])]])
  /\ CustomFieldsMixin.datatags
       (snd (CustomFieldsMixin.load_customfields_from_api opportunity_7
               (VList [new_datatag (VStr "signed") "2021-03-05T00:00:00Z"])))
     = Ok [(KStr "signed", mk_date 2021 3 5)].
Proof.
  destruct (X8_datatag_written_is_read_back (mk_date 2021 3 5) acme
              [field "id" (VStr "7")] "7" (VStr "signed") (KStr "signed") None
              (always (Requests.mk_response 200 None None)) []
              (Requests.mk_response 200 None None)) as [H1 H2].
  - vm_compute. repeat split; discriminate.
  - vm_compute. discriminate.
  - reflexivity.
  - reflexivity.
  - reflexivity.
  - reflexivity.
  - left. vm_compute. reflexivity.
  - split; [exact H1 | exact (H2 opportunity_7)].
Defined.

(** ** Contact details *)

Lemma mapM_nonempty {A B : Type} (f : A -> result B) (l : list A) (r : list B) :
  l <> [] -> mapM f l = Ok r -> r <> [].
Proof.
  destruct l as [|x l]; [contradiction|]. intros _. cbn [mapM].
  destruct (f x) as [y|]; [|discriminate]. cbn [bind].
  destruct (mapM f l) as [ys|]; [|discriminate]. cbn [bind].
  intros H E. subst r. discriminate H.
Qed.

Lemma contact_list_nonempty (self : record) (kind name : string) (l : list record) :
  Party.contact_list self kind name = Ok l -> l <> [].
Proof.
  unfold Party.contact_list.
  destruct (Party.contacts self) as [c|]; [|discriminate]. cbn [bind].
  destruct (py_get c kind) as [found|]; [|discriminate]. cbn [bind].
  destruct (truthy found) eqn:T; [|discriminate]. cbn [negb].
  destruct found as [| | |s|items|d]; cbn [is_dict py_iter bind];
    try discriminate.
  - apply mapM_nonempty. destruct s; [discriminate T|discriminate].
  - apply mapM_nonempty. destruct items; [discriminate T|discriminate].
  - apply mapM_nonempty. discriminate.
Qed.

(** X11: [emails] and [phone_numbers] never return an empty list: each
    either raises or returns at least one contact; and a single contact
    object, which the API sends in place of a list of one, comes back as a
    list of that one contact. *)
Theorem X11_contacts_are_never_empty (self : record) :
  (forall l, Party.emails self = Ok l -> l <> [])
  /\ (forall l, Party.phone_numbers self = Ok l -> l <> [])
  /\ (forall contacts e,
        dict_get (KStr "contacts") self = Some (VDict contacts) ->
        dict_get (KStr "email") contacts = Some (VDict e) -> e <> [] ->
        Party.emails self = Ok [e])
  /\ (forall contacts p,
        dict_get (KStr "contacts") self = Some (VDict contacts) ->
        dict_get (KStr "phone") contacts = Some (VDict p) -> p <> [] ->
        Party.phone_numbers self = Ok [p]).
Proof.
  assert (Hone : forall kind name contacts x,
            dict_get (KStr "contacts") self = Some (VDict contacts) ->
            dict_get (KStr kind) contacts = Some (VDict x) -> x <> [] ->
            Party.contact_list self kind name = Ok [x]).
  { intros kind name contacts x Hc Hx Hne.
    unfold Party.contact_list, Party.contacts.
    rewrite (getitem_Some _ _ _ Hc). cbn [bind].
    assert (T : truthy (VDict contacts) = true).
    { destruct contacts; [discriminate Hx|reflexivity]. }
    rewrite T. cbn [py_get bind]. rewrite (get_Some _ _ _ Hx).
    destruct x; [contradiction|reflexivity]. }
  split; [|split; [|split]].
  - intros l. apply contact_list_nonempty.
  - intros l. apply contact_list_nonempty.
  - intros contacts e. apply Hone.
  - intros contacts p. apply Hone.
Qed.

Lemma X11_contacts_are_never_empty_witness :
  Party.emails
    [field "id" (VInt 42);
     field "contacts"
       (VDict [field "email" (VDict [field "emailAddress" (VStr "a@b.c")])])]
  = Ok [[field "emailAddress" (VStr "a@b.c")]].
Proof.
  apply (proj1 (proj2 (proj2 (X11_contacts_are_never_empty
           [field "id" (VInt 42);
            field "contacts"
              (VDict [field "email" (VDict [field "emailAddress" (VStr "a@b.c")])])])))
           [field "email" (VDict [field "emailAddress" (VStr "a@b.c")])]).
  - reflexivity.
  - reflexivity.
  - discriminate.
Defined.

(** ** Lists that are absent from the response *)

(** X9: [tasks] has no answer for an empty task list.  It takes the list
    out of the envelope with [['task']], so when the envelope has no 'task'
    member the call raises KeyError, where [opportunities] and [users]
    return the empty list for an envelope without their member; with a
    member present [tasks] normalises it as all list calls do. *)
Theorem X9_tasks_needs_the_task_member (envelope : record) :
  (dict_get (KStr "task") envelope = None ->
   CapsuleAPI.tasks (VDict [field "tasks" (VDict envelope)])
   = Raise (KeyError "task"))
  /\ (dict_get (KStr "opportunity") envelope = None ->
      CapsuleAPI.opportunities (VDict [field "opportunities" (VDict envelope)])
      = Ok [])
  /\ (dict_get (KStr "user") envelope = None ->
      CapsuleAPI.users (VDict [field "users" (VDict envelope)]) = Ok (VList []))
  /\ (forall t, dict_get (KStr "task") envelope = Some (VDict t) -> t <> [] ->
        CapsuleAPI.tasks (VDict [field "tasks" (VDict envelope)]) = Ok [t])
  /\ (forall ts, dict_get (KStr "task") envelope = Some (VList (map VDict ts)) ->
        CapsuleAPI.tasks (VDict [field "tasks" (VDict envelope)]) = Ok ts).
Proof.
  split; [|split; [|split; [|split]]].
  - intros H. unfold CapsuleAPI.tasks. cbn [py_getitem field].
    rewrite (getitem_Some _ "tasks" (VDict envelope)) by reflexivity.
    cbn [bind py_getitem]. rewrite (getitem_None _ _ H). reflexivity.
  - intros H. unfold CapsuleAPI.opportunities. cbn [py_getitem field].
    rewrite (getitem_Some _ "opportunities" (VDict envelope)) by reflexivity.
    cbn [bind py_get]. rewrite (get_None _ _ H). reflexivity.
  - intros H. unfold CapsuleAPI.users. cbn [py_getitem field].
    rewrite (getitem_Some _ "users" (VDict envelope)) by reflexivity.
    cbn [bind py_get]. rewrite (get_None _ _ H). reflexivity.
  - intros t H Hne. unfold CapsuleAPI.tasks. cbn [py_getitem field].
    rewrite (getitem_Some _ "tasks" (VDict envelope)) by reflexivity.
    cbn [bind py_getitem]. rewrite (getitem_Some _ _ _ H). cbn [bind].
    rewrite (one_or_many_object _ Hne). reflexivity.
  - intros ts H. unfold CapsuleAPI.tasks. cbn [py_getitem field].
    rewrite (getitem_Some _ "tasks" (VDict envelope)) by reflexivity.
    cbn [bind py_getitem]. rewrite (getitem_Some _ _ _ H). cbn [bind].
    rewrite one_or_many_list. cbn [py_iter bind]. apply mapM_dict_new_objects.
Qed.

Lemma X9_tasks_needs_the_task_member_witness :
  CapsuleAPI.tasks (VDict [field "tasks" (VDict [field "@size" (VStr "0")])])
  = Raise (KeyError "task")
  /\ CapsuleAPI.opportunities
       (VDict [field "opportunities" (VDict [field "@size" (VStr "0")])])
     = Ok [].
Proof.
  destruct (X9_tasks_needs_the_task_member [field "@size" (VStr "0")])
    as (H1 & H2 & _).
  split; [apply H1; reflexivity | apply H2; reflexivity].
Defined.

(** X10: The history calls guard only against a missing 'history'.  A
    body without the member gives the empty list, and so does a 'history'
    object without items; but a 'history' that is present and is not an
    object (the empty string the API sends for an empty element, or null)
    is an AttributeError, because the default of
    [result.get('history', {})] only stands in for a missing key. *)
Theorem X10_history_default (body : record) :
  (dict_get (KStr "history") body = None ->
   CapsuleAPI.history_of (VDict body) = Ok (VList []))
  /\ (forall h, dict_get (KStr "history") body = Some (VDict h) ->
        dict_get (KStr "historyItem") h = None ->
        CapsuleAPI.history_of (VDict body) = Ok (VList []))
  /\ (forall h item, dict_get (KStr "history") body = Some (VDict h) ->
        dict_get (KStr "historyItem") h = Some (VDict item) -> item <> [] ->
        CapsuleAPI.history_of (VDict body) = Ok (VList [VDict item]))
  /\ (forall v, dict_get (KStr "history") body = Some v -> is_dict v = false ->
        CapsuleAPI.history_of (VDict body) = Raise (AttributeError "get")).
Proof.
  unfold CapsuleAPI.history_of, py_get_or_empty.
  split; [|split; [|split]].
  - intros H. rewrite H. reflexivity.
  - intros h H Hi. rewrite H. cbn [bind py_get]. rewrite (get_None _ _ Hi).
    reflexivity.
  - intros h item H Hi Hne. rewrite H. cbn [bind py_get].
    rewrite (get_Some _ _ _ Hi). rewrite (one_or_many_object _ Hne). reflexivity.
  - intros v H Hv. rewrite H. destruct v; try reflexivity. discriminate Hv.
Qed.

Lemma X10_history_default_witness :
  CapsuleAPI.history_of (VDict []) = Ok (VList [])
  /\ CapsuleAPI.history_of (VDict [field "history" (VStr "")])
     = Raise (AttributeError "get").
Proof.
  destruct (X10_history_default []) as (H1 & _).
  destruct (X10_history_default [field "history" (VStr "")]) as (_ & _ & _ & H4).
  split; [apply H1; reflexivity | apply (H4 (VStr "")); reflexivity].
Defined.

(** ** The calls of the client *)

Section IoFacts.
Import Requests.
Context {A B : Type}.

Lemma io_bind_inv (m : io A) (k : A -> io B) (srv : server) (tr tr' : trace) (b : B) :
  io_bind m k srv tr = (Return b, tr') ->
  exists a tr1, m srv tr = (Return a, tr1) /\ k a srv tr1 = (Return b, tr').
Proof.
  unfold io_bind. destruct (m srv tr) as [[a|e] tr1]; [|discriminate].
  intros H. exists a, tr1. split; [reflexivity|exact H].
Qed.

Lemma lift_inv (m : result A) (srv : server) (tr tr' : trace) (a : A) :
  lift m srv tr = (Return a, tr') -> m = Ok a /\ tr' = tr.
Proof.
  destruct m as [a'|e]; cbn; intros H; inversion H; subst; split; reflexivity.
Qed.

Lemma ret_inv (a a' : A) (srv : server) (tr tr' : trace) :
  ret a srv tr = (Return a', tr') -> a' = a /\ tr' = tr.
Proof. cbn. intros H; inversion H; subst; split; reflexivity. Qed.

End IoFacts.

Lemma keywords_inv (taken : list string) (kwargs kwargs' : record) :
  keywords taken kwargs = Ok kwargs' -> kwargs' = kwargs.
Proof.
  unfold keywords. destruct (forallb _ _); [|discriminate].
  intros H; inversion H; reflexivity.
Qed.

Lemma raise_for_status_inv (resp : Requests.response) (srv : Requests.server)
  (tr tr' : Requests.trace) (u : unit) :
  Requests.raise_for_status resp srv tr = (Requests.Return u, tr') ->
  accepted resp /\ tr' = tr.
Proof.
  unfold Requests.raise_for_status, accepted.
  destruct ((400 <=? Requests.status_code resp)
            && (Requests.status_code resp <? 600)) eqn:E; [discriminate|].
  intros H; inversion H; subst. split; [|reflexivity].
  apply andb_false_iff in E. destruct E as [E|E].
  - apply Z.leb_gt in E. lia.
  - apply Z.ltb_ge in E. lia.
Qed.

Lemma raise_for_status_accepted (resp : Requests.response) (srv : Requests.server)
  (tr : Requests.trace) :
  accepted resp ->
  Requests.raise_for_status resp srv tr = (Requests.Return tt, tr).
Proof.
  unfold Requests.raise_for_status, accepted. intros H.
  replace ((400 <=? Requests.status_code resp)
           && (Requests.status_code resp <? 600)) with false; [reflexivity|].
  symmetry. apply andb_false_iff.
  destruct H; [left; apply Z.leb_gt; lia | right; apply Z.ltb_ge; lia].
Qed.

Lemma send_inv (req : Requests.request) (srv : Requests.server)
  (tr tr' : Requests.trace) (resp : Requests.response) :
  Requests.send req srv tr = (Requests.Return resp, tr') ->
  srv tr req = Some resp /\ tr' = (tr ++ [req])%list.
Proof.
  unfold Requests.send. destruct (srv tr req); [|discriminate].
  intros H; inversion H; subst. split; reflexivity.
Qed.

Lemma json_inv (resp : Requests.response) (srv : Requests.server)
  (tr tr' : Requests.trace) (v : pyval) :
  Requests.json resp srv tr = (Requests.Return v, tr') ->
  Requests.body resp = Some v /\ tr' = tr.
Proof.
  unfold Requests.json. destruct (Requests.body resp); cbn;
    intros H; inversion H; subst. split; reflexivity.
Qed.

Lemma verb_of_named (method : string) :
  String.eqb method "get" = false -> Client.verb_of method = verb_named method.
Proof. unfold Client.verb_of, verb_named. intros ->. reflexivity. Qed.

Lemma request_inv (self : Client.api) (method path : string) (kwargs : record)
  (srv : Requests.server) (tr tr' : Requests.trace) (r : Client.reply) :
  Client.request self method path kwargs srv tr = (Requests.Return r, tr') ->
  exists v resp,
    verb_named (lower_string method) = Some v
    /\ tr' = (tr ++ [request_for self v path kwargs])%list
    /\ srv tr (request_for self v path kwargs) = Some resp
    /\ accepted resp
    /\ (v = Requests.GET ->
        exists j, Requests.body resp = Some j /\ r = Client.Json j)
    /\ (v <> Requests.GET -> r = Client.Response resp).
Proof.
  unfold Client.request. intros H.
  apply io_bind_inv in H. destruct H as (kw & tr1 & Hk & H).
  apply lift_inv in Hk. destruct Hk as [Hk ->].
  apply keywords_inv in Hk. subst kw.
  destruct (String.eqb (lower_string method) "get") eqn:Eget.
  - apply io_bind_inv in H. destruct H as (resp & tr1 & Hs & H).
    apply send_inv in Hs. destruct Hs as [Hs ->].
    apply io_bind_inv in H. destruct H as (u & tr2 & Hr & H).
    apply raise_for_status_inv in Hr. destruct Hr as [Hr ->].
    apply io_bind_inv in H. destruct H as (j & tr3 & Hj & H).
    apply json_inv in Hj. destruct Hj as [Hj ->].
    apply ret_inv in H. destruct H as [-> ->].
    exists Requests.GET, resp. unfold verb_named. rewrite Eget.
    repeat split; try assumption.
    + intros _. exists j. split; [assumption|reflexivity].
    + intros N. contradiction.
  - rewrite (verb_of_named _ Eget) in H.
    destruct (verb_named (lower_string method)) as [v|] eqn:Ev; [|discriminate].
    assert (Hv : v <> Requests.GET).
    { unfold verb_named in Ev. rewrite Eget in Ev.
      destruct (String.eqb (lower_string method) "put"); [inversion Ev; discriminate|].
      destruct (String.eqb (lower_string method) "post"); [inversion Ev; discriminate|].
      destruct (String.eqb (lower_string method) "delete"); [inversion Ev; discriminate|].
      discriminate. }
    apply io_bind_inv in H. destruct H as (resp & tr1 & Hs & H).
    apply send_inv in Hs. destruct Hs as [Hs ->].
    apply io_bind_inv in H. destruct H as (u & tr2 & Hr & H).
    apply raise_for_status_inv in Hr. destruct Hr as [Hr ->].
    apply ret_inv in H. destruct H as [-> ->].
    exists v, resp. repeat split; try assumption.
    + intros E. contradiction.
Qed.

Lemma get_inv (self : Client.api) (path : string) (kwargs : record)
  (srv : Requests.server) (tr tr' : Requests.trace) (v : pyval) :
  Client.get self path kwargs srv tr = (Requests.Return v, tr') ->
  exists resp,
    tr' = (tr ++ [request_for self Requests.GET path kwargs])%list
    /\ srv tr (request_for self Requests.GET path kwargs) = Some resp
    /\ accepted resp
    /\ Requests.body resp = Some v.
Proof.
  unfold Client.get. intros H.
  apply io_bind_inv in H. destruct H as (kw & tr1 & Hk & H).
  apply lift_inv in Hk. destruct Hk as [Hk ->].
  apply keywords_inv in Hk. subst kw.
  apply io_bind_inv in H. destruct H as (r & tr1 & Hr & H).
  apply request_inv in Hr.
  destruct Hr as (vb & resp & Hv & -> & Hs & Hok & Hget & _).
  change (lower_string "get") with "get" in Hv.
  apply (f_equal (fun o => match o with Some x => x | None => vb end)) in Hv.
  cbn in Hv. subst vb.
  destruct (Hget eq_refl) as (j & Hj & ->).
  apply ret_inv in H. destruct H as [-> ->].
  exists resp. repeat split; assumption.
Qed.

Lemma updated_load_with_inv (load : record -> pyval -> result unit * record)
  (entity : record) (fetch : Requests.io pyval) (srv : Requests.server)
  (tr tr' : Requests.trace) (entity' : record) :
  Client.updated (Client.load_with load entity fetch) srv tr
  = (Requests.Return entity', tr') ->
  exists v, fetch srv tr = (Requests.Return v, tr')
            /\ load entity v = (Ok tt, entity').
Proof.
  unfold Client.updated, Client.load_with.
  destruct (fetch srv tr) as [[v|e] tr1]; [|discriminate].
  destruct (load entity v) as [[[]|e] entity1] eqn:E; [|discriminate].
  intros H; inversion H; subst. exists v. split; [reflexivity|exact E].
Qed.

Lemma py_concat_inv (s : string) (x : pyval) (r : string) :
  py_concat s x = Ok r -> exists t, x = VStr t /\ r = s ++ t.
Proof.
  destruct x; try discriminate. cbn. intros H; inversion H.
  eexists; split; reflexivity.
Qed.

Lemma opportunity_customfields_inv (self : Client.api) (id : pyval)
  (kwargs : record) (srv : Requests.server) (tr tr' : Requests.trace) (v : pyval) :
  Client.opportunity_customfields self id kwargs srv tr = (Requests.Return v, tr') ->
  exists oid,
    id = VStr oid
    /\ tr' = (tr ++ [request_for self Requests.GET
                       ("opportunity/" ++ oid ++ "/customfields") kwargs])%list.
Proof.
  unfold Client.opportunity_customfields. intros H.
  apply io_bind_inv in H. destruct H as (kw & tr1 & Hk & H).
  apply lift_inv in Hk. destruct Hk as [Hk ->].
  apply keywords_inv in Hk. subst kw.
  apply io_bind_inv in H. destruct H as (path & tr1 & Hp & H).
  apply lift_inv in Hp. destruct Hp as [Hp ->].
  apply py_concat_inv in Hp. destruct Hp as (oid & -> & ->).
  apply io_bind_inv in H. destruct H as (j & tr1 & Hg & H).
  apply get_inv in Hg. destruct Hg as (resp & -> & _).
  apply lift_inv in H. destruct H as [_ ->].
  exists oid. split; reflexivity.
Qed.

Lemma opportunity_tags_inv (self : Client.api) (id : pyval)
  (kwargs : record) (srv : Requests.server) (tr tr' : Requests.trace) (v : pyval) :
  Client.opportunity_tags self id kwargs srv tr = (Requests.Return v, tr') ->
  exists oid,
    id = VStr oid
    /\ tr' = (tr ++ [request_for self Requests.GET
                       ("opportunity/" ++ oid ++ "/tag") kwargs])%list.
Proof.
  unfold Client.opportunity_tags. intros H.
  apply io_bind_inv in H. destruct H as (kw & tr1 & Hk & H).
  apply lift_inv in Hk. destruct Hk as [Hk ->].
  apply keywords_inv in Hk. subst kw.
  apply io_bind_inv in H. destruct H as (path & tr1 & Hp & H).
  apply lift_inv in Hp. destruct Hp as [Hp ->].
  apply py_concat_inv in Hp. destruct Hp as (oid & -> & ->).
  apply io_bind_inv in H. destruct H as (j & tr1 & Hg & H).
  apply get_inv in Hg. destruct Hg as (resp & -> & _).
  apply lift_inv in H. destruct H as [_ ->].
  exists oid. split; reflexivity.
Qed.

Lemma load_tags_ok (self self' : record) (tags : pyval) :
  CustomFieldsMixin.load_tags_from_api self tags = (Ok tt, self') ->
  exists items, self' = dict_set (KStr "tags_id") (VList items) self.
Proof.
  unfold CustomFieldsMixin.load_tags_from_api.
  destruct (py_iter tags) as [items|]; intros H; inversion H.
  exists items. reflexivity.
Qed.

Lemma inject_opportunity_inv (self : Client.api) (o0 o : record)
  (srv : Requests.server) (tr tr' : Requests.trace) :
  Client.inject_opportunity self o0 srv tr = (Requests.Return o, tr') ->
  exists oid oid',
    tr' = (tr ++ [request_for self Requests.GET
                    ("opportunity/" ++ oid ++ "/customfields") [];
                  request_for self Requests.GET
                    ("opportunity/" ++ oid' ++ "/tag") []])%list
    /\ enriched o
    /\ (forall v, dict_get (KStr "id") o = Some v -> v = VStr oid /\ oid' = oid).
Proof.
  unfold Client.inject_opportunity. intros H.
  apply io_bind_inv in H. destruct H as (o1 & tr1 & H1 & H2).
  unfold Client.inject_opportunity_customfields in H1.
  apply updated_load_with_inv in H1. destruct H1 as (cf & Hf & Hl).
  apply io_bind_inv in Hf. destruct Hf as (id1 & tr2 & Hid & Hf).
  apply lift_inv in Hid. destruct Hid as [Hid ->].
  apply opportunity_customfields_inv in Hf. destruct Hf as (oid & -> & ->).
  unfold Client.inject_opportunity_tags in H2.
  apply updated_load_with_inv in H2. destruct H2 as (tg & Hf & Hl2).
  apply io_bind_inv in Hf. destruct Hf as (id2 & tr2 & Hid2 & Hf).
  apply lift_inv in Hid2. destruct Hid2 as [Hid2 ->].
  apply opportunity_tags_inv in Hf. destruct Hf as (oid' & -> & ->).
  assert (Hfst : fst (CustomFieldsMixin.load_customfields_from_api o0 cf) = Ok tt)
    by (rewrite Hl; reflexivity).
  destruct (load_customfields_ok _ _ Hfst) as (plain & dated & E & _).
  rewrite E in Hl.
  apply (f_equal snd) in Hl. cbn [snd] in Hl. subst o1.
  destruct (load_tags_ok _ _ _ Hl2) as (items & ->).
  exists oid, oid'. split; [|split].
  - rewrite <- app_assoc. reflexivity.
  - exists plain, dated, items. split; [|split].
    + rewrite !dict_get_set_other by reflexivity. apply dict_get_set_same.
    + rewrite dict_get_set_other by reflexivity. apply dict_get_set_same.
    + apply dict_get_set_same.
  - intros v Hv.
    rewrite dict_get_set_other in Hv by reflexivity.
    pose proof (Opportunity_id _ _ Hv) as Hv2. rewrite Hid2 in Hv2.
    rewrite !dict_get_set_other in Hv by reflexivity.
    pose proof (Opportunity_id _ _ Hv) as Hv1. rewrite Hid in Hv1.
    inversion Hv1; subst v. inversion Hv2; subst. split; reflexivity.
Qed.

(** X12: [full_opportunity] costs three requests and returns the
    enriched opportunity.  Whatever the server does, when the call returns
    it has made exactly three GETs, in this order: the opportunity under
    the id it was given, then the custom fields and the tags of that
    opportunity under the id the opportunity itself carries, which is a
    string; and the opportunity it returns holds the custom fields, the
    date tags and the tags as lists. *)
Theorem X12_full_opportunity_makes_three_requests (self : Client.api)
  (opportunity_id : pyval) (srv : Requests.server) (tr tr' : Requests.trace)
  (o : record) :
  Client.full_opportunity self opportunity_id srv tr = (Requests.Return o, tr') ->
  exists oid oid',
    tr' = (tr ++ [request_for self Requests.GET
                    ("opportunity/" ++ py_str opportunity_id) [];
                  request_for self Requests.GET
                    ("opportunity/" ++ oid ++ "/customfields") [];
                  request_for self Requests.GET
                    ("opportunity/" ++ oid' ++ "/tag") []])%list
    /\ enriched o
    /\ (forall v, dict_get (KStr "id") o = Some v -> v = VStr oid /\ oid' = oid).
Proof.
  unfold Client.full_opportunity, Client.opportunity. intros H.
  apply io_bind_inv in H. destruct H as (o0 & tr1 & H0 & H).
  apply io_bind_inv in H0. destruct H0 as (j & tr2 & Hg & H0).
  apply get_inv in Hg. destruct Hg as (resp & -> & _).
  apply lift_inv in H0. destruct H0 as [_ ->].
  apply inject_opportunity_inv in H.
  destruct H as (oid & oid' & -> & He & Hid).
  exists oid, oid'. split; [|split; assumption].
  rewrite <- app_assoc. reflexivity.
Qed.

Lemma for_each_inject_inv (self : Client.api) (l l' : list record)
  (srv : Requests.server) (tr tr' : Requests.trace) :
  Client.for_each (Client.inject_opportunity self) l srv tr
  = (Requests.Return l', tr') ->
  exists rest,
    tr' = (tr ++ rest)%list
    /\ List.length rest = (2 * List.length l')%nat
    /\ List.length l' = List.length l
    /\ Forall (fun r => Requests.r_verb r = Requests.GET
                        /\ Requests.r_kwargs r = []) rest
    /\ Forall enriched l'.
Proof.
  revert l' tr tr'. induction l as [|x l IH]; intros l' tr tr' H.
  - cbn in H. inversion H; subst. exists []. rewrite app_nil_r.
    repeat split; constructor.
  - cbn [Client.for_each] in H.
    apply io_bind_inv in H. destruct H as (x' & tr1 & Hx & H).
    apply io_bind_inv in H. destruct H as (l'' & tr2 & Hl & H).
    apply ret_inv in H. destruct H as [-> ->].
    apply inject_opportunity_inv in Hx.
    destruct Hx as (oid & oid' & -> & He & _).
    apply IH in Hl. destruct Hl as (rest & -> & Hlen & Hlen' & Hget & Hall).
    eexists (_ :: _ :: rest). split; [|split; [|split; [|split]]].
    + rewrite <- app_assoc. reflexivity.
    + cbn [List.length]. lia.
    + cbn [List.length]. lia.
    + repeat constructor. exact Hget.
    + constructor; assumption.
Qed.

(** X13: [full_opportunities] costs one request for the list and two
    for every opportunity in it.  When the call returns a list of [n]
    opportunities it has made [1 + 2 n] requests, all GETs: first the list
    call with the caller's keywords as the query, then, without a query,
    the custom fields and the tags of each opportunity; and every
    opportunity of the list is enriched.  (A call that fails on the way
    returns no list at all.) *)
Theorem X13_full_opportunities_request_count (self : Client.api)
  (kwargs : record) (srv : Requests.server) (tr tr' : Requests.trace)
  (l : list record) :
  Client.full_opportunities self kwargs srv tr = (Requests.Return l, tr') ->
  exists rest,
    tr' = (tr ++ request_for self Requests.GET "opportunity" kwargs :: rest)%list
    /\ List.length rest = (2 * List.length l)%nat
    /\ Forall (fun r => Requests.r_verb r = Requests.GET
                        /\ Requests.r_kwargs r = []) rest
    /\ Forall enriched l.
Proof.
  unfold Client.full_opportunities, Client.opportunities. intros H.
  apply io_bind_inv in H. destruct H as (kw & tr1 & Hk & H).
  apply lift_inv in Hk. destruct Hk as [Hk ->].
  apply keywords_inv in Hk. subst kw.
  apply io_bind_inv in H. destruct H as (l0 & tr1 & H0 & H).
  apply io_bind_inv in H0. destruct H0 as (kw & tr2 & Hk & H0).
  apply lift_inv in Hk. destruct Hk as [Hk ->].
  apply keywords_inv in Hk. subst kw.
  apply io_bind_inv in H0. destruct H0 as (j & tr2 & Hg & H0).
  apply get_inv in Hg. destruct Hg as (resp & -> & _).
  apply lift_inv in H0. destruct H0 as [_ ->].
  apply for_each_inject_inv in H.
  destruct H as (rest & -> & Hlen & _ & Hget & Hall).
  exists rest. split; [|split; [|split]]; try assumption.
  rewrite <- app_assoc. reflexivity.
Qed.

Lemma X12_full_opportunity_makes_three_requests_witness :
  exists o,
    Client.full_opportunity acme (VInt 7) crm []
    = (Requests.Return o,
       [request_for acme Requests.GET "opportunity/7" [];
        request_for acme Requests.GET "opportunity/7/customfields" [];
        request_for acme Requests.GET "opportunity/7/tag" []])
    /\ enriched o.
Proof.
  destruct (Client.full_opportunity acme (VInt 7) crm []) as [[o|e] tr'] eqn:E.
  - destruct (X12_full_opportunity_makes_three_requests _ _ _ _ _ _ E)
      as (oid & oid' & Htr & He & Hid).
    vm_compute in E. inversion E; subst o tr'.
    exists [field "id" (VStr "7");
            field "raw_customfields"
              (VList [VDict [field "label" (VStr "Source"); field "text" (VStr "Web")]]);
            field "raw_datatags" (VList [datatag "signed" "2021-03-05T00:00:00Z"]);
            field "tags_id" (VList [VDict [field "name" (VStr "vip")]])].
    split; [reflexivity | exact He].
  - vm_compute in E. discriminate E.
Defined.

Lemma X13_full_opportunities_request_count_witness :
  exists l tr',
    Client.full_opportunities acme [] crm [] = (Requests.Return l, tr')
    /\ List.length l = 2%nat /\ List.length tr' = 5%nat /\ Forall enriched l.
Proof.
  destruct (Client.full_opportunities acme [] crm []) as [[l|e] tr'] eqn:E.
  - destruct (X13_full_opportunities_request_count _ _ _ _ _ _ E)
      as (rest & Htr & Hlen & _ & Hall).
    exists l, tr'. split; [reflexivity|].
    assert (Hl : List.length l = 2%nat).
    { vm_compute in E. inversion E. reflexivity. }
    split; [exact Hl|]. split; [|exact Hall].
    rewrite Htr. cbn [app List.length]. rewrite Hlen, Hl. reflexivity.
  - vm_compute in E. discriminate E.
Defined.

Lemma append_assoc (a b c : string) : (a ++ b) ++ c = a ++ b ++ c.
Proof. induction a as [|x a IH]; cbn; [reflexivity|]. rewrite IH. reflexivity. Qed.

Lemma request_unknown_method (self : Client.api) (method path : string)
  (kwargs : record) (srv : Requests.server) (tr : Requests.trace) :
  verb_named (lower_string method) = None ->
  snd (Client.request self method path kwargs srv tr) = tr
  /\ (keywords ["self"; "method"; "path"] kwargs = Ok kwargs ->
      Client.request self method path kwargs srv tr
      = (Requests.Throw (Requests.Python ValueError), tr)).
Proof.
  intros Hv. unfold Client.request, Requests.io_bind.
  assert (Eget : String.eqb (lower_string method) "get" = false).
  { unfold verb_named in Hv.
    destruct (String.eqb (lower_string method) "get"); [discriminate|reflexivity]. }
  destruct (keywords ["self"; "method"; "path"] kwargs) as [kw|e] eqn:Ek;
    cbn [Requests.lift Requests.ret Requests.throw].
  - rewrite Eget, (verb_of_named _ Eget), Hv. split; [reflexivity|].
    intros _. reflexivity.
  - split; [reflexivity|discriminate].
Qed.

Lemma request_refused (self : Client.api) (method path : string)
  (kwargs : record) (srv : Requests.server) (tr : Requests.trace)
  (v : Requests.verb) (resp : Requests.response) :
  verb_named (lower_string method) = Some v ->
  keywords ["self"; "method"; "path"] kwargs = Ok kwargs ->
  srv tr (request_for self v path kwargs) = Some resp ->
  ~ accepted resp ->
  Client.request self method path kwargs srv tr
  = (Requests.Throw (Requests.HTTPError (Requests.status_code resp)),
     (tr ++ [request_for self v path kwargs])%list).
Proof.
  intros Hv Hk Hs Hno. unfold Client.request.
  unfold Requests.io_bind at 1. rewrite Hk. cbn [Requests.lift Requests.ret].
  assert (Hst : (400 <=? Requests.status_code resp)
                && (Requests.status_code resp <? 600) = true).
  { apply andb_true_iff. unfold accepted in Hno.
    split; [apply Z.leb_le | apply Z.ltb_lt]; lia. }
  destruct (String.eqb (lower_string method) "get") eqn:Eget.
  - unfold verb_named in Hv. rewrite Eget in Hv. inversion Hv; subst v.
    unfold Requests.io_bind at 1. unfold Requests.send.
    fold (request_for self Requests.GET path kwargs). rewrite Hs.
    unfold Requests.io_bind at 1. unfold Requests.raise_for_status.
    rewrite Hst. reflexivity.
  - rewrite (verb_of_named _ Eget), Hv.
    unfold Requests.io_bind at 1. unfold Requests.send.
    fold (request_for self v path kwargs). rewrite Hs.
    unfold Requests.io_bind at 1. unfold Requests.raise_for_status.
    rewrite Hst. reflexivity.
Qed.

(** X14: What one call of [request] does on the wire.  A call that
    returns has made exactly one request: with the verb its method names
    in any letter case, to the base URL followed by the path, with the key
    as the user name and the account name as the password, carrying the
    keywords, and answered with a status outside 400..599; a GET returns
    the decoded body, the other verbs the response.  A method that is none
    of get, put, post and delete sends nothing and is a ValueError.  An
    answer with a status in 400..599 is an HTTPError with that status,
    after the one request. *)
Theorem X14_request_on_the_wire (self : Client.api) (method path : string)
  (kwargs : record) (srv : Requests.server) (tr : Requests.trace) :
  (forall r tr',
     Client.request self method path kwargs srv tr = (Requests.Return r, tr') ->
     exists v resp,
       verb_named (lower_string method) = Some v
       /\ tr' = (tr ++ [Requests.mk_request v
                          ("https://" ++ Client.capsule_name self
                           ++ ".capsulecrm.com/api/" ++ path)
                          (Client.capsule_key self, Client.capsule_name self)
                          kwargs])%list
       /\ srv tr (request_for self v path kwargs) = Some resp
       /\ accepted resp
       /\ (v = Requests.GET ->
           exists j, Requests.body resp = Some j /\ r = Client.Json j)
       /\ (v <> Requests.GET -> r = Client.Response resp))
  /\ (verb_named (lower_string method) = None ->
      snd (Client.request self method path kwargs srv tr) = tr
      /\ (keywords ["self"; "method"; "path"] kwargs = Ok kwargs ->
          Client.request self method path kwargs srv tr
          = (Requests.Throw (Requests.Python ValueError), tr)))
  /\ (forall v resp,
        verb_named (lower_string method) = Some v ->
        keywords ["self"; "method"; "path"] kwargs = Ok kwargs ->
        srv tr (request_for self v path kwargs) = Some resp ->
        ~ accepted resp ->
        Client.request self method path kwargs srv tr
        = (Requests.Throw (Requests.HTTPError (Requests.status_code resp)),
           (tr ++ [request_for self v path kwargs])%list)).
Proof.
  split; [|split].
  - intros r tr' H. apply request_inv in H.
    destruct H as (v & resp & Hv & -> & Hs & Hok & Hget & Hother).
    exists v, resp. repeat split; try assumption.
    unfold request_for, Client.base_url.
    rewrite !append_assoc. reflexivity.
  - apply request_unknown_method.
  - apply request_refused.
Qed.

Lemma X14_request_on_the_wire_witness :
  Client.request acme "PATCH" "opportunity/7" [] crm []
  = (Requests.Throw (Requests.Python ValueError), [])
  /\ Client.request acme "Delete" "opportunity/1" [] crm []
     = (Requests.Throw (Requests.HTTPError 404),
        [request_for acme Requests.DELETE "opportunity/1" []]).
Proof.
  split.
  - apply (proj1 (proj2 (X14_request_on_the_wire acme "PATCH" "opportunity/7" [] crm [])));
      reflexivity.
  - apply (proj2 (proj2 (X14_request_on_the_wire acme "Delete" "opportunity/1" [] crm []))
             Requests.DELETE (Requests.mk_response 404 None None)).
    + reflexivity.
    + reflexivity.
    + reflexivity.
    + unfold accepted. cbn [Requests.status_code]. lia.
Defined.

(** ** Creating a party *)

Lemma post_accepted (self : Client.api) (path : string) (data : record)
  (srv : Requests.server) (tr : Requests.trace) (resp : Requests.response) :
  keywords ["self"; "method"; "path"] data = Ok data ->
  srv tr (request_for self Requests.POST path data) = Some resp ->
  accepted resp ->
  Client.post self path data srv tr
  = (Requests.Return resp,
     (tr ++ [request_for self Requests.POST path data])%list).
Proof.
  intros Hk Hs Hok. unfold Client.post, Client.request.
  unfold Requests.io_bind at 1. unfold Requests.io_bind at 1.
  rewrite Hk. cbn [Requests.lift Requests.ret].
  change (lower_string "post") with "post".
  cbn [String.eqb Ascii.eqb Bool.eqb Client.verb_of].
  unfold Requests.io_bind at 1. unfold Requests.send.
  fold (request_for self Requests.POST path data). rewrite Hs.
  unfold Requests.io_bind at 1.
  rewrite (raise_for_status_accepted _ _ _ Hok). reflexivity.
Qed.

Lemma split_no_slash (s : string) : no_slash s -> split "/" s = [s].
Proof.
  unfold no_slash. induction s as [|c s IH]; [reflexivity|].
  cbn [list_ascii_of_string In split]. intros H.
  destruct (Ascii.eqb c "/") eqn:E.
  - apply Ascii.eqb_eq in E. subst c. exfalso. apply H. left. reflexivity.
  - rewrite IH; [reflexivity|]. intros Hin. apply H. right. exact Hin.
Qed.

Lemma split_last_segment (prefix id : string) :
  no_slash id ->
  exists piece pieces,
    split "/" (prefix ++ String "/" id) = piece :: pieces
    /\ pieces <> [] /\ last pieces "" = id.
Proof.
  intros Hid. induction prefix as [|c p IH].
  - cbn [String.append split]. change (Ascii.eqb "/" "/") with true. cbv iota.
    rewrite (split_no_slash _ Hid). exists "", [id].
    split; [reflexivity|]. split; [discriminate|reflexivity].
  - destruct IH as (piece & pieces & E & Hne & Hlast).
    cbn [String.append split]. rewrite E.
    destruct (Ascii.eqb c "/").
    + exists "", (piece :: pieces). split; [reflexivity|].
      split; [discriminate|].
      destruct pieces; [contradiction|exact Hlast].
    + exists (String c piece), pieces. repeat split; assumption.
Qed.

Lemma last_segment_spec (prefix id : string) :
  no_slash id -> last_segment (prefix ++ String "/" id) = id.
Proof.
  intros Hid. unfold last_segment.
  destruct (split_last_segment prefix id Hid) as (piece & pieces & E & Hne & Hlast).
  rewrite E. destruct pieces; [contradiction|exact Hlast].
Qed.

(** X15: [post_person] asks for a name before it talks to the server.
    A person with neither 'firstName' nor 'lastName' is a ValueError and
    no request is made.  With one of the two, the call makes one POST to
    [person] whose body is the person under the key 'person', and, when
    the server accepts it, returns the last segment of the 'location' the
    server answers with. *)
Theorem X15_post_person_needs_a_name (self : Client.api) (person : record)
  (srv : Requests.server) (tr : Requests.trace) :
  (dict_get (KStr "firstName") person = None ->
   dict_get (KStr "lastName") person = None ->
   Client.post_person self (VDict person) srv tr
   = (Requests.Throw (Requests.Python ValueError), tr))
  /\ (forall resp loc,
        dict_has (KStr "firstName") person || dict_has (KStr "lastName") person
        = true ->
        srv tr (request_for self Requests.POST "person"
                  [(KStr "person", VDict person)]) = Some resp ->
        accepted resp ->
        Requests.location resp = Some loc ->
        Client.post_person self (VDict person) srv tr
        = (Requests.Return (last_segment loc),
           (tr ++ [request_for self Requests.POST "person"
                     [(KStr "person", VDict person)]])%list)).
Proof.
  split.
  - intros H1 H2. unfold Client.post_person.
    unfold Requests.io_bind at 1. cbn [py_contains Requests.lift Requests.ret].
    unfold dict_has. rewrite H1.
    unfold Requests.io_bind at 1. cbn [py_contains Requests.lift Requests.ret].
    unfold dict_has. rewrite H2. reflexivity.
  - intros resp loc Hname Hs Hok Hloc. unfold Client.post_person.
    unfold Requests.io_bind at 1. cbn [py_contains Requests.lift Requests.ret].
    assert (Hpost :
      (resp <-- Client.post self "person" [(KStr "person", VDict person)] ;;
       Client.created_id resp) srv tr
      = (Requests.Return (last_segment loc),
         (tr ++ [request_for self Requests.POST "person"
                   [(KStr "person", VDict person)]])%list)).
    { unfold Requests.io_bind at 1.
      rewrite (post_accepted self "person" [(KStr "person", VDict person)] srv tr resp eq_refl Hs Hok).
      unfold Client.created_id, Requests.header_location.
      rewrite Hloc. reflexivity. }
    destruct (dict_has (KStr "firstName") person) eqn:E1.
    + unfold Requests.io_bind at 1. cbn [Requests.ret negb andb]. exact Hpost.
    + cbn [orb] in Hname. unfold Requests.io_bind at 1.
      cbn [py_contains Requests.lift Requests.ret]. rewrite Hname.
      cbn [negb andb]. exact Hpost.
Qed.

Lemma X15_post_person_needs_a_name_witness :
  Client.post_person acme (VDict [field "title" (VStr "Dr")]) crm []
  = (Requests.Throw (Requests.Python ValueError), [])
  /\ Client.post_person acme (VDict [field "lastName" (VStr "Lee")])
       (always (Requests.mk_response 201
                  (Some "https://acme.capsulecrm.com/api/party/101") None)) []
     = (Requests.Return "101",
        [request_for acme Requests.POST "person"
           [(KStr "person", VDict [field "lastName" (VStr "Lee")])]]).
Proof.
  split.
  - apply (proj1 (X15_post_person_needs_a_name acme [field "title" (VStr "Dr")] crm []));
      reflexivity.
  - apply (proj2 (X15_post_person_needs_a_name acme [field "lastName" (VStr "Lee")]
                    (always (Requests.mk_response 201
                               (Some "https://acme.capsulecrm.com/api/party/101") None))
                    [])
             (Requests.mk_response 201
                (Some "https://acme.capsulecrm.com/api/party/101") None)
             "https://acme.capsulecrm.com/api/party/101").
    + reflexivity.
    + reflexivity.
    + left. cbn [Requests.status_code]. lia.
    + reflexivity.
Defined.

(** X16: The id a creating call returns is the last path segment of the
    'location' header.  When the server accepts the POST of
    [post_organisation] and answers with a location that ends in a slash
    followed by an id (a text without a slash), the call returns exactly
    that id; when the answer has no 'location', the call raises KeyError
    after the organisation has been posted. *)
Theorem X16_created_id_is_the_last_segment (self : Client.api)
  (organisation : pyval) (srv : Requests.server) (tr : Requests.trace)
  (resp : Requests.response) :
  let req :=
    request_for self Requests.POST "organisation"
      [(KStr "organisation", organisation)] in
  srv tr req = Some resp -> accepted resp ->
  (forall prefix id,
     no_slash id ->
     Requests.location resp = Some (prefix ++ "/" ++ id) ->
     Client.post_organisation self organisation srv tr
     = (Requests.Return id, (tr ++ [req])%list))
  /\ (Requests.location resp = None ->
      Client.post_organisation self organisation srv tr
      = (Requests.Throw (Requests.Python (KeyError "location")),
         (tr ++ [req])%list)).
Proof.
  intros req Hs Hok.
  assert (Hpost : Client.post self "organisation"
                    [(KStr "organisation", organisation)] srv tr
                  = (Requests.Return resp, (tr ++ [req])%list)).
  { apply post_accepted; [reflexivity|exact Hs|exact Hok]. }
  split.
  - intros prefix id Hid Hloc. unfold Client.post_organisation.
    unfold Requests.io_bind at 1. rewrite Hpost.
    unfold Client.created_id, Requests.header_location. rewrite Hloc.
    unfold Requests.io_bind, Requests.ret.
    change ("/" ++ id) with (String "/" id).
    rewrite (last_segment_spec _ _ Hid). reflexivity.
  - intros Hloc. unfold Client.post_organisation.
    unfold Requests.io_bind at 1. rewrite Hpost.
    unfold Client.created_id, Requests.header_location. rewrite Hloc.
    reflexivity.
Qed.

Lemma X16_created_id_is_the_last_segment_witness :
  Client.post_organisation acme (VDict [field "name" (VStr "Acme")])
    (always (Requests.mk_response 201
               (Some "https://acme.capsulecrm.com/api/party/102") None)) []
  = (Requests.Return "102",
     [request_for acme Requests.POST "organisation"
        [(KStr "organisation", VDict [field "name" (VStr "Acme")])]]).
Proof.
  destruct (X16_created_id_is_the_last_segment acme
              (VDict [field "name" (VStr "Acme")])
              (always (Requests.mk_response 201
                         (Some "https://acme.capsulecrm.com/api/party/102") None))
              []
              (Requests.mk_response 201
                 (Some "https://acme.capsulecrm.com/api/party/102") None))
    as [H _].
  - reflexivity.
  - left. cbn [Requests.status_code]. lia.
  - apply (H "https://acme.capsulecrm.com/api/party" "102").
    + unfold no_slash. cbn. intros [E|[E|[E|[]]]]; discriminate E.
    + reflexivity.
Defined.

(** ** Ids that are not strings *)

Lemma py_concat_not_string (s : string) (x : pyval) :
  (forall t, x <> VStr t) -> py_concat s x = Raise TypeError.
Proof.
  intros H. destruct x; try reflexivity. exfalso. apply (H s0). reflexivity.
Qed.

Lemma get_accepted (self : Client.api) (path : string)
  (srv : Requests.server) (tr : Requests.trace) (resp : Requests.response)
  (j : pyval) :
  srv tr (request_for self Requests.GET path []) = Some resp ->
  accepted resp -> Requests.body resp = Some j ->
  Client.get self path [] srv tr
  = (Requests.Return j, (tr ++ [request_for self Requests.GET path []])%list).
Proof.
  intros Hs Hok Hj. unfold Client.get, Client.request.
  unfold Requests.io_bind at 1. cbn [keywords dict_keys map forallb Requests.lift Requests.ret].
  unfold Requests.io_bind at 1. unfold Requests.io_bind at 1.
  cbn [keywords dict_keys map forallb Requests.lift Requests.ret].
  change (lower_string "get") with "get". cbn [String.eqb Ascii.eqb Bool.eqb].
  unfold Requests.io_bind at 1. unfold Requests.send.
  fold (request_for self Requests.GET path []). rewrite Hs.
  unfold Requests.io_bind at 1.
  rewrite (raise_for_status_accepted _ _ _ Hok).
  unfold Requests.io_bind at 1. unfold Requests.json. rewrite Hj. reflexivity.
Qed.

(** X17: The enrichment calls need the id as a string.
    [opportunity_customfields], [opportunity_tags] and
    [party_customfields] build their path with [+], so an id that is not a
    string (a number, say) is a TypeError and nothing is sent, where
    [opportunity] takes any id.  So when the server delivers an
    opportunity whose 'id' is not a string, [full_opportunity] fetches it
    and then fails with TypeError, after that one request. *)
Theorem X17_enrichment_needs_a_string_id (self : Client.api) (id : pyval)
  (srv : Requests.server) (tr : Requests.trace) :
  (forall s, id <> VStr s) ->
  Client.opportunity_customfields self id [] srv tr
  = (Requests.Throw (Requests.Python TypeError), tr)
  /\ Client.opportunity_tags self id [] srv tr
     = (Requests.Throw (Requests.Python TypeError), tr)
  /\ Client.party_customfields self id [] srv tr
     = (Requests.Throw (Requests.Python TypeError), tr)
  /\ (forall opportunity_id o resp,
        dict_get (KStr "id") o = Some id ->
        srv tr (request_for self Requests.GET
                  ("opportunity/" ++ py_str opportunity_id) []) = Some resp ->
        accepted resp ->
        Requests.body resp = Some (VDict [field "opportunity" (VDict o)]) ->
        Client.full_opportunity self opportunity_id srv tr
        = (Requests.Throw (Requests.Python TypeError),
           (tr ++ [request_for self Requests.GET
                     ("opportunity/" ++ py_str opportunity_id) []])%list)).
Proof.
  intros Hid.
  assert (H1 : forall tr, Client.opportunity_customfields self id [] srv tr
               = (Requests.Throw (Requests.Python TypeError), tr)).
  { intros tr0. unfold Client.opportunity_customfields.
    unfold Requests.io_bind at 1.
    cbn [keywords dict_keys map forallb Requests.lift Requests.ret].
    unfold Requests.io_bind at 1.
    rewrite (py_concat_not_string _ _ Hid). reflexivity. }
  split; [apply H1|]. split; [|split].
  - unfold Client.opportunity_tags. unfold Requests.io_bind at 1.
    cbn [keywords dict_keys map forallb Requests.lift Requests.ret].
    unfold Requests.io_bind at 1.
    rewrite (py_concat_not_string _ _ Hid). reflexivity.
  - unfold Client.party_customfields. unfold Requests.io_bind at 1.
    cbn [keywords dict_keys map forallb Requests.lift Requests.ret].
    unfold Requests.io_bind at 1.
    rewrite (py_concat_not_string _ _ Hid). reflexivity.
  - intros opportunity_id o resp Ho Hs Hok Hj.
    unfold Client.full_opportunity, Client.opportunity.
    unfold Requests.io_bind at 1. unfold Requests.io_bind at 1.
    rewrite (get_accepted _ _ _ _ _ _ Hs Hok Hj).
    cbn [CapsuleAPI.opportunity py_getitem getitem field dict_get key_eqb
         String.eqb Ascii.eqb Bool.eqb bind dict_new Requests.lift Requests.ret].
    unfold Client.inject_opportunity. unfold Requests.io_bind at 1.
    unfold Client.updated, Client.inject_opportunity_customfields, Client.load_with.
    unfold Requests.io_bind at 1.
    rewrite (Opportunity_id _ _ Ho). cbn [Requests.lift Requests.ret].
    rewrite H1. reflexivity.
Qed.

Lemma X17_enrichment_needs_a_string_id_witness :
  Client.opportunity_customfields acme (VInt 9) [] crm []
  = (Requests.Throw (Requests.Python TypeError), [])
  /\ Client.full_opportunity acme (VInt 9) crm []
     = (Requests.Throw (Requests.Python TypeError),
        [request_for acme Requests.GET "opportunity/9" []]).
Proof.
  destruct (X17_enrichment_needs_a_string_id acme (VInt 9) crm [])
    as (H1 & _ & _ & H4).
  - discriminate.
  - split; [exact H1|].
    apply (H4 (VInt 9) [field "id" (VInt 9)]
              (Requests.mk_response 200 None
                 (Some (VDict [field "opportunity" (VDict [field "id" (VInt 9)])])))).
    + reflexivity.
    + reflexivity.
    + left. cbn [Requests.status_code]. lia.
    + reflexivity.
Defined.

(** ** Enriching a party *)

Lemma party_customfields_inv (self : Client.api) (id : pyval)
  (kwargs : record) (srv : Requests.server) (tr tr' : Requests.trace) (v : pyval) :
  Client.party_customfields self id kwargs srv tr = (Requests.Return v, tr') ->
  exists pid,
    id = VStr pid
    /\ tr' = (tr ++ [request_for self Requests.GET
                       ("party/" ++ pid ++ "/customfields") kwargs])%list.
Proof.
  unfold Client.party_customfields. intros H.
  apply io_bind_inv in H. destruct H as (kw & tr1 & Hk & H).
  apply lift_inv in Hk. destruct Hk as [Hk ->].
  apply keywords_inv in Hk. subst kw.
  apply io_bind_inv in H. destruct H as (path & tr1 & Hp & H).
  apply lift_inv in Hp. destruct Hp as [Hp ->].
  apply py_concat_inv in Hp. destruct Hp as (pid & -> & ->).
  apply io_bind_inv in H. destruct H as (j & tr1 & Hg & H).
  apply get_inv in Hg. destruct Hg as (resp & -> & _).
  apply lift_inv in H. destruct H as [_ ->].
  exists pid. split; reflexivity.
Qed.

Lemma inject_party_customfields_inv (self : Client.api) (p0 p : record)
  (srv : Requests.server) (tr tr' : Requests.trace) :
  Client.updated (Client.inject_party_customfields self p0) srv tr
  = (Requests.Return p, tr') ->
  exists pid plain dated,
    dict_get (KStr "id") p0 = Some (VStr pid)
    /\ tr' = (tr ++ [request_for self Requests.GET
                       ("party/" ++ pid ++ "/customfields") []])%list
    /\ p = dict_set (KStr "raw_datatags") (VList dated)
             (dict_set (KStr "raw_customfields") (VList plain) p0).
Proof.
  unfold Client.inject_party_customfields. intros H.
  apply updated_load_with_inv in H. destruct H as (cf & Hf & Hl).
  apply io_bind_inv in Hf. destruct Hf as (id & tr1 & Hid & Hf).
  apply lift_inv in Hid. destruct Hid as [Hid ->].
  apply party_customfields_inv in Hf. destruct Hf as (pid & -> & ->).
  assert (Hfst : fst (CustomFieldsMixin.load_customfields_from_api p0 cf) = Ok tt)
    by (rewrite Hl; reflexivity).
  destruct (load_customfields_ok _ _ Hfst) as (plain & dated & E & _).
  rewrite E in Hl. apply (f_equal snd) in Hl. cbn [snd] in Hl. subst p.
  exists pid, plain, dated. split; [|split; reflexivity].
  unfold Party.id, getitem in Hid.
  destruct (dict_get (KStr "id") p0); [|discriminate].
  inversion Hid. reflexivity.
Qed.

(** X18: [full_party] loads the custom fields of a party and nothing
    else.  When the call returns it has made exactly two GETs, the party
    under the id it was given and the custom fields under the id the party
    itself carries (a string); the party it returns is of the class
    [party] chose, and its record is the record of the response with
    'raw_customfields' and 'raw_datatags' set.  Every other key is as the
    server sent it: in particular no tags are loaded, so [tags] works on
    the result only when the response had a 'tags_id' of its own. *)
Theorem X18_full_party_loads_custom_fields_only (self : Client.api)
  (party_id : pyval) (srv : Requests.server) (tr tr' : Requests.trace)
  (p : CapsuleAPI.party_entity) :
  Client.full_party self party_id srv tr = (Requests.Return p, tr') ->
  exists resp body p0 pid plain dated,
    srv tr (request_for self Requests.GET ("party/" ++ py_str party_id) [])
    = Some resp
    /\ Requests.body resp = Some body
    /\ CapsuleAPI.party body = Ok p0
    /\ is_person p = is_person p0
    /\ dict_get (KStr "id") (entity_record p0) = Some (VStr pid)
    /\ tr' = (tr ++ [request_for self Requests.GET ("party/" ++ py_str party_id) [];
                     request_for self Requests.GET
                       ("party/" ++ pid ++ "/customfields") []])%list
    /\ entity_record p
       = dict_set (KStr "raw_datatags") (VList dated)
           (dict_set (KStr "raw_customfields") (VList plain) (entity_record p0))
    /\ dict_get (KStr "tags_id") (entity_record p)
       = dict_get (KStr "tags_id") (entity_record p0).
Proof.
  unfold Client.full_party, Client.party. intros H.
  apply io_bind_inv in H. destruct H as (p0 & tr1 & H0 & H).
  apply io_bind_inv in H0. destruct H0 as (body & tr2 & Hg & H0).
  apply get_inv in Hg. destruct Hg as (resp & -> & Hs & _ & Hb).
  apply lift_inv in H0. destruct H0 as [Hp ->].
  destruct p0 as [r0|r0].
  - apply io_bind_inv in H. destruct H as (r & tr3 & Hi & H).
    apply ret_inv in H. destruct H as [-> ->].
    apply inject_party_customfields_inv in Hi.
    destruct Hi as (pid & plain & dated & Hid & -> & ->).
    exists resp, body, (CapsuleAPI.APerson r0), pid, plain, dated.
    repeat split; try assumption.
    + rewrite <- app_assoc. reflexivity.
    + cbn [entity_record]. rewrite !dict_get_set_other by reflexivity. reflexivity.
  - apply io_bind_inv in H. destruct H as (r & tr3 & Hi & H).
    apply ret_inv in H. destruct H as [-> ->].
    apply inject_party_customfields_inv in Hi.
    destruct Hi as (pid & plain & dated & Hid & -> & ->).
    exists resp, body, (CapsuleAPI.AnOrganisation r0), pid, plain, dated.
    repeat split; try assumption.
    + rewrite <- app_assoc. reflexivity.
    + cbn [entity_record]. rewrite !dict_get_set_other by reflexivity. reflexivity.
Qed.

Lemma X18_full_party_loads_custom_fields_only_witness :
  exists p,
    Client.full_party acme (VInt 5)
      (always (Requests.mk_response 200 None
                 (Some (VDict [field "organisation" (VDict [field "id" (VStr "5")]);
                               field "customFields" (VDict [])]))))
      []
    = (Requests.Return p,
       [request_for acme Requests.GET "party/5" [];
        request_for acme Requests.GET "party/5/customfields" []])
    /\ is_person p = false
    /\ dict_get (KStr "tags_id") (entity_record p) = None.
Proof.
  destruct (Client.full_party acme (VInt 5)
      (always (Requests.mk_response 200 None
                 (Some (VDict [field "organisation" (VDict [field "id" (VStr "5")]);
                               field "customFields" (VDict [])]))))
      []) as [[p|e] tr'] eqn:E.
  - destruct (X18_full_party_loads_custom_fields_only _ _ _ _ _ _ E)
      as (resp & body & p0 & pid & plain & dated & Hs & Hb & Hp & Hk & Hid & Htr
          & Hr & Ht).
    vm_compute in E. inversion E; subst p tr'.
    eexists. split; [reflexivity|]. split; reflexivity.
  - vm_compute in E. discriminate E.
Defined.

(** ** A custom field the code cannot read *)

Lemma customfields_malformed (self : record) (before after : list pyval)
  (entry : record) (sofar : pydict pyval) :
  get self "raw_customfields" = VList (before ++ VDict entry :: after) ->
  dict_collect CustomFieldsMixin.to_tuple before [] = Ok sofar ->
  dict_get (KStr "text") entry = None ->
  dict_get (KStr "boolean") entry = None ->
  dict_get (KStr "number") entry = None ->
  CustomFieldsMixin.customfields self = Raise ValueError.
Proof.
  intros Hraw Hbefore Ht Hb Hn.
  rewrite (customfields_of_raw _ _ Hraw) by (destruct before; discriminate).
  rewrite dict_collect_app, Hbefore. cbn [bind dict_collect].
  rewrite (to_tuple_untyped _ Ht Hb Hn). reflexivity.
Qed.

Lemma name_part_found (self : record) (key attribute : string) :
  CustomFieldsMixin.customfields self = Raise ValueError ->
  (exists v, name_part self key attribute = Ok v)
  \/ name_part self key attribute = Raise ValueError.
Proof.
  intros Hcf. unfold name_part.
  destruct (dict_get (KStr key) self) as [v|]; [left; exists v; reflexivity|].
  destruct (dict_get (KStr attribute) self) as [v|]; [left; exists v; reflexivity|].
  rewrite Hcf. right. reflexivity.
Qed.

Lemma name_part_unreadable (self : record) (key attribute : string) :
  CustomFieldsMixin.customfields self = Raise ValueError ->
  dict_get (KStr key) self = None ->
  dict_get (KStr attribute) self = None ->
  name_part self key attribute = Raise ValueError.
Proof.
  intros Hcf Hk Ha. unfold name_part. rewrite Hk, Ha, Hcf. reflexivity.
Qed.

(** X20: one custom field the code cannot read breaks every attribute that
    falls back on the custom fields.  When an entry of 'raw_customfields'
    has neither 'text' nor 'boolean' nor 'number' (and the entries before
    it are read without error), [__getattr__] raises ValueError, not
    AttributeError, for every name but 'customfields' that is no key of
    the record, so [getattr(..., None)] does not catch it; the name
    'customfields' itself the hook refuses with AttributeError as always.
    And [Person.name] raises ValueError whenever the person has neither
    'firstName' nor a raw key 'first_name', or neither 'lastName' nor a raw
    key 'last_name', wherever the other name comes from. *)
Theorem X20_unreadable_field_breaks_fallbacks (self : record)
  (before after : list pyval) (entry : record) (sofar : pydict pyval) :
  get self "raw_customfields" = VList (before ++ VDict entry :: after) ->
  dict_collect CustomFieldsMixin.to_tuple before [] = Ok sofar ->
  dict_get (KStr "text") entry = None ->
  dict_get (KStr "boolean") entry = None ->
  dict_get (KStr "number") entry = None ->
  (forall name,
     dict_get (KStr name) self = None -> name <> "customfields" ->
     Opportunity.getattr_ self name = Raise ValueError
     /\ Party.getattr_ self name = Raise ValueError)
  /\ (Opportunity.getattr_ self "customfields" = Raise (AttributeError "")
      /\ Party.getattr_ self "customfields" = Raise (AttributeError "customfields"))
  /\ ((dict_get (KStr "firstName") self = None
       /\ dict_get (KStr "first_name") self = None)
      \/ (dict_get (KStr "lastName") self = None
          /\ dict_get (KStr "last_name") self = None) ->
      Person.name self = Raise ValueError).
Proof.
  intros Hraw Hbefore Ht Hb Hn.
  pose proof (customfields_malformed _ _ _ _ _ Hraw Hbefore Ht Hb Hn) as Hcf.
  split; [|split].
  - intros name Hname Hne. apply String.eqb_neq in Hne. split.
    + unfold Opportunity.getattr_, Opportunity.attr_customfields.
      rewrite Hne, Hname, Hcf. reflexivity.
    + unfold Party.getattr_, Party.attr_customfields.
      rewrite Hne, Hname, Hcf. reflexivity.
  - split; reflexivity.
  - intros H. rewrite name_parts. destruct H as [[H1 H2]|[H1 H2]].
    + rewrite (name_part_unreadable _ _ _ Hcf H1 H2). reflexivity.
    + rewrite (name_part_unreadable _ "lastName" "last_name" Hcf H1 H2).
      destruct (name_part_found self "firstName" "first_name" Hcf) as [(v & E)|E];
        rewrite E; reflexivity.
Qed.

Lemma X20_unreadable_field_breaks_fallbacks_witness :
  Person.name
    [field "id" (VInt 42); field "lastName" (VStr "Lee");
     field "raw_customfields" (VList [VDict [field "label" (VStr "Empty")]])]
  = Raise ValueError
  /\ Person.name
       [field "id" (VInt 42); field "first_name" (VStr "Ann");
        field "raw_customfields" (VList [VDict [field "label" (VStr "Empty")]])]
     = Raise ValueError.
Proof.
  split.
  - apply (proj2 (proj2 (X20_unreadable_field_breaks_fallbacks
             [field "id" (VInt 42); field "lastName" (VStr "Lee");
              field "raw_customfields" (VList [VDict [field "label" (VStr "Empty")]])]
             [] [] [field "label" (VStr "Empty")] []
             eq_refl eq_refl eq_refl eq_refl eq_refl))).
    left. split; reflexivity.
  - apply (proj2 (proj2 (X20_unreadable_field_breaks_fallbacks
             [field "id" (VInt 42); field "first_name" (VStr "Ann");
              field "raw_customfields" (VList [VDict [field "label" (VStr "Empty")]])]
             [] [] [field "label" (VStr "Empty")] []
             eq_refl eq_refl eq_refl eq_refl eq_refl))).
    right. split; reflexivity.
Defined.

(** ** Enriching a list of parties *)

Lemma for_each_party_inv (self : Client.api) (l l' : list record)
  (srv : Requests.server) (tr tr' : Requests.trace) :
  Client.for_each (fun p => Client.updated (Client.inject_party_customfields self p))
    l srv tr
  = (Requests.Return l', tr') ->
  exists rest,
    tr' = (tr ++ rest)%list
    /\ List.length rest = List.length l'
    /\ Forall plain_get rest
    /\ Forall with_customfields l'.
Proof.
  revert l' tr tr'. induction l as [|x l IH]; intros l' tr tr' H.
  - cbn in H. inversion H; subst. exists []. rewrite app_nil_r.
    repeat split; constructor.
  - cbn [Client.for_each] in H.
    apply io_bind_inv in H. destruct H as (x' & tr1 & Hx & H).
    apply io_bind_inv in H. destruct H as (l'' & tr2 & Hl & H).
    apply ret_inv in H. destruct H as [-> ->].
    apply inject_party_customfields_inv in Hx.
    destruct Hx as (pid & plain & dated & _ & -> & ->).
    apply IH in Hl. destruct Hl as (rest & -> & Hlen & Hget & Hall).
    eexists (_ :: rest). split; [|split; [|split]].
    + rewrite <- app_assoc. reflexivity.
    + cbn [List.length]. rewrite Hlen. reflexivity.
    + constructor; [split; reflexivity|exact Hget].
    + constructor; [|exact Hall]. exists plain, dated. split.
      * rewrite dict_get_set_other by reflexivity. apply dict_get_set_same.
      * apply dict_get_set_same.
Qed.

Lemma keywords_fresh (taken : list string) (kwargs kwargs' : record) (name : string) :
  keywords taken kwargs = Ok kwargs' -> In name taken ->
  dict_get (KStr name) kwargs = None.
Proof.
  unfold keywords, dict_keys. intros H Hin.
  destruct (forallb (keyword_ok taken) (map fst kwargs)) eqn:E; [|discriminate].
  clear H. induction kwargs as [|[k v] kwargs IH]; [reflexivity|].
  cbn [map fst forallb] in E. apply andb_true_iff in E. destruct E as [Ek E].
  cbn [dict_get]. rewrite (IH E).
  destruct k as [| | |s]; try discriminate Ek; try reflexivity.
  cbn [keyword_ok] in Ek. apply negb_true_iff in Ek.
  cbn [key_eqb]. destruct (String.eqb s name) eqn:Es; [|reflexivity].
  apply String.eqb_eq in Es. subst s.
  assert (Hex : existsb (String.eqb name) taken = true).
  { apply existsb_exists. exists name. split; [exact Hin|apply String.eqb_refl]. }
  rewrite Hex in Ek. discriminate.
Qed.

Lemma dict_get_update_other (d e : record) (k : key) :
  dict_get k e = None -> dict_get k (dict_update d e) = dict_get k d.
Proof.
  unfold dict_update. revert d. induction e as [|[k' v] e IH]; intros d H.
  - reflexivity.
  - cbn [dict_get] in H. destruct (key_eqb k' k) eqn:E; [discriminate|].
    cbn [fold_left fst snd]. rewrite (IH _ H).
    apply dict_get_set_other. exact E.
Qed.

(** X19: [full_parties] costs one request for the list and one for every
    party in it.  When the call returns [n] people and [m] organisations
    it has made [1 + n + m] requests, all GETs: first the list call, whose
    query holds 'start' and 'limit' exactly when they are not [None]
    (a [start] of 0 is sent), then, without a query, the custom fields of
    each party; and every party returned holds its custom fields and its
    date tags as lists. *)
Theorem X19_full_parties_request_count (self : Client.api)
  (start limit : pyval) (kwargs : record) (srv : Requests.server)
  (tr tr' : Requests.trace) (people organisations : list record) :
  Client.full_parties self start limit kwargs srv tr
  = (Requests.Return (people, organisations), tr') ->
  exists rest,
    tr' = (tr ++ request_for self Requests.GET "party"
                   (Client.party_params start limit kwargs) :: rest)%list
    /\ List.length rest = (List.length people + List.length organisations)%nat
    /\ Forall plain_get rest
    /\ Forall with_customfields people
    /\ Forall with_customfields organisations
    /\ dict_get (KStr "start") (Client.party_params start limit kwargs)
       = match start with VNone => None | _ => Some start end
    /\ dict_get (KStr "limit") (Client.party_params start limit kwargs)
       = match limit with VNone => None | _ => Some limit end.
Proof.
  unfold Client.full_parties, Client.parties. intros H.
  apply io_bind_inv in H. destruct H as (kw & tr1 & Hk & H).
  apply lift_inv in Hk. destruct Hk as [Hk ->].
  pose proof (keywords_fresh _ _ _ "start" Hk ltac:(cbn; tauto)) as Hstart.
  pose proof (keywords_fresh _ _ _ "limit" Hk ltac:(cbn; tauto)) as Hlimit.
  apply keywords_inv in Hk. subst kw.
  apply io_bind_inv in H. destruct H as (found & tr1 & H0 & H).
  apply io_bind_inv in H0. destruct H0 as (kw & tr2 & Hk & H0).
  apply lift_inv in Hk. destruct Hk as [Hk ->].
  apply keywords_inv in Hk. subst kw.
  apply io_bind_inv in H0. destruct H0 as (j & tr2 & Hg & H0).
  apply get_inv in Hg. destruct Hg as (resp & -> & _).
  apply lift_inv in H0. destruct H0 as [_ ->].
  unfold Client.inject_parties in H.
  apply io_bind_inv in H. destruct H as (ps & tr1 & Hp & H).
  apply io_bind_inv in H. destruct H as (os & tr2 & Ho & H).
  apply ret_inv in H. destruct H as [E ->].
  inversion E; subst ps os.
  apply for_each_party_inv in Hp. destruct Hp as (r1 & -> & L1 & G1 & A1).
  apply for_each_party_inv in Ho. destruct Ho as (r2 & -> & L2 & G2 & A2).
  exists (r1 ++ r2)%list. split; [|split; [|split; [|split; [|split; [|split]]]]].
  - rewrite <- !app_assoc. reflexivity.
  - rewrite length_app, L1, L2. reflexivity.
  - apply Forall_app. split; assumption.
  - exact A1.
  - exact A2.
  - unfold Client.party_params. rewrite (dict_get_update_other _ _ _ Hstart).
    destruct start, limit; reflexivity.
  - unfold Client.party_params. rewrite (dict_get_update_other _ _ _ Hlimit).
    destruct start, limit; reflexivity.
Qed.

Lemma X19_full_parties_request_count_witness :
  exists people organisations tr',
    Client.full_parties acme (VInt 0) VNone []
      (always (Requests.mk_response 200 None
                 (Some (VDict [field "parties"
                                 (VDict [field "person" (VDict [field "id" (VStr "5")])]);
                               field "customFields" (VDict [])]))))
      []
    = (Requests.Return (people, organisations), tr')
    /\ List.length tr' = 2%nat
    /\ Forall with_customfields people.
Proof.
  destruct (Client.full_parties acme (VInt 0) VNone []
      (always (Requests.mk_response 200 None
                 (Some (VDict [field "parties"
                                 (VDict [field "person" (VDict [field "id" (VStr "5")])]);
                               field "customFields" (VDict [])]))))
      []) as [[[people organisations]|e] tr'] eqn:E.
  - destruct (X19_full_parties_request_count _ _ _ _ _ _ _ _ _ E)
      as (rest & Htr & Hlen & _ & Hp & _).
    exists people, organisations, tr'. split; [reflexivity|].
    split; [|exact Hp].
    vm_compute in E. inversion E. reflexivity.
  - vm_compute in E. discriminate E.
Defined.
